(** * Chaturanga backend: position evaluation orchestrator

    A shallow embedding of the Python backend
    ([backend/chess_scoring.py], [backend/app/services/chess_service.py],
    [backend/app/utils/chess_utils.py], [backend/app/models/chess.py],
    [backend/app/api/chess_routes.py], [backend/app/core/config.py]) and
    the properties of its analysis pipeline.

    Conventions of the embedding:
    - a Python call that may raise is a value of [result]; a method that
      mutates [self] or an argument is a function in the state-and-exception
      monad [M] over the mutated objects;
    - Python [float]s are idealised as rationals ([Q]): [n / 100.0] is the
      rational [n/100] as long as [n] converts to a float, and raises
      [OverflowError] beyond the range of a double;
    - a Python [str] is the [string] of the bytes of its UTF-8 encoding;
      splitting at ["::"], comparing and concatenating are the same on
      both, and the whitespace of [str.strip] is the Unicode whitespace, in
      its encoded form;
    - [print] calls are not modelled.

    What is taken from python-chess, the library the backend drives:
    - [info["score"]] of [engine.analyse] is a [chess.engine.PovScore], a
      score relative to the side to move together with that side; its
      [str] is its [repr], ["PovScore(Cp(+27), WHITE)"];
    - [PovScore] answers [is_mate()], [white()], [black()], [pov()] and
      [wdl()]; it has no [mate()];
    - [Board.push] saves the position it leaves and [Board.pop] restores
      it; move generation, move application and FEN parsing are the
      parameters [RulesLibrary]; the engine process is the parameter
      [EngineProcess]. *)

From Stdlib Require Import List String Ascii Bool ZArith QArith Lia.
From Stdlib Require Import DecimalString DecimalZ DecimalPos DecimalFacts.
From Stdlib Require Import Permutation Sorted.
Import ListNotations.
Local Open Scope string_scope.
Local Open Scope Z_scope.

Set Implicit Arguments.

(* ================================================================== *)
(** * Python runtime: exceptions and results *)

(** The exception classes the backend raises, catches or lets through.
    The payload is the message ([str(e)]). *)
Inductive exn : Type :=
| ValueError (msg : string)
| RuntimeError (msg : string)
| AttributeError (msg : string)
| IndexError (msg : string)
| FileNotFoundError (msg : string)
| EngineError (msg : string)        (* chess.engine.EngineError and kin *)
| ValidationError (msg : string)    (* pydantic *)
| SystemExit (code : Z)
| KeyboardInterrupt.

(** [isinstance(e, Exception)]: [SystemExit] and [KeyboardInterrupt] derive
    from [BaseException] only, so [except Exception] lets them through. *)
Definition is_Exception (e : exn) : bool :=
  match e with
  | SystemExit _ | KeyboardInterrupt => false
  | _ => true
  end.

(** [str(e)] *)
Definition str_exn (e : exn) : string :=
  match e with
  | ValueError m | RuntimeError m | AttributeError m | IndexError m
  | FileNotFoundError m | EngineError m | ValidationError m => m
  | SystemExit c => NilZero.string_of_int (Z.to_int c)
  | KeyboardInterrupt => ""
  end.

Inductive result (A : Type) : Type :=
| Ok (a : A)
| Raise (e : exn).
Arguments Ok {A} a.
Arguments Raise {A} e.

Definition is_ok {A} (r : result A) : bool :=
  match r with Ok _ => true | Raise _ => false end.

(** State-and-exception monad: the state is the tuple of objects a method
    may mutate; a raise keeps the mutations done so far. *)
Definition M (S A : Type) : Type := S -> result A * S.

Definition ret {S A} (a : A) : M S A := fun s => (Ok a, s).
Definition raise {S A} (e : exn) : M S A := fun s => (Raise e, s).
Definition bind {S A B} (m : M S A) (k : A -> M S B) : M S B :=
  fun s => match m s with
           | (Ok a, s') => k a s'
           | (Raise e, s') => (Raise e, s')
           end.
Definition lift {S A} (r : result A) : M S A := fun s => (r, s).

(** [try: m except Exception as e: h e] *)
Definition try_except {S A} (m : M S A) (h : exn -> M S A) : M S A :=
  fun s => match m s with
           | (Ok a, s') => (Ok a, s')
           | (Raise e, s') => if is_Exception e then h e s' else (Raise e, s')
           end.

Declare Scope py_scope.
Delimit Scope py_scope with py.
Notation "x <- m ;; k" := (bind m (fun x => k))
  (at level 61, m at next level, right associativity) : py_scope.
Notation "m ;;; k" := (bind m (fun _ => k))
  (at level 61, right associativity) : py_scope.
Local Open Scope py_scope.

(* ================================================================== *)
(** * Python strings *)

Module PyStr.

(** The bytes of a string literal. *)
Definition byte (n : nat) : ascii := ascii_of_nat n.

(** [c.isspace()], for the code points of one byte: U+0009..U+000D,
    U+001C..U+0020. *)
Definition is_space (c : ascii) : bool :=
  let n := nat_of_ascii c in
  ((9 <=? n) && (n <=? 13) || (28 <=? n) && (n <=? 32))%nat.

(** [c.isspace()], for the code points of two bytes: U+0085 and U+00A0. *)
Definition is_space2 (a b : ascii) : bool :=
  let m := nat_of_ascii a in
  let n := nat_of_ascii b in
  ((m =? 194) && ((n =? 133) || (n =? 160)))%nat.

(** [c.isspace()], for the code points of three bytes: U+1680,
    U+2000..U+200A, U+2028, U+2029, U+202F, U+205F and U+3000. *)
Definition is_space3 (a b c : ascii) : bool :=
  let l := nat_of_ascii a in
  let m := nat_of_ascii b in
  let n := nat_of_ascii c in
  ((l =? 225) && (m =? 154) && (n =? 128)
   || (l =? 226) && (m =? 128)
      && ((128 <=? n) && (n <=? 138) || (n =? 168) || (n =? 169) || (n =? 175))
   || (l =? 226) && (m =? 129) && (n =? 159)
   || (l =? 227) && (m =? 128) && (n =? 128))%nat.

(** What follows the whitespace character at the head of [s], if there is
    one. *)
Definition space_prefix (s : string) : option string :=
  match s with
  | EmptyString => None
  | String a r1 =>
      if is_space a then Some r1
      else match r1 with
           | EmptyString => None
           | String b r2 =>
               if is_space2 a b then Some r2
               else match r2 with
                    | EmptyString => None
                    | String c r3 => if is_space3 a b c then Some r3 else None
                    end
           end
  end.

(** [s.lstrip()] *)
Fixpoint lstrip (s : string) : string :=
  match s with
  | EmptyString => EmptyString
  | String a r1 =>
      if is_space a then lstrip r1
      else match r1 with
           | EmptyString => s
           | String b r2 =>
               if is_space2 a b then lstrip r2
               else match r2 with
                    | EmptyString => s
                    | String c r3 => if is_space3 a b c then lstrip r3 else s
                    end
           end
  end.

(** [s.rstrip()]: the string without its longest tail of whitespace
    characters.  A tail is whitespace throughout when [lstrip] leaves
    nothing of it; no whitespace character begins with a continuation
    byte, so a tail that starts inside a character is never one. *)
Fixpoint rstrip (s : string) : string :=
  match s with
  | EmptyString => EmptyString
  | String c r =>
      match lstrip s with
      | EmptyString => EmptyString
      | _ => String c (rstrip r)
      end
  end.

(** [s.strip()] *)
Definition strip (s : string) : string := rstrip (lstrip s).

(** U+00A0, the no-break space, and U+2003, the em space. *)
Definition NBSP : string := String (byte 194) (String (byte 160) EmptyString).
Definition EMSP : string :=
  String (byte 226) (String (byte 128) (String (byte 131) EmptyString)).

Definition cons_first (c : ascii) (l : list string) : list string :=
  match l with
  | seg :: segs => String c seg :: segs
  | [] => [String c EmptyString]
  end.

(** [s.split("::")]: leftmost, non-overlapping occurrences of the
    separator; never the empty list. *)
Fixpoint split_dcolon (s : string) : list string :=
  match s with
  | EmptyString => [EmptyString]
  | String c r =>
      match r with
      | String c' r' =>
          if (Ascii.eqb c ":" && Ascii.eqb c' ":")%bool
          then EmptyString :: split_dcolon r'
          else cons_first c (split_dcolon r)
      | EmptyString => [String c EmptyString]
      end
  end.

(** [x in [a, b]] for strings *)
Definition mem (x : string) (l : list string) : bool :=
  existsb (String.eqb x) l.

Definition is_digit (c : ascii) : bool :=
  let n := nat_of_ascii c in ((48 <=? n) && (n <=? 57))%nat.

(** The longest prefix of decimal digits and what follows it. *)
Fixpoint span_digits (s : string) : string * string :=
  match s with
  | EmptyString => (EmptyString, EmptyString)
  | String c r =>
      if is_digit c
      then let (d, t) := span_digits r in (String c d, t)
      else (EmptyString, s)
  end.

(** [int(s)] on the texts the pattern [[+-]?\d+] can capture. *)
Definition int (s : string) : option Z :=
  match s with
  | String "+" d => option_map Z.of_uint (NilZero.uint_of_string d)
  | String "-" d => option_map (fun u => - Z.of_uint u) (NilZero.uint_of_string d)
  | d => option_map Z.of_uint (NilZero.uint_of_string d)
  end.

(** [s.lstrip("#")] *)
Fixpoint lstrip_hash (s : string) : string :=
  match s with
  | EmptyString => EmptyString
  | String c r => if Ascii.eqb c "#" then lstrip_hash r else s
  end.

(** [s.startswith(p)], giving the rest of [s] *)
Fixpoint strip_prefix (p s : string) : option string :=
  match p with
  | EmptyString => Some s
  | String a p' =>
      match s with
      | EmptyString => None
      | String b s' => if Ascii.eqb a b then strip_prefix p' s' else None
      end
  end.

(** [p in s] *)
Fixpoint contains (p s : string) : bool :=
  match strip_prefix p s with
  | Some _ => true
  | None => match s with
            | EmptyString => false
            | String _ s' => contains p s'
            end
  end.

(** [f"{n:d}"] / [str(n)] for an integer *)
Definition of_int (n : Z) : string := NilZero.string_of_int (Z.to_int n).

End PyStr.

(* ================================================================== *)
(** * python-chess: engine scores

    [chess.engine.Score] has three subclasses; [info["score"]] of an
    analysis is a [PovScore]: a score relative to the side to move of the
    analysed position, together with that side. *)

Module PyChess.

Inductive Score : Type :=
| Cp (cp : Z)
| Mate (moves : Z)
| MateGiven.

(** [Score.is_mate()] *)
Definition Score_is_mate (s : Score) : bool :=
  match s with Cp _ => false | _ => true end.

(** [Score.__str__] *)
Definition Score_str (s : Score) : string :=
  match s with
  | Cp cp => if 0 <? cp then "+" ++ PyStr.of_int cp else PyStr.of_int cp
  | Mate m => if 0 <? m then "#+" ++ PyStr.of_int m
              else "#-" ++ PyStr.of_int (Z.abs m)
  | MateGiven => "#+0"
  end.

(** [Score.__repr__] *)
Definition Score_repr (s : Score) : string :=
  match s with
  | Cp _ => "Cp(" ++ Score_str s ++ ")"
  | Mate _ => "Mate(" ++ PyStr.lstrip_hash (Score_str s) ++ ")"
  | MateGiven => "MateGiven"
  end.

(** [chess.WHITE = True], [chess.BLACK = False] *)
Definition Color := bool.
Definition WHITE : Color := true.
Definition BLACK : Color := false.

Record PovScore : Type := mkPovScore {
  relative : Score;
  turn : Color
}.

(** [PovScore.is_mate()] *)
Definition is_mate (s : PovScore) : bool := Score_is_mate (relative s).

(** [PovScore] defines [white], [black], [pov], [is_mate] and [wdl]; it
    has no [mate] attribute, so [score.mate()] on the value of
    [info["score"]] raises. *)
Definition mate (s : PovScore) : result Z :=
  Raise (AttributeError "'PovScore' object has no attribute 'mate'").

(** [PovScore.__repr__], also what [str(score)] gives. *)
Definition str (s : PovScore) : string :=
  "PovScore(" ++ Score_repr (relative s) ++ ", "
    ++ (if turn s then "WHITE" else "BLACK") ++ ")".

(** [PovScore.pov(color)], [PovScore.white()] are never called by the
    backend; [white] is what a white-relative reading would use. *)
Definition Score_neg (s : Score) : Score :=
  match s with
  | Cp cp => Cp (- cp)
  | Mate m => Mate (- m)
  | MateGiven => Mate 0
  end.
Definition pov (s : PovScore) (c : Color) : Score :=
  if Bool.eqb (turn s) c then relative s else Score_neg (relative s).
Definition white (s : PovScore) : Score := pov s WHITE.

End PyChess.

(* ================================================================== *)
(** * The one regular expression of the backend *)

Module Re.

(** The optional sign of [[+-]?]: the sign taken, and the rest. *)
Definition opt_sign (s : string) : string * string :=
  match s with
  | String c r =>
      if (Ascii.eqb c "+" || Ascii.eqb c "-")%bool
      then (String c EmptyString, r)
      else (EmptyString, s)
  | EmptyString => (EmptyString, EmptyString)
  end.

(** A match of [Cp\(([+-]?\d+)\)] anchored at the head of [s]; the result
    is [match.group(1)].  The digits are taken greedily: a shorter run
    would be followed by a digit, never by the closing parenthesis, and
    without the sign the digits would have to start at the sign, so no
    backtracking can turn a failure into a match. *)
Definition match_cp_at (s : string) : option string :=
  match PyStr.strip_prefix "Cp(" s with
  | None => None
  | Some r =>
      let (sign, r1) := opt_sign r in
      let (digits, r2) := PyStr.span_digits r1 in
      match digits, r2 with
      | String _ _, String c _ =>
          if Ascii.eqb c ")" then Some (sign ++ digits) else None
      | _, _ => None
      end
  end.

(** [re.search(r'Cp\(([+-]?\d+)\)', s)]: the leftmost match. *)
Fixpoint search_cp (s : string) : option string :=
  match match_cp_at s with
  | Some g => Some g
  | None => match s with
            | EmptyString => None
            | String _ s' => search_cp s'
            end
  end.

End Re.

(* ================================================================== *)
(** * python-chess: the rules library and the board object *)

(** What the backend uses of the rules library.  A [Position] is everything
    [Board.fen()] and move generation depend on. *)
Class RulesLibrary : Type := {
  Position : Type;
  Move : Type;
  (** [Board.set_fen(fen)]; [inr msg] is [ValueError(msg)] *)
  set_fen : string -> Position + string;
  (** [Board.fen()] *)
  fen : Position -> string;
  (** [Board.turn] *)
  side_to_move : Position -> PyChess.Color;
  (** [list(Board.legal_moves)] *)
  legal_moves : Position -> list Move;
  (** the position after a move *)
  play : Position -> Move -> Position;
  (** [str(move)], i.e. [Move.uci()] *)
  uci : Move -> string
}.

Module Board.
Section WithRules.
Context {rules : RulesLibrary}.

(** [chess.Board]: the current position, the moves played, and the
    positions saved by [push] for [pop] to restore. *)
Record t : Type := mk {
  position : Position;
  move_stack : list Move;
  _stack : list Position
}.

(** [chess.Board(fen)] *)
Definition of_fen (s : string) : result t :=
  match set_fen s with
  | inl p => Ok (mk p [] [])
  | inr msg => Raise (ValueError msg)
  end.

(** [board.push(move)] *)
Definition push (m : Move) (b : t) : t :=
  mk (play (position b) m) (m :: move_stack b) (position b :: _stack b).

(** [board.pop()] *)
Definition pop (b : t) : result Move * t :=
  match move_stack b, _stack b with
  | m :: ms, p :: ps => (Ok m, mk p ms ps)
  | _, _ => (Raise (IndexError "pop from empty list"), b)
  end.

Definition board_fen (b : t) : string := fen (position b).
Definition turn (b : t) : PyChess.Color := side_to_move (position b).

End WithRules.
End Board.
Arguments Board.t : clear implicits.
Arguments Board.t {rules}.

(* ================================================================== *)
(** * python-chess: the engine *)

(** [chess.engine.Limit] *)
Module Limit.
Record t : Type := mk {
  time : option Q;
  depth : option Z
}.
End Limit.

(** [chess.engine.InfoDict]: the keys the backend reads, and whether the
    dictionary holds any other key (it matters to the truth value of the
    dictionary only). *)
Module Info.
Section WithRules.
Context {rules : RulesLibrary}.

Record t : Type := mk {
  score : option PyChess.PovScore;
  pv : option (list Move);
  depth : option Z;
  nodes : option Z;
  other_keys : bool
}.

(** [{}] *)
Definition empty : t := mk None None None None false.

(** [bool(info)] *)
Definition truthy (i : t) : bool :=
  match score i, pv i, depth i, nodes i with
  | None, None, None, None => other_keys i
  | _, _, _, _ => true
  end.

End WithRules.
End Info.
Arguments Info.t : clear implicits.
Arguments Info.t {rules}.

(** The engine process behind [chess.engine.SimpleEngine]: a value of
    [Engine] is the handle together with the state of the process, which
    an analysis may change. *)
Class EngineProcess (rules : RulesLibrary) : Type := {
  Engine : Type;
  (** [engine.analyse(board, limit)] *)
  analyse : Board.t -> Limit.t -> M Engine Info.t;
  (** [engine.quit()] *)
  quit : M Engine unit
}.

(** The operating system as [start_engine] sees it. *)
Record OS {rules : RulesLibrary} {proc : EngineProcess rules} : Type := mkOS {
  (** [os.path.exists(path)] *)
  path_exists : string -> bool;
  (** [chess.engine.SimpleEngine.popen_uci(path)] *)
  popen_uci : string -> result Engine
}.
Arguments OS {rules} proc.

(* ================================================================== *)
(** * backend/chess_scoring.py *)

(** The [move_data] dictionary of [get_board_analysis]. *)
Module MoveData.
Record t : Type := mk {
  move : string;
  white_advantage : option Q;
  is_mate : bool;
  mate_in : option Z;
  best_response : option string;
  depth_reached : option Z;
  nodes_searched : option Z
}.

Definition set_white_advantage (v : option Q) (d : t) : t :=
  mk (move d) v (is_mate d) (mate_in d) (best_response d)
     (depth_reached d) (nodes_searched d).
Definition set_is_mate (v : bool) (d : t) : t :=
  mk (move d) (white_advantage d) v (mate_in d) (best_response d)
     (depth_reached d) (nodes_searched d).
Definition set_mate_in (v : option Z) (d : t) : t :=
  mk (move d) (white_advantage d) (is_mate d) v (best_response d)
     (depth_reached d) (nodes_searched d).
Definition set_best_response (v : option string) (d : t) : t :=
  mk (move d) (white_advantage d) (is_mate d) (mate_in d) v
     (depth_reached d) (nodes_searched d).
Definition set_depth_reached (v : option Z) (d : t) : t :=
  mk (move d) (white_advantage d) (is_mate d) (mate_in d) (best_response d)
     v (nodes_searched d).
Definition set_nodes_searched (v : option Z) (d : t) : t :=
  mk (move d) (white_advantage d) (is_mate d) (mate_in d) (best_response d)
     (depth_reached d) v.
End MoveData.

(** The [analysis_data] dictionary of [get_board_analysis]. *)
Module AnalysisData.
Record t : Type := mk {
  fen : string;
  turn : string;
  total_moves : Z;
  moves : list MoveData.t
}.
End AnalysisData.

(** The [moves_data] dictionary of [get_moves_json]. *)
Module MovesData.
Record t : Type := mk {
  fen : string;
  total_moves : Z;
  moves : list MoveData.t
}.
End MovesData.

(** The dictionary [get_best_move] returns; [error] is [None] when the key
    is absent.  The keys absent from the error dictionary are only read
    with [.get], which gives what the fields hold here. *)
Module BestMoveData.
Record t : Type := mk {
  error : option string;
  best_move : option string;
  advantage : option Q;
  is_mate : bool;
  mate_in : option Z;
  depth_reached : option Z;
  nodes_searched : option Z;
  principal_variation : list string
}.
End BestMoveData.

(** [len(l)] *)
Definition len {A} (l : list A) : Z := Z.of_nat (List.length l).

(** [centipawns / 100.0] *)
Definition div100 (centipawns : Z) : Q := Qmake centipawns 100.

(** Whether the integer converts to a [float]: the division [n / 100.0]
    first rounds [n] to the nearest double and raises [OverflowError]
    ("int too large to convert to float") when there is none, that is from
    [2^1024 - 2^970] on in absolute value. *)
Definition fits_float (n : Z) : bool := Z.abs n <? 2 ^ 1024 - 2 ^ 970.

(** [l.sort(key=key, reverse=True)]: descending by key, elements of equal
    key in their original order. *)
Section SortReverse.
Variable A : Type.
Variable key : A -> Q.

Fixpoint insert_reverse (x : A) (l : list A) : list A :=
  match l with
  | [] => [x]
  | y :: l' =>
      if Qle_bool (key y) (key x) then x :: l
      else y :: insert_reverse x l'
  end.

Fixpoint sort_reverse (l : list A) : list A :=
  match l with
  | [] => []
  | x :: l' => insert_reverse x (sort_reverse l')
  end.
End SortReverse.

Module ChessAnalyzer.
Section WithEngine.
Context {rules : RulesLibrary} {proc : EngineProcess rules}.

(** [self]; the [show_*] options only steer printing. *)
Record t : Type := mk {
  engine_path : string;
  engine : option Engine;
  default_depth : option Z;
  default_time : Q
}.

Definition set_engine (e : option Engine) (self : t) : t :=
  mk (engine_path self) e (default_depth self) (default_time self).

(** [ChessAnalyzer(engine_path=..., default_time=...)] *)
Definition init (engine_path : string) (default_depth : option Z)
    (default_time : Q) : t :=
  mk engine_path None default_depth default_time.

(** [start_engine] *)
Definition start_engine (os : OS proc) : M t unit :=
  try_except
    (fun self =>
       if negb (path_exists os (engine_path self))
       then (Raise (FileNotFoundError
                      ("Stockfish engine not found at " ++ engine_path self)),
             self)
       else match popen_uci os (engine_path self) with
            | Ok e => (Ok tt, set_engine (Some e) self)
            | Raise x => (Raise x, self)
            end)
    (fun _ => raise (SystemExit 1)).

(** [quit_engine] *)
Definition quit_engine : M t unit :=
  fun self =>
    match engine self with
    | Some e =>
        match quit e with
        | (Ok _, e') => (Ok tt, set_engine (Some e') self)
        | (Raise x, e') =>
            if is_Exception x then (Ok tt, set_engine (Some e') self)
            else (Raise x, set_engine (Some e') self)
        end
    | None => (Ok tt, self)
    end.

(** [if depth_limit:] *)
Definition depth_truthy (d : option Z) : bool :=
  match d with
  | Some n => negb (n =? 0)
  | None => false
  end.

(** The limit [analyze_position] hands to the engine: the defaults for
    what is [None], then depth before time. *)
Definition analysis_limit (self : t) (time_limit : option Q)
    (depth_limit : option Z) : Limit.t :=
  let time_limit :=
    match time_limit with
    | None => default_time self
    | Some t => t
    end in
  let depth_limit :=
    match depth_limit with
    | None => default_depth self
    | Some d => Some d
    end in
  if depth_truthy depth_limit
  then Limit.mk None depth_limit
  else Limit.mk (Some time_limit) None.

(** [analyze_position] *)
Definition analyze_position (board : Board.t) (time_limit : option Q)
    (depth_limit : option Z) : M t Info.t :=
  fun self =>
    match engine self with
    | None =>
        (Raise (RuntimeError "Engine not started. Use start_engine() first."),
         self)
    | Some e =>
        let limit := analysis_limit self time_limit depth_limit in
        match analyse board limit e with
        | (Ok info, e') => (Ok info, set_engine (Some e') self)
        | (Raise x, e') =>
            if is_Exception x then (Ok Info.empty, set_engine (Some e') self)
            else (Raise x, set_engine (Some e') self)
        end
    end.

(** The centipawn branch shared by [get_moves_json], [get_board_analysis]
    and [get_best_move]: the value the [try] block computes from
    [str(score)], [None] when it assigns nothing (the bare [except]
    swallows whatever [int] raises, and the [OverflowError] of the
    division). *)
Definition centipawn_advantage (score : PyChess.PovScore) : option Q :=
  let score_str := PyChess.str score in
  if PyStr.contains "Cp(" score_str then
    match Re.search_cp score_str with
    | Some group1 =>
        match PyStr.int group1 with
        | Some centipawns =>
            if fits_float centipawns then Some (div100 centipawns) else None
        | None => None
        end
    | None => None
    end
  else None.

(** The body of the loop of [get_board_analysis] between [analyze_position]
    and [board.pop()]: the [move_data] built from [info]. *)
Definition move_data_of_info (move : Move) (info : Info.t)
    : result MoveData.t :=
  let move_data := MoveData.mk (uci move) None false None None None None in
  match Info.truthy info, Info.score info with
  | true, Some score =>
      let scored :=
        if PyChess.is_mate score then
          match PyChess.mate score with
          | Ok mate_moves =>
              Ok (MoveData.set_white_advantage None
                    (MoveData.set_mate_in (Some mate_moves)
                       (MoveData.set_is_mate true move_data)))
          | Raise x => Raise x
          end
        else
          match centipawn_advantage score with
          | Some a => Ok (MoveData.set_white_advantage (Some a) move_data)
          | None => Ok move_data
          end in
      match scored with
      | Raise x => Raise x
      | Ok move_data =>
          let move_data :=
            match Info.pv info with
            | Some (first :: _) =>
                MoveData.set_best_response (Some (uci first)) move_data
            | _ => move_data
            end in
          let move_data :=
            match Info.depth info with
            | Some d => MoveData.set_depth_reached (Some d) move_data
            | None => move_data
            end in
          let move_data :=
            match Info.nodes info with
            | Some n => MoveData.set_nodes_searched (Some n) move_data
            | None => move_data
            end in
          Ok move_data
      end
  | _, _ => Ok move_data
  end.

(** The objects [get_board_analysis] mutates: [self] and [board]. *)
Definition St : Type := t * Board.t.

Definition on_self {A} (m : Board.t -> M t A) : M St A :=
  fun '(self, board) =>
    let (r, self') := m board self in (r, (self', board)).
Definition board_push (move : Move) : M St unit :=
  fun '(self, board) => (Ok tt, (self, Board.push move board)).
Definition board_pop : M St Move :=
  fun '(self, board) =>
    let (r, board') := Board.pop board in (r, (self, board')).

(** [for move in legal_moves: ...], the list [analysis_data["moves"]]
    being [acc]. *)
Fixpoint for_legal_moves (time_limit : option Q) (legal : list Move)
    (acc : list MoveData.t) : M St (list MoveData.t) :=
  match legal with
  | [] => ret acc
  | move :: rest =>
      board_push move ;;;
      info <- on_self (fun board => analyze_position board time_limit None) ;;
      move_data <- lift (move_data_of_info move info) ;;
      board_pop ;;;
      for_legal_moves time_limit rest (acc ++ [move_data])
  end.

(** The key of the final sort:
    [lambda x: x["white_advantage"] if x["white_advantage"] is not None else -999] *)
Definition sort_key (x : MoveData.t) : Q :=
  match MoveData.white_advantage x with
  | Some a => a
  | None => Qmake (-999) 1
  end.

(** [get_board_analysis] *)
Definition get_board_analysis (time_limit : option Q)
    : M St AnalysisData.t :=
  fun '(self, board) =>
    let time_limit :=
      match time_limit with
      | None => default_time self
      | Some t => t
      end in
    let legal := legal_moves (Board.position board) in
    let analysis_data :=
      AnalysisData.mk (Board.board_fen board)
        (if Board.turn board then "white" else "black")
        (len legal) [] in
    match legal with
    | [] => (Ok analysis_data, (self, board))
    | _ =>
        (moves <- for_legal_moves (Some time_limit) legal [] ;;
         ret (AnalysisData.mk (AnalysisData.fen analysis_data)
                (AnalysisData.turn analysis_data)
                (AnalysisData.total_moves analysis_data)
                (sort_reverse sort_key moves)))
          (self, board)
    end.

(** The body of the loop of [get_moves_json] between [analyze_position] and
    [board.pop()].  Its [move_data] has no [depth_reached] and no
    [nodes_searched] key: the record holds [None] there. *)
Definition move_json_of_info (move : Move) (info : Info.t)
    : result MoveData.t :=
  let move_data := MoveData.mk (uci move) None false None None None None in
  match Info.truthy info, Info.score info with
  | true, Some score =>
      let scored :=
        if PyChess.is_mate score then
          match PyChess.mate score with
          | Ok mate_moves =>
              Ok (MoveData.set_white_advantage None
                    (MoveData.set_mate_in (Some mate_moves)
                       (MoveData.set_is_mate true move_data)))
          | Raise x => Raise x
          end
        else
          match centipawn_advantage score with
          | Some a => Ok (MoveData.set_white_advantage (Some a) move_data)
          | None => Ok move_data
          end in
      match scored with
      | Raise x => Raise x
      | Ok move_data =>
          match Info.pv info with
          | Some (first :: _) =>
              Ok (MoveData.set_best_response (Some (uci first)) move_data)
          | _ => Ok move_data
          end
      end
  | _, _ => Ok move_data
  end.

(** [for move in legal_moves: ...] of [get_moves_json] *)
Fixpoint for_legal_moves_json (time_limit : option Q) (legal : list Move)
    (acc : list MoveData.t) : M St (list MoveData.t) :=
  match legal with
  | [] => ret acc
  | move :: rest =>
      board_push move ;;;
      info <- on_self (fun board => analyze_position board time_limit None) ;;
      move_data <- lift (move_json_of_info move info) ;;
      board_pop ;;;
      for_legal_moves_json time_limit rest (acc ++ [move_data])
  end.

(** [get_moves_json] *)
Definition get_moves_json (time_limit : option Q) : M St MovesData.t :=
  fun '(self, board) =>
    let time_limit :=
      match time_limit with
      | None => default_time self
      | Some t => t
      end in
    let legal := legal_moves (Board.position board) in
    let moves_data := MovesData.mk (Board.board_fen board) (len legal) [] in
    match legal with
    | [] => (Ok moves_data, (self, board))
    | _ =>
        (moves <- for_legal_moves_json (Some time_limit) legal [] ;;
         ret (MovesData.mk (MovesData.fen moves_data)
                (MovesData.total_moves moves_data)
                (sort_reverse sort_key moves)))
          (self, board)
    end.

(** [get_best_move] *)
Definition get_best_move (board : Board.t) (time_limit : option Q)
    : M t BestMoveData.t :=
  fun self =>
    let time_limit :=
      match time_limit with
      | None => default_time self
      | Some t => t
      end in
    (info <- analyze_position board (Some time_limit) None ;;
     if negb (Info.truthy info) then
       ret (BestMoveData.mk (Some "Analysis failed") None None false None
              None None [])
     else
       let score := Info.score info in
       let pv := match Info.pv info with Some l => l | None => [] end in
       let best_move :=
         match pv with
         | first :: _ => Some (uci first)
         | [] => None
         end in
       let principal_variation := map uci (firstn 5 pv) in
       match score with
       | Some score =>
           if PyChess.is_mate score then
             mate_moves <- lift (PyChess.mate score) ;;
             ret (BestMoveData.mk None best_move None true (Some mate_moves)
                    (Info.depth info) (Info.nodes info) principal_variation)
           else
             ret (BestMoveData.mk None best_move (centipawn_advantage score)
                    false None (Info.depth info) (Info.nodes info)
                    principal_variation)
       | None =>
           ret (BestMoveData.mk None best_move None false None
                  (Info.depth info) (Info.nodes info) principal_variation)
       end) self.

End WithEngine.
End ChessAnalyzer.
Arguments ChessAnalyzer.t {rules} proc.
Arguments ChessAnalyzer.St {rules} proc.

(* ================================================================== *)
(** * backend/app/core/config.py *)

Module Settings.
Record t : Type := mk {
  stockfish_paths : list string;
  default_analysis_time : Q;
  max_analysis_time : Q
}.

(** The defaults of the class; the environment may override them. *)
Definition defaults : t :=
  mk ["./stockfish"; "/usr/local/bin/stockfish"; "/usr/bin/stockfish";
      "stockfish"]
     (Qmake 1 1) (Qmake 10 1).
End Settings.

(* ================================================================== *)
(** * backend/app/utils/chess_utils.py *)

Module ChessUtils.
Section WithRules.
Context {rules : RulesLibrary}.

(** [parse_state_string] *)
Definition parse_state_string (state_string : string)
    : result (string * string * string) :=
  let parts := PyStr.split_dcolon state_string in
  match parts with
  | p0 :: p1 :: rest =>
      let turn := PyStr.strip p0 in
      let fen := PyStr.strip p1 in
      let arrows :=
        match rest with
        | p2 :: _ => PyStr.strip p2
        | [] => ""
        end in
      if negb (PyStr.mem turn ["white"; "black"]) then
        Raise (ValueError "Turn must be 'white' or 'black'")
      else
        match Board.of_fen fen with
        | Raise (ValueError e) => Raise (ValueError ("Invalid FEN: " ++ e))
        | Raise x => Raise x
        | Ok _ => Ok (turn, fen, arrows)
        end
  | _ =>
      Raise (ValueError
        "State string must contain at least turn and FEN separated by ::")
  end.

(** [find_stockfish_path] *)
Fixpoint find_stockfish_path (exists_ : string -> bool)
    (stockfish_paths : list string) : option string :=
  match stockfish_paths with
  | [] => None
  | path :: rest =>
      if (exists_ path || String.eqb path "stockfish")%bool then Some path
      else find_stockfish_path exists_ rest
  end.

(** [validate_fen] *)
Definition validate_fen (fen : string) : bool :=
  match Board.of_fen fen with
  | Ok _ => true
  | Raise _ => false
  end.

End WithRules.

(** [format_mate_info] *)
Definition format_mate_info (is_mate : bool) (mate_in : option Z) : string :=
  if negb is_mate then "No mate"
  else
    match mate_in with
    | None => "Mate"
    | Some n =>
        if 0 <? n then "Mate in " ++ PyStr.of_int n
        else "Mated in " ++ PyStr.of_int (Z.abs n)
    end.

End ChessUtils.

(* ================================================================== *)
(** * backend/app/models/chess.py *)

(** [MoveAnalysis] has the fields of [move_data], all but [move] optional,
    so building one from a [move_data] always validates: the model is the
    record itself. *)
Definition MoveAnalysis : Type := MoveData.t.

Module AnalysisResponse.
Record t : Type := mk {
  fen : string;
  turn : string;
  total_moves : Z;
  moves : list MoveAnalysis;
  best_move : option string;
  advantage : option Q;
  is_mate : bool;
  mate_in : option Z;
  principal_variation : list string
}.
End AnalysisResponse.

Module BestMoveResponse.
Record t : Type := mk {
  best_move : string;
  advantage : option Q;
  is_mate : bool;
  mate_in : option Z;
  depth_reached : option Z;
  nodes_searched : option Z;
  principal_variation : list string
}.

(** [BestMoveResponse(best_move=..., ...)]: [best_move] is a required
    [str], so [None] fails validation. *)
Definition validate (d : BestMoveData.t) : result t :=
  match BestMoveData.best_move d with
  | Some m =>
      Ok (mk m (BestMoveData.advantage d) (BestMoveData.is_mate d)
            (BestMoveData.mate_in d) (BestMoveData.depth_reached d)
            (BestMoveData.nodes_searched d)
            (BestMoveData.principal_variation d))
  | None => Raise (ValidationError "best_move: Input should be a valid string")
  end.
End BestMoveResponse.

(** The dictionary [health_check] returns; [None] is an absent key. *)
Module HealthData.
Record t : Type := mk {
  status : string;
  engine : option string;
  engine_path : option (option string);
  error : option string
}.
End HealthData.

Module StateStringRequest.

(** The [@validator('state_string')] method [validate_state_string]. *)
Definition validate_state_string (v : string) : result string :=
  if String.eqb v "" then
    Raise (ValueError "State string must be a non-empty string")
  else
    match PyStr.split_dcolon v with
    | p0 :: _ :: _ =>
        let turn := PyStr.strip p0 in
        if negb (PyStr.mem turn ["white"; "black"]) then
          Raise (ValueError "Turn must be 'white' or 'black'")
        else Ok v
    | _ =>
        Raise (ValueError
          "State string must contain at least turn and FEN separated by ::")
    end.

(** The field [time_limit: Optional[float] = Field(1.0, ge=0.1, le=10.0)]:
    the outer [None] is a request without the field, [Some None] an explicit
    null; [None] as result is a validation error. *)
Definition validate_time_limit (v : option (option Q)) : option (option Q) :=
  match v with
  | None => Some (Some (Qmake 1 1))
  | Some None => Some None
  | Some (Some t) =>
      if (Qle_bool (Qmake 1 10) t && Qle_bool t (Qmake 10 1))%bool
      then Some (Some t)
      else None
  end.

Definition state_string_passes (v : string) : bool :=
  is_ok (validate_state_string v).

Definition time_limit_passes (v : option Q) : bool :=
  match validate_time_limit (Some v) with
  | Some _ => true
  | None => false
  end.

(** An instance of [StateStringRequest]: pydantic builds none that did not
    pass the validator and the bounds of the fields, and a route handler
    is only ever called with an instance (FastAPI answers a body the model
    refuses with status 422, without calling the handler). *)
Record t : Type := mk {
  state_string : string;
  time_limit : option Q;
  state_string_validated : state_string_passes state_string = true;
  time_limit_validated : time_limit_passes time_limit = true
}.

(** [StateStringRequest(state_string=..., time_limit=...)]; [None] is a
    [ValidationError].  The validator hands back the string it was given. *)
Definition validate (state_string : string) (time_limit : option (option Q))
    : option t :=
  match validate_time_limit time_limit with
  | Some tl =>
      match Bool.bool_dec (state_string_passes state_string) true,
            Bool.bool_dec (time_limit_passes tl) true with
      | left Hs, left Ht => Some (mk state_string tl Hs Ht)
      | _, _ => None
      end
  | None => None
  end.

End StateStringRequest.

(* ================================================================== *)
(** * backend/app/services/chess_service.py *)

Module ChessService.
Section WithEngine.
Context {rules : RulesLibrary} {proc : EngineProcess rules}.
Variable os : OS proc.
Variable settings : Settings.t.

Record t : Type := mk {
  _analyzer : option (ChessAnalyzer.t proc);
  _engine_path : option string
}.

(** [ChessService()] *)
Definition init : t := mk None None.

(** [_initialize_analyzer] *)
Definition _initialize_analyzer : M t unit :=
  fun self =>
    let found :=
      match _engine_path self with
      | None =>
          ChessUtils.find_stockfish_path (path_exists os)
            (Settings.stockfish_paths settings)
      | Some p => Some p
      end in
    match found with
    | None =>
        (Raise (RuntimeError
           "Stockfish engine not found. Please install Stockfish and ensure it's in your PATH or current directory."),
         mk (_analyzer self) None)
    | Some path =>
        let analyzer :=
          ChessAnalyzer.init path None
            (Settings.default_analysis_time settings) in
        let (r, analyzer') := ChessAnalyzer.start_engine os analyzer in
        (r, mk (Some analyzer') (Some path))
    end.

(** [_get_analyzer]; the analyzer it returns is the object held in
    [self._analyzer]. *)
Definition _get_analyzer : M t (ChessAnalyzer.t proc) :=
  fun self =>
    match _analyzer self with
    | Some a => (Ok a, self)
    | None =>
        match _initialize_analyzer self with
        | (Ok _, self') =>
            match _analyzer self' with
            | Some a => (Ok a, self')
            | None => (Raise (AttributeError "_analyzer"), self')
            end
        | (Raise x, self') => (Raise x, self')
        end
    end.

(** [start_engine] *)
Definition start_engine : M t unit :=
  try_except (_get_analyzer ;;; ret tt)
    (fun e => raise (RuntimeError ("Failed to start chess engine: " ++ str_exn e))).

(** [stop_engine] *)
Definition stop_engine : M t unit :=
  fun self =>
    match _analyzer self with
    | Some a =>
        match ChessAnalyzer.quit_engine a with
        | (Ok _, _) => (Ok tt, mk None (_engine_path self))
        | (Raise x, _) =>
            if is_Exception x then (Ok tt, mk None (_engine_path self))
            else (Raise x, mk None (_engine_path self))
        end
    | None => (Ok tt, self)
    end.

(** [is_engine_ready] *)
Definition is_engine_ready (self : t) : bool :=
  match _analyzer self with
  | Some a => match ChessAnalyzer.engine a with Some _ => true | None => false end
  | None => false
  end.

(** The [# Validate time limit] block of [analyze_position] and of
    [get_best_move]. *)
Definition validate_time_limit (time_limit : option Q) : Q :=
  match time_limit with
  | None => Settings.default_analysis_time settings
  | Some t =>
      if negb (Qle_bool t (Settings.max_analysis_time settings))
      then Settings.max_analysis_time settings
      else t
  end.

(** [try: board = chess.Board(fen) except ValueError as e: raise ValueError(...)] *)
Definition create_board (fen : string) : result Board.t :=
  match Board.of_fen fen with
  | Raise (ValueError e) => Raise (ValueError ("Invalid FEN: " ++ e))
  | r => r
  end.

(** A method call on the analyzer object with the local [board]: the
    mutations of the analyzer stay in [self._analyzer]. *)
Definition on_analyzer {A} (analyzer : ChessAnalyzer.t proc) (board : Board.t)
    (m : M (ChessAnalyzer.St proc) A) : M t (A * ChessAnalyzer.St proc) :=
  fun self =>
    let '(r, (analyzer', board')) := m (analyzer, board) in
    (match r with
     | Ok a => Ok (a, (analyzer', board'))
     | Raise x => Raise x
     end,
     mk (Some analyzer') (_engine_path self)).

(** [try: m except Exception as e: raise RuntimeError(f"{prefix}{e}")] *)
Definition reraise {A} (prefix : string) (m : M t A) : M t A :=
  try_except m (fun e => raise (RuntimeError (prefix ++ str_exn e))).

(** [analyze_position] from the board construction on, [time_limit] being
    the validated limit. *)
Definition analyze_position_with (fen : string) (time_limit : Q)
    : M t AnalysisResponse.t :=
  board <- lift (create_board fen) ;;
  analyzer <- _get_analyzer ;;
  r1 <- reraise "Analysis failed: "
          (on_analyzer analyzer board
             (ChessAnalyzer.get_board_analysis (Some time_limit))) ;;
  let '(analysis_data, (analyzer, board)) := r1 in
  r2 <- reraise "Best move analysis failed: "
          (on_analyzer analyzer board
             (ChessAnalyzer.on_self
                (fun board =>
                   ChessAnalyzer.get_best_move board (Some time_limit)))) ;;
  let '(best_move_data, _) := r2 in
  let moves : list MoveAnalysis := AnalysisData.moves analysis_data in
  ret (AnalysisResponse.mk
         (AnalysisData.fen analysis_data)
         (AnalysisData.turn analysis_data)
         (AnalysisData.total_moves analysis_data)
         moves
         (BestMoveData.best_move best_move_data)
         (BestMoveData.advantage best_move_data)
         (BestMoveData.is_mate best_move_data)
         (BestMoveData.mate_in best_move_data)
         (BestMoveData.principal_variation best_move_data)).

(** [analyze_position] *)
Definition analyze_position (state_string : string) (time_limit : option Q)
    : M t AnalysisResponse.t :=
  parsed <- lift (ChessUtils.parse_state_string state_string) ;;
  let '(turn, fen, arrows) := parsed in
  let time_limit := validate_time_limit time_limit in
  analyze_position_with fen time_limit.

(** [get_best_move] from the board construction on. *)
Definition get_best_move_with (fen : string) (time_limit : Q)
    : M t BestMoveResponse.t :=
  board <- lift (create_board fen) ;;
  analyzer <- _get_analyzer ;;
  r <- reraise "Best move analysis failed: "
         (on_analyzer analyzer board
            (ChessAnalyzer.on_self
               (fun board =>
                  ChessAnalyzer.get_best_move board (Some time_limit)))) ;;
  let '(best_move_data, _) := r in
  match BestMoveData.error best_move_data with
  | Some msg => raise (RuntimeError msg)
  | None => lift (BestMoveResponse.validate best_move_data)
  end.

(** [get_best_move] *)
Definition get_best_move (state_string : string) (time_limit : option Q)
    : M t BestMoveResponse.t :=
  parsed <- lift (ChessUtils.parse_state_string state_string) ;;
  let '(turn, fen, arrows) := parsed in
  let time_limit := validate_time_limit time_limit in
  get_best_move_with fen time_limit.

(** [health_check]; nothing in its [try] block raises. *)
Definition health_check (self : t) : HealthData.t :=
  if is_engine_ready self then
    HealthData.mk "healthy" (Some "stockfish") (Some (_engine_path self)) None
  else
    HealthData.mk "unhealthy" None None (Some "Chess engine not ready").

End WithEngine.
End ChessService.
Arguments ChessService.t {rules} proc.

(* ================================================================== *)
(** * backend/app/api/chess_routes.py *)

Module ChessRoutes.

(** How a route handler ends: with its response model, with an
    [HTTPException], or with an exception it does not catch. *)
Inductive http (A : Type) : Type :=
| Return (a : A)
| HTTPException (status_code : Z) (detail : string)
| Uncaught (e : exn).
Arguments Return {A} a.
Arguments HTTPException {A} status_code detail.
Arguments Uncaught {A} e.

(** [isinstance(e, ValueError)]: pydantic's [ValidationError] derives from
    [ValueError]. *)
Definition is_ValueError (e : exn) : bool :=
  match e with
  | ValueError _ | ValidationError _ => true
  | _ => false
  end.

(** [isinstance(e, RuntimeError)] *)
Definition is_RuntimeError (e : exn) : bool :=
  match e with
  | RuntimeError _ => true
  | _ => false
  end.

(** The [try] / [except ValueError] / [except RuntimeError] /
    [except Exception] ladder shared by the four POST handlers. *)
Definition handle {A} (r : result A) : http A :=
  match r with
  | Ok a => Return a
  | Raise e =>
      if is_ValueError e then HTTPException 400 (str_exn e)
      else if is_RuntimeError e then HTTPException 500 (str_exn e)
      else if is_Exception e
           then HTTPException 500 ("Unexpected error: " ++ str_exn e)
           else Uncaught e
  end.

Section WithEngine.
Context {rules : RulesLibrary} {proc : EngineProcess rules}.
Variable os : OS proc.
Variable settings : Settings.t.

(** [analyze_position] (and [legacy_analyze_position]), on the global
    [chess_service] *)
Definition analyze_position (request : StateStringRequest.t)
    (chess_service : ChessService.t proc)
    : http AnalysisResponse.t * ChessService.t proc :=
  let (r, chess_service') :=
    ChessService.analyze_position os settings
      (StateStringRequest.state_string request)
      (StateStringRequest.time_limit request) chess_service in
  (handle r, chess_service').

(** [get_best_move] (and [legacy_get_best_move]) *)
Definition get_best_move (request : StateStringRequest.t)
    (chess_service : ChessService.t proc)
    : http BestMoveResponse.t * ChessService.t proc :=
  let (r, chess_service') :=
    ChessService.get_best_move os settings
      (StateStringRequest.state_string request)
      (StateStringRequest.time_limit request) chess_service in
  (handle r, chess_service').

End WithEngine.
End ChessRoutes.

(* ================================================================== *)
(** * Vocabulary of the claims

    The specification ranks by an effective advantage in which a forced
    mate stands for a value beyond every finite advantage: above them all
    when White mates ([mate_in] positive), below them all when White is
    mated ([mate_in] negative).  It says nothing of a record without
    advantage and without signed mate distance. *)




(** Every adjacent pair of [l] satisfies [r]. *)
Fixpoint adjacent_all {A} (r : A -> A -> bool) (l : list A) : bool :=
  match l with
  | a :: (b :: _) as tl => r a b && adjacent_all r tl
  | _ => true
  end.


(** Descending keys: [key b <= key a] for every adjacent pair [a], [b]. *)
Definition descending {A} (key : A -> Q) (l : list A) : bool :=
  adjacent_all (fun a b => Qle_bool (key b) (key a)) l.

(** The invariant the sort of the code establishes. *)
Definition ranked_by_sort_key (l : list MoveData.t) : bool :=
  descending ChessAnalyzer.sort_key l.


(** The record of a move whose analysis gave nothing. *)
Definition null_move_data (move : string) : MoveData.t :=
  MoveData.mk move None false None None None None.



(** The white-relative advantage the specification asks of the score
    normalisation: [raw/100] when White is to move in the analysed position,
    [-raw/100] when Black is. *)
Definition normalized_advantage (raw : Z) (side : PyChess.Color) : Q :=
  if side then div100 raw else Qopp (div100 raw).

(** What the score normalisation of the specification amounts to in terms
    of python-chess: the centipawns of [score.white()]. *)
Definition white_centipawns (score : PyChess.PovScore) : option Z :=
  match PyChess.white score with
  | PyChess.Cp cp => Some cp
  | _ => None
  end.

Section ClaimVocabulary.
Context {rules : RulesLibrary} {proc : EngineProcess rules}.

(** The engine never answers with a mate score, and raises nothing that
    [except Exception] lets through. *)
Definition tame_engine : Prop :=
  forall board limit e,
    match fst (analyse board limit e) with
    | Ok info =>
        match Info.score info with
        | Some s => PyChess.is_mate s = false
        | None => True
        end
    | Raise x => is_Exception x = true
    end.

(** The same of the analyses of one board, whatever the limit and the
    state of the engine. *)
Definition tame_at (board : Board.t) : Prop :=
  forall limit e,
    match fst (analyse board limit e) with
    | Ok info =>
        match Info.score info with
        | Some s => PyChess.is_mate s = false
        | None => True
        end
    | Raise x => is_Exception x = true
    end.

(** The analyses of [board] give nothing usable: they raise an
    [Exception] or answer without a score, whatever the limit and the
    state of the engine. *)
Definition unusable_at (board : Board.t) : Prop :=
  forall limit e,
    match fst (analyse board limit e) with
    | Ok info => Info.score info = None
    | Raise x => is_Exception x = true
    end.

(** [chess.Board(fen)] does not raise. *)
Definition parseable (fen_ : string) : bool :=
  match set_fen fen_ with
  | inl _ => true
  | inr _ => false
  end.

(** The failure condition as the claim words it, on the segments as they
    stand in the record. *)
Definition fails_on_segments (s : string) : bool :=
  let parts := PyStr.split_dcolon s in
  ((List.length parts <? 2)%nat
   || negb (PyStr.mem (nth 0 parts "") ["white"; "black"])
   || negb (parseable (nth 1 parts "")))%bool.

(** The failure condition on the segments stripped of surrounding
    whitespace, as [str.strip] strips them. *)
Definition fails_on_stripped_segments (s : string) : bool :=
  let parts := PyStr.split_dcolon s in
  ((List.length parts <? 2)%nat
   || negb (PyStr.mem (PyStr.strip (nth 0 parts "")) ["white"; "black"])
   || negb (parseable (PyStr.strip (nth 1 parts ""))))%bool.

(** No colon in the text. *)
Fixpoint no_colon (s : string) : bool :=
  match s with
  | EmptyString => true
  | String c r => (negb (Ascii.eqb c ":") && no_colon r)%bool
  end.

End ClaimVocabulary.

(* ================================================================== *)
(** * A miniature rules library and a scripted engine

    Stand-ins for python-chess and for the Stockfish process, small enough
    to run the backend on: a position is a named root, the side to move and
    the moves played from the root; the engine answers by the last move
    played (at the root [fatal] it dies) and logs the limits it is given. *)

Module Mini.

Inductive move : Type :=
| Quiet      (* the engine answers with a centipawn score *)
| Crash      (* the engine raises *)
| Mating     (* the engine answers with a mate score *)
| Silent.    (* the engine answers without a score *)

Record position : Type := mkPosition {
  root : string;
  white_to_move : bool;
  played : list move
}.

Definition move_uci (m : move) : string :=
  match m with
  | Quiet => "e2e4"
  | Crash => "d2d4"
  | Mating => "d1h5"
  | Silent => "g1f3"
  end.

Definition played_text (l : list move) : string :=
  fold_right (fun m s => s ++ " " ++ move_uci m) "" l.

(** The accepted position texts: a root name and the side to move. *)
Definition mini_set_fen (s : string) : position + string :=
  if String.eqb s "calm w" then inl (mkPosition "calm" true [])
  else if String.eqb s "calm b" then inl (mkPosition "calm" false [])
  else if String.eqb s "sharp w" then inl (mkPosition "sharp" true [])
  else if String.eqb s "sharp b" then inl (mkPosition "sharp" false [])
  else if String.eqb s "stale w" then inl (mkPosition "stale" true [])
  else if String.eqb s "stale b" then inl (mkPosition "stale" false [])
  else if String.eqb s "fatal w" then inl (mkPosition "fatal" true [])
  else inr ("invalid position: " ++ s).

Definition mini_fen (p : position) : string :=
  root p ++ (if white_to_move p then " w" else " b") ++ played_text (played p).

Definition mini_legal_moves (p : position) : list move :=
  match played p with
  | [] =>
      if String.eqb (root p) "calm" then [Quiet; Crash; Silent]
      else if String.eqb (root p) "sharp" then [Quiet; Mating; Crash]
      else []
  | _ => []
  end.

Definition mini_play (p : position) (m : move) : position :=
  mkPosition (root p) (negb (white_to_move p)) (m :: played p).

#[export] Instance rules : RulesLibrary := {
  Position := position;
  Move := move;
  set_fen := mini_set_fen;
  fen := mini_fen;
  side_to_move := white_to_move;
  legal_moves := mini_legal_moves;
  play := mini_play;
  uci := move_uci
}.

(** The scripted answer to an analysis of [board]: the score is relative
    to the side to move of [board], as python-chess reports it. *)
Definition script (board : Board.t) : result Info.t :=
  let pov := Board.turn board in
  match Board.move_stack board with
  | [] =>
      if String.eqb (root (Board.position board)) "fatal"
      then Raise (EngineError "engine process died unexpectedly")
      else Ok (Info.mk (Some (PyChess.mkPovScore (PyChess.Cp 20) pov))
                 (Some [Quiet; Quiet]) (Some 14) (Some 52000) true)
  | Quiet :: _ =>
      Ok (Info.mk (Some (PyChess.mkPovScore (PyChess.Cp 50) pov))
            (Some [Quiet]) (Some 12) (Some 3400) true)
  | Crash :: _ => Raise (EngineError "engine process died unexpectedly")
  | Mating :: _ =>
      Ok (Info.mk (Some (PyChess.mkPovScore (PyChess.Mate 1) pov))
            (Some [Quiet]) (Some 5) (Some 120) true)
  | Silent :: _ => Ok (Info.mk None (Some [Quiet]) (Some 1) None true)
  end.

(** The engine process: the log of the limits received, latest first. *)
#[export] Instance engine : EngineProcess rules := {
  Engine := list Limit.t;
  analyse := fun board limit log => (script board, limit :: log);
  quit := fun log => (Ok tt, log)
}.

(** An operating system with Stockfish installed at [/usr/bin/stockfish]. *)
Definition os_installed : OS engine :=
  mkOS engine (fun path => String.eqb path "/usr/bin/stockfish")
       (fun path => Ok []).

(** An operating system without Stockfish. *)
Definition os_bare : OS engine :=
  mkOS engine (fun _ => false)
       (fun path => Raise (FileNotFoundError path)).


(** An analyzer with a running engine. *)
Definition started : ChessAnalyzer.t engine :=
  ChessAnalyzer.mk (proc := engine) "/usr/bin/stockfish" (Some []) None (Qmake 1 1).

(** An analyzer that was never started. *)
Definition fresh : ChessAnalyzer.t engine :=
  ChessAnalyzer.init (proc := engine) "/usr/bin/stockfish" None (Qmake 1 1).

Definition board_of (p : position) : Board.t := Board.mk p [] [].

End Mini.

(* ================================================================== *)
(** * Engines for stating and exercising further properties *)

(** An engine that keeps the record of what it was asked: the boards and
    limits of its analyses, latest first. *)
Definition Recording {rules : RulesLibrary} (proc : EngineProcess rules)
    : EngineProcess rules :=
  {| Engine := (@Engine rules proc * list (Board.t * Limit.t))%type;
     analyse := fun board limit st =>
       let (r, e') := @analyse rules proc board limit (fst st) in
       (r, (e', (board, limit) :: snd st));
     quit := fun st =>
       let (r, e') := @quit rules proc (fst st) in (r, (e', snd st)) |}.

(** The state of a recording engine: the engine and the record. *)
Definition recorded {rules : RulesLibrary} (proc : EngineProcess rules)
    (e : @Engine rules proc) (log : list (Board.t * Limit.t))
    : @Engine rules (Recording proc) := (e, log).

(** An engine whose mate scores are withheld and whose raises are all of
    class [Exception]. *)
Definition soften {rules : RulesLibrary} (r : result Info.t) : result Info.t :=
  match r with
  | Ok info =>
      match Info.score info with
      | Some s =>
          if PyChess.is_mate s
          then Ok (Info.mk None (Info.pv info) (Info.depth info)
                     (Info.nodes info) (Info.other_keys info))
          else Ok info
      | None => Ok info
      end
  | Raise x =>
      if is_Exception x then Raise x
      else Raise (EngineError "engine process died unexpectedly")
  end.

Definition Softened {rules : RulesLibrary} (proc : EngineProcess rules)
    : EngineProcess rules :=
  {| Engine := @Engine rules proc;
     analyse := fun board limit e =>
       let (r, e') := @analyse rules proc board limit e in (soften r, e');
     quit := @quit rules proc |}.

(** An engine with one answer to everything. *)
Definition Constant {rules : RulesLibrary} (answer : result Info.t)
    : EngineProcess rules :=
  {| Engine := unit;
     analyse := fun _ _ e => (answer, e);
     quit := fun e => (Ok tt, e) |}.

(** On the miniature rules library: an engine that reports a score and a
    depth and no move, and one that announces mate in two. *)
Definition Moveless : EngineProcess Mini.rules :=
  Constant (rules := Mini.rules)
    (Ok (Info.mk (rules := Mini.rules)
           (Some (PyChess.mkPovScore (PyChess.Cp 10) PyChess.WHITE))
           None (Some 3) None false)).

Definition Announcing : EngineProcess Mini.rules :=
  Constant (rules := Mini.rules)
    (Ok (Info.mk (rules := Mini.rules)
           (Some (PyChess.mkPovScore (PyChess.Mate 2) PyChess.WHITE))
           (Some [Mini.Mating]) (Some 9) (Some 700) false)).

(** A service holding a started analyzer on a constant engine. *)
Definition constant_service (proc : EngineProcess Mini.rules)
    (e : @Engine Mini.rules proc) : ChessService.t proc :=
  ChessService.mk
    (Some (ChessAnalyzer.mk (proc := proc) "stockfish" (Some e) None (Qmake 1 1)))
    (Some "stockfish").

(** A record of [get_board_analysis] without its search figures, as
    [get_moves_json] builds it. *)
Definition without_search_figures (d : MoveData.t) : MoveData.t :=
  MoveData.set_nodes_searched None (MoveData.set_depth_reached None d).

(** What [get_moves_json] makes of the outcome of [get_board_analysis]. *)
Definition moves_json_of_analysis (r : result AnalysisData.t)
    : result MovesData.t :=
  match r with
  | Ok a =>
      Ok (MovesData.mk (AnalysisData.fen a) (AnalysisData.total_moves a)
            (map without_search_figures (AnalysisData.moves a)))
  | Raise x => Raise x
  end.

(** The exceptions the route handlers name: an outcome is foreseen when it
    is a value, a [ValueError], a [RuntimeError], or no [Exception] at all
    (which no handler of the backend catches). *)
Definition foreseen {A} (r : result A) : bool :=
  match r with
  | Ok _ => true
  | Raise e =>
      ChessRoutes.is_ValueError e || ChessRoutes.is_RuntimeError e
      || negb (is_Exception e)
  end.

(** The limits the recording engine of a service has been given so far,
    latest first. *)
Definition limits_asked {rules : RulesLibrary} (proc : EngineProcess rules)
    (svc : ChessService.t (Recording proc)) : option (list Limit.t) :=
  match ChessService._analyzer svc with
  | Some a =>
      match ChessAnalyzer.engine a with
      | Some st => Some (map snd (snd st))
      | None => None
      end
  | None => None
  end.

(** Both operations of the service, asked for the record [s] (of position
    [p]) with the limit [time_limit], run the engine under [seconds] and
    nothing else: all that [analyze_position] adds to what the engine had
    been asked before ([log]) is one analysis or more under that time, one
    more than there are legal moves when it answers; [get_best_move] adds
    exactly one, answer or not. *)
Definition runs_under {rules : RulesLibrary} (proc : EngineProcess rules)
    (os : OS (Recording proc)) (settings : Settings.t) (s : string)
    (p : Position) (svc : ChessService.t (Recording proc))
    (log : list (Board.t * Limit.t)) (seconds : Q) (time_limit : option Q)
    : Prop :=
  let limit := Limit.mk (Some seconds) None in
  let analysed := ChessService.analyze_position os settings s time_limit svc in
  let best := ChessService.get_best_move os settings s time_limit svc in
  (exists k,
      limits_asked (snd analysed)
      = Some (repeat limit (S k) ++ map snd log)%list
      /\ (is_ok (fst analysed) = true -> k = List.length (legal_moves p)))
  /\ limits_asked (snd best) = Some (limit :: map snd log).

(* ================================================================== *)
(** * Facts: decimal texts and the centipawn pattern *)

Section DecimalText.

Lemma append_assoc (a b c : string) : (a ++ b) ++ c = a ++ (b ++ c).
Proof. induction a; simpl; [reflexivity | now rewrite IHa]. Qed.

Lemma span_digits_uint (d : Decimal.uint) (t : string) :
  PyStr.span_digits (NilEmpty.string_of_uint d ++ String ")" t)
  = (NilEmpty.string_of_uint d, String ")" t).
Proof.
  induction d; simpl; try rewrite IHd; reflexivity.
Qed.

Lemma string_of_uint_pos (p : positive) :
  exists c s, NilEmpty.string_of_uint (Pos.to_uint p) = String c s
              /\ NilZero.string_of_uint (Pos.to_uint p) = String c s.
Proof.
  pose proof (Unsigned.to_uint_nonnil p) as Hn.
  destruct (Pos.to_uint p) eqn:E; try congruence; simpl; eauto.
Qed.

Lemma uint_of_string_pos (p : positive) :
  NilZero.uint_of_string (NilZero.string_of_uint (Pos.to_uint p))
  = Some (Pos.to_uint p).
Proof. apply NilZero.usu, Unsigned.to_uint_nonnil. Qed.

Lemma of_uint_to_uint (p : positive) : Z.of_uint (Pos.to_uint p) = Z.pos p.
Proof. unfold Z.of_uint. rewrite Unsigned.of_to. reflexivity. Qed.

(** [int] reads back what [Score.__str__] prints for a centipawn score. *)
Lemma int_Score_str_Cp (n : Z) :
  PyStr.int (PyChess.Score_str (PyChess.Cp n)) = Some n.
Proof.
  destruct n as [|p|p]; [reflexivity| |].
  - change (PyChess.Score_str (PyChess.Cp (Z.pos p)))
      with (String "+" (NilZero.string_of_uint (Pos.to_uint p))).
    simpl. rewrite uint_of_string_pos. simpl.
    now rewrite of_uint_to_uint.
  - change (PyChess.Score_str (PyChess.Cp (Z.neg p)))
      with (String "-" (NilZero.string_of_uint (Pos.to_uint p))).
    simpl. rewrite uint_of_string_pos. simpl.
    now rewrite of_uint_to_uint.
Qed.

(** The pattern, anchored at a printed centipawn score, captures the
    printed number. *)
Lemma match_cp_at_repr (n : Z) (t : string) :
  Re.match_cp_at (PyChess.Score_repr (PyChess.Cp n) ++ t)
  = Some (PyChess.Score_str (PyChess.Cp n)).
Proof.
  destruct n as [|p|p]; [reflexivity| |].
  - destruct (string_of_uint_pos p) as (c & s & He & Hz).
    change (PyChess.Score_str (PyChess.Cp (Z.pos p)))
      with (String "+" (NilZero.string_of_uint (Pos.to_uint p))).
    change (PyChess.Score_repr (PyChess.Cp (Z.pos p)) ++ t)
      with ("Cp(+" ++ (NilZero.string_of_uint (Pos.to_uint p) ++ ")") ++ t).
    rewrite Hz, <- He.
    unfold Re.match_cp_at. cbn [PyStr.strip_prefix append Ascii.eqb Bool.eqb].
    cbn [Re.opt_sign Ascii.eqb Bool.eqb orb].
    rewrite append_assoc.
    change (")" ++ t) with (String ")" t).
    rewrite span_digits_uint, He. cbn. reflexivity.
  - destruct (string_of_uint_pos p) as (c & s & He & Hz).
    change (PyChess.Score_str (PyChess.Cp (Z.neg p)))
      with (String "-" (NilZero.string_of_uint (Pos.to_uint p))).
    change (PyChess.Score_repr (PyChess.Cp (Z.neg p)) ++ t)
      with ("Cp(-" ++ (NilZero.string_of_uint (Pos.to_uint p) ++ ")") ++ t).
    rewrite Hz, <- He.
    unfold Re.match_cp_at. cbn [PyStr.strip_prefix append Ascii.eqb Bool.eqb].
    cbn [Re.opt_sign Ascii.eqb Bool.eqb orb].
    rewrite append_assoc.
    change (")" ++ t) with (String ")" t).
    rewrite span_digits_uint, He. cbn. reflexivity.
Qed.

End DecimalText.

Section CentipawnPattern.

Lemma search_cp_unfold (s : string) :
  Re.search_cp s
  = match Re.match_cp_at s with
    | Some g => Some g
    | None => match s with
              | EmptyString => None
              | String _ s' => Re.search_cp s'
              end
    end.
Proof. destruct s; reflexivity. Qed.

Lemma search_cp_PovScore (n : Z) (turn : PyChess.Color) :
  Re.search_cp (PyChess.str (PyChess.mkPovScore (PyChess.Cp n) turn))
  = Some (PyChess.Score_str (PyChess.Cp n)).
Proof.
  unfold PyChess.str. cbn [PyChess.relative PyChess.turn].
  set (t := ", " ++ (if turn then "WHITE" else "BLACK") ++ ")").
  change (Re.search_cp ("PovScore(" ++ PyChess.Score_repr (PyChess.Cp n) ++ t))
    with (Re.search_cp (PyChess.Score_repr (PyChess.Cp n) ++ t)).
  rewrite search_cp_unfold, match_cp_at_repr. reflexivity.
Qed.

Lemma contains_Cp_PovScore (n : Z) (turn : PyChess.Color) :
  PyStr.contains "Cp("
    (PyChess.str (PyChess.mkPovScore (PyChess.Cp n) turn)) = true.
Proof. reflexivity. Qed.

(** The number the centipawn branch records is the relative score of the
    [PovScore], whatever its point of view; nothing is recorded for a score
    beyond the range of a float. *)
Lemma centipawn_advantage_Cp (n : Z) (turn : PyChess.Color) :
  ChessAnalyzer.centipawn_advantage (PyChess.mkPovScore (PyChess.Cp n) turn)
  = if fits_float n then Some (div100 n) else None.
Proof.
  unfold ChessAnalyzer.centipawn_advantage.
  rewrite contains_Cp_PovScore, search_cp_PovScore, int_Score_str_Cp.
  reflexivity.
Qed.

End CentipawnPattern.

(* ================================================================== *)
(** * Facts: the push / analyse / pop loop *)

Section LoopFacts.
Context {rules : RulesLibrary} {proc : EngineProcess rules}.

Lemma pop_push (m : Move) (b : Board.t) :
  Board.pop (Board.push m b) = (Ok m, b).
Proof. destruct b; reflexivity. Qed.

(** One turn of the loop: the two ways out that skip [board.pop()] leave the
    move on the board. *)
Lemma for_legal_moves_step (tl : option Q) (m : Move) (rest : list Move)
    (acc : list MoveData.t) (self : ChessAnalyzer.t proc) (board : Board.t) :
  ChessAnalyzer.for_legal_moves tl (m :: rest) acc (self, board)
  = match ChessAnalyzer.analyze_position (Board.push m board) tl None self with
    | (Ok info, self') =>
        match ChessAnalyzer.move_data_of_info m info with
        | Ok md => ChessAnalyzer.for_legal_moves tl rest (acc ++ [md]) (self', board)
        | Raise x => (Raise x, (self', Board.push m board))
        end
    | (Raise x, self') => (Raise x, (self', Board.push m board))
    end.
Proof.
  cbn [ChessAnalyzer.for_legal_moves].
  unfold bind, ChessAnalyzer.board_push, ChessAnalyzer.on_self, lift,
    ChessAnalyzer.board_pop.
  destruct (ChessAnalyzer.analyze_position (Board.push m board) tl None self)
    as [[info|x] self']; [|reflexivity].
  destruct (ChessAnalyzer.move_data_of_info m info) as [md|x]; [|reflexivity].
  rewrite pop_push. reflexivity.
Qed.

Lemma for_legal_moves_json_step (tl : option Q) (m : Move) (rest : list Move)
    (acc : list MoveData.t) (self : ChessAnalyzer.t proc) (board : Board.t) :
  ChessAnalyzer.for_legal_moves_json tl (m :: rest) acc (self, board)
  = match ChessAnalyzer.analyze_position (Board.push m board) tl None self with
    | (Ok info, self') =>
        match ChessAnalyzer.move_json_of_info m info with
        | Ok md =>
            ChessAnalyzer.for_legal_moves_json tl rest (acc ++ [md])
              (self', board)
        | Raise x => (Raise x, (self', Board.push m board))
        end
    | (Raise x, self') => (Raise x, (self', Board.push m board))
    end.
Proof.
  cbn [ChessAnalyzer.for_legal_moves_json].
  unfold bind, ChessAnalyzer.board_push, ChessAnalyzer.on_self, lift,
    ChessAnalyzer.board_pop.
  destruct (ChessAnalyzer.analyze_position (Board.push m board) tl None self)
    as [[info|x] self']; [|reflexivity].
  destruct (ChessAnalyzer.move_json_of_info m info) as [md|x]; [|reflexivity].
  rewrite pop_push. reflexivity.
Qed.

(** A run of the loop that ends normally leaves the board as it found it
    and has appended one record per move. *)
Lemma for_legal_moves_ok (tl : option Q) (legal : list Move) :
  forall acc self board r self' board',
    ChessAnalyzer.for_legal_moves tl legal acc (self, board)
    = (Ok r, (self', board')) ->
    board' = board /\ List.length r = (List.length acc + List.length legal)%nat.
Proof.
  induction legal as [|m rest IH]; intros acc self board r self' board' H.
  - cbn in H. inversion H; subst. split; [reflexivity | cbn; lia].
  - rewrite for_legal_moves_step in H.
    destruct (ChessAnalyzer.analyze_position (Board.push m board) tl None self)
      as [[info|x] s1]; [|discriminate].
    destruct (ChessAnalyzer.move_data_of_info m info) as [md|x]; [|discriminate].
    apply IH in H. destruct H as [Hb Hl]. split; [exact Hb|].
    rewrite Hl, List.length_app. cbn. lia.
Qed.

(** [analyze_position] keeps the engine started. *)
Lemma analyze_position_started (board : Board.t) (tl : option Q)
    (dl : option Z) (self : ChessAnalyzer.t proc) (e : Engine) :
  ChessAnalyzer.engine self = Some e ->
  exists e',
    ChessAnalyzer.engine
      (snd (ChessAnalyzer.analyze_position board tl dl self)) = Some e'.
Proof.
  intros He. unfold ChessAnalyzer.analyze_position. rewrite He.
  destruct (analyse board (ChessAnalyzer.analysis_limit self tl dl) e)
    as [[info|x] e']; [cbn; eauto|].
  destruct (is_Exception x); cbn; eauto.
Qed.

Lemma move_data_of_info_ok (m : Move) (info : Info.t) :
  match Info.score info with
  | Some s => PyChess.is_mate s = false
  | None => True
  end ->
  exists md, ChessAnalyzer.move_data_of_info m info = Ok md.
Proof.
  intros H. unfold ChessAnalyzer.move_data_of_info.
  destruct (Info.truthy info); [|eauto].
  destruct (Info.score info) as [s|]; [|eauto].
  rewrite H.
  destruct (ChessAnalyzer.centipawn_advantage s); eauto.
Qed.

(** With a started, tame engine the loop runs to its end. *)
Lemma for_legal_moves_returns (Htame : tame_engine) (tl : option Q)
    (legal : list Move) :
  forall acc self board e,
    ChessAnalyzer.engine self = Some e ->
    exists r self',
      ChessAnalyzer.for_legal_moves tl legal acc (self, board)
      = (Ok r, (self', board)).
Proof.
  induction legal as [|m rest IH]; intros acc self board e He.
  - do 2 eexists. reflexivity.
  - rewrite for_legal_moves_step.
    destruct (analyze_position_started (Board.push m board) tl None self He)
      as [e' He'].
    unfold ChessAnalyzer.analyze_position in *. rewrite He in *.
    pose proof (Htame (Board.push m board)
                  (ChessAnalyzer.analysis_limit self tl None) e) as Ht.
    destruct (analyse (Board.push m board)
                (ChessAnalyzer.analysis_limit self tl None) e)
      as [[info|x] e1]; cbn [fst] in Ht.
    + destruct (move_data_of_info_ok m info Ht) as [md Hmd]. rewrite Hmd.
      eapply IH. exact He'.
    + rewrite Ht in *. cbn. eapply IH. exact He'.
Qed.

End LoopFacts.

(* ================================================================== *)
(** * Facts: the final sort *)

Section SortFacts.
Variable A : Type.
Variable key : A -> Q.

Lemma Qle_bool_total (x y : Q) : Qle_bool x y = false -> Qle_bool y x = true.
Proof.
  intros H. apply Qle_bool_iff. apply Qlt_le_weak. apply Qnot_le_lt.
  intros Hle. apply Qle_bool_iff in Hle. congruence.
Qed.

Lemma descending_cons (x y : A) (l : list A) :
  descending key (x :: y :: l) = (Qle_bool (key y) (key x) && descending key (y :: l))%bool.
Proof. reflexivity. Qed.

Lemma insert_reverse_descending (x : A) (l : list A) :
  descending key l = true -> descending key (insert_reverse key x l) = true.
Proof.
  induction l as [|y l IH]; intros H; [reflexivity|].
  cbn [insert_reverse].
  destruct (Qle_bool (key y) (key x)) eqn:E.
  - rewrite descending_cons, E, H. reflexivity.
  - destruct l as [|z l].
    + cbn. rewrite (Qle_bool_total _ _ E). reflexivity.
    + rewrite descending_cons in H. apply andb_prop in H. destruct H as [Hyz Hl].
      specialize (IH Hl).
      cbn [insert_reverse] in *.
      destruct (Qle_bool (key z) (key x)) eqn:E2.
      * rewrite descending_cons, (Qle_bool_total _ _ E), IH. reflexivity.
      * rewrite descending_cons, Hyz, IH. reflexivity.
Qed.

Lemma sort_reverse_descending (l : list A) :
  descending key (sort_reverse key l) = true.
Proof.
  induction l as [|x l IH]; [reflexivity|].
  cbn [sort_reverse]. now apply insert_reverse_descending.
Qed.

Lemma insert_reverse_perm (x : A) (l : list A) :
  Permutation (x :: l) (insert_reverse key x l).
Proof.
  induction l as [|y l IH]; [reflexivity|].
  cbn [insert_reverse]. destruct (Qle_bool (key y) (key x)); [reflexivity|].
  rewrite perm_swap. now constructor.
Qed.

Lemma sort_reverse_perm (l : list A) : Permutation l (sort_reverse key l).
Proof.
  induction l as [|x l IH]; [constructor|].
  cbn [sort_reverse]. rewrite <- insert_reverse_perm. now constructor.
Qed.



Lemma descending_head (a : A) (l : list A) :
  descending key (a :: l) = true ->
  forall x, In x l -> Qle (key x) (key a).
Proof.
  revert a. induction l as [|b l IH]; intros a H x Hx; [destruct Hx|].
  change (descending key (a :: b :: l))
    with (Qle_bool (key b) (key a) && descending key (b :: l))%bool in H.
  apply andb_prop in H. destruct H as [Hab Hl].
  apply Qle_bool_iff in Hab. destruct Hx as [<-|Hx]; [exact Hab|].
  eapply Qle_trans; [apply (IH b Hl x Hx) | exact Hab].
Qed.



End SortFacts.

(* ================================================================== *)
(** * Facts: the recording engine and the calls of the service *)

Section RecordingFacts.
Context {rules : RulesLibrary} (proc : EngineProcess rules).

Lemma analysis_limit_set_engine (self : ChessAnalyzer.t (Recording proc))
    (x : option (@Engine rules (Recording proc))) (tl : option Q)
    (dl : option Z) :
  ChessAnalyzer.analysis_limit (ChessAnalyzer.set_engine x self) tl dl
  = ChessAnalyzer.analysis_limit self tl dl.
Proof. reflexivity. Qed.

(** An analysis on the recording engine adds its board and limit to the
    record, whatever the answer. *)
Lemma analyze_position_recorded (board : Board.t) (tl : option Q)
    (self : ChessAnalyzer.t (Recording proc))
    (e : @Engine rules proc) (log : list (Board.t * Limit.t)) :
  ChessAnalyzer.engine self = Some (recorded proc e log) ->
  exists r e',
    ChessAnalyzer.analyze_position board tl None self
    = (r, ChessAnalyzer.set_engine
            (Some (recorded proc e'
                     ((board, ChessAnalyzer.analysis_limit self tl None) :: log)))
            self).
Proof.
  intros He. unfold ChessAnalyzer.analyze_position. rewrite He.
  unfold recorded. cbn [analyse Recording fst snd].
  destruct (@analyse rules proc board
              (ChessAnalyzer.analysis_limit self tl None) e) as [[info|x] e'].
  - do 2 eexists. reflexivity.
  - destruct (is_Exception x); do 2 eexists; reflexivity.
Qed.

Lemma for_legal_moves_recorded (tl : option Q) (legal : list Move) :
  forall acc (self : ChessAnalyzer.t (Recording proc)) board e log r self' board',
    ChessAnalyzer.engine self = Some (recorded proc e log) ->
    ChessAnalyzer.for_legal_moves tl legal acc (self, board)
    = (Ok r, (self', board')) ->
    exists e',
      ChessAnalyzer.engine self'
      = Some (recorded proc e'
                (rev (map (fun m => (Board.push m board,
                                     ChessAnalyzer.analysis_limit self tl None))
                          legal) ++ log)%list).
Proof.
  induction legal as [|m rest IH];
    intros acc self board e log r self' board' He H.
  - cbn in H. inversion H; subst. cbn. eauto.
  - rewrite for_legal_moves_step in H.
    destruct (analyze_position_recorded (Board.push m board) tl self He)
      as (r1 & e1 & Ha).
    rewrite Ha in H. destruct r1 as [info|x]; [|discriminate].
    destruct (ChessAnalyzer.move_data_of_info m info) as [md|x]; [|discriminate].
    eapply IH in H; [|reflexivity].
    destruct H as [e' H]. exists e'. rewrite H.
    rewrite analysis_limit_set_engine. cbn [map rev].
    now rewrite <- List.app_assoc.
Qed.

End RecordingFacts.

Lemma get_board_analysis_recorded
    {rules : RulesLibrary} (proc : EngineProcess rules)
    (tl : option Q) (self self' : ChessAnalyzer.t (Recording proc))
    (board board' : Board.t) (r : AnalysisData.t)
    (e : @Engine rules proc) (log : list (Board.t * Limit.t)) :
  ChessAnalyzer.engine self = Some (recorded proc e log) ->
  ChessAnalyzer.get_board_analysis tl (self, board) = (Ok r, (self', board')) ->
  let time := match tl with
              | Some t => t
              | None => ChessAnalyzer.default_time self
              end in
  let limit := ChessAnalyzer.analysis_limit self (Some time) None in
  exists e',
    ChessAnalyzer.engine self'
    = Some (recorded proc e'
              (rev (map (fun m => (Board.push m board, limit))
                        (legal_moves (Board.position board))) ++ log)%list).
Proof.
  intros He. cbv zeta. unfold ChessAnalyzer.get_board_analysis.
  destruct (legal_moves (Board.position board)) as [|m rest] eqn:El.
  - intros H. inversion H; subst. cbn. eauto.
  - unfold bind, ret.
    match goal with
    | |- context [ChessAnalyzer.for_legal_moves ?t ?l ?a ?s] =>
        destruct (ChessAnalyzer.for_legal_moves t l a s)
          as [[moves|x] [s1 b1]] eqn:E
    end; [|discriminate].
    intros H. inversion H; subst.
    exact (@for_legal_moves_recorded _ proc _ _ _ _ _ _ _ _ _ _ He E).
Qed.

Section ServiceFacts.
Context {rules : RulesLibrary} {proc : EngineProcess rules}.
Variable os : OS proc.
Variable settings : Settings.t.

(** The service's [analyze_position] on a service that holds an analyzer,
    in terms of the two calls it makes on it. *)
Lemma service_analyze_position_with (fen_ : string) (p : Position) (limit : Q)
    (svc : ChessService.t proc) (analyzer : ChessAnalyzer.t proc) :
  set_fen fen_ = inl p ->
  ChessService._analyzer svc = Some analyzer ->
  ChessService.analyze_position_with os settings fen_ limit svc
  = match ChessAnalyzer.get_board_analysis (Some limit)
            (analyzer, Board.mk p [] []) with
    | (Raise x, (a1, _)) =>
        (Raise (if is_Exception x
                then RuntimeError ("Analysis failed: " ++ str_exn x)
                else x),
         ChessService.mk (Some a1) (ChessService._engine_path svc))
    | (Ok data, (a1, b1)) =>
        match ChessAnalyzer.get_best_move b1 (Some limit) a1 with
        | (Raise x, a2) =>
            (Raise (if is_Exception x
                    then RuntimeError
                           ("Best move analysis failed: " ++ str_exn x)
                    else x),
             ChessService.mk (Some a2) (ChessService._engine_path svc))
        | (Ok best, a2) =>
            (Ok (AnalysisResponse.mk
                   (AnalysisData.fen data) (AnalysisData.turn data)
                   (AnalysisData.total_moves data) (AnalysisData.moves data)
                   (BestMoveData.best_move best) (BestMoveData.advantage best)
                   (BestMoveData.is_mate best) (BestMoveData.mate_in best)
                   (BestMoveData.principal_variation best)),
             ChessService.mk (Some a2) (ChessService._engine_path svc))
        end
    end.
Proof.
  intros Hf Ha.
  unfold ChessService.analyze_position_with, ChessService.create_board,
    Board.of_fen, ChessService._get_analyzer, ChessService.reraise,
    ChessService.on_analyzer, ChessAnalyzer.on_self, try_except, bind, lift,
    raise, ret.
  rewrite Hf, Ha.
  destruct (ChessAnalyzer.get_board_analysis (Some limit)
              (analyzer, Board.mk p [] [])) as [[data|x] [a1 b1]]; cbn.
  - destruct (ChessAnalyzer.get_best_move b1 (Some limit) a1)
      as [[best|x] a2]; cbn; [reflexivity|].
    destruct (is_Exception x); reflexivity.
  - destruct (is_Exception x); reflexivity.
Qed.

End ServiceFacts.

Section RequestFacts.
Context {rules : RulesLibrary} {proc : EngineProcess rules}.

(** [get_best_move] does nothing to the analyzer after its analysis. *)
Lemma get_best_move_state (board : Board.t) (tl : option Q)
    (self : ChessAnalyzer.t proc) :
  snd (ChessAnalyzer.get_best_move board tl self)
  = snd (ChessAnalyzer.analyze_position board
           (Some match tl with
                 | Some t => t
                 | None => ChessAnalyzer.default_time self
                 end) None self).
Proof.
  unfold ChessAnalyzer.get_best_move, bind, ret, lift.
  destruct (ChessAnalyzer.analyze_position board
              (Some match tl with
                    | Some t => t
                    | None => ChessAnalyzer.default_time self
                    end) None self) as [[info|x] s1]; [|reflexivity].
  destruct (negb (Info.truthy info)); [reflexivity|].
  destruct (Info.score info) as [s|]; [|reflexivity].
  destruct (PyChess.is_mate s); [|reflexivity].
  destruct (PyChess.mate s); reflexivity.
Qed.

(** An analysis changes nothing of the analyzer but the engine. *)
Lemma analyze_position_limit (board : Board.t) (tl : option Q)
    (dl : option Z) (self : ChessAnalyzer.t proc) (tl' : option Q)
    (dl' : option Z) :
  ChessAnalyzer.analysis_limit
    (snd (ChessAnalyzer.analyze_position board tl dl self)) tl' dl'
  = ChessAnalyzer.analysis_limit self tl' dl'.
Proof.
  unfold ChessAnalyzer.analyze_position.
  destruct (ChessAnalyzer.engine self) as [e|]; [|reflexivity].
  destruct (analyse board (ChessAnalyzer.analysis_limit self tl dl) e)
    as [[info|x] e']; [reflexivity|].
  destruct (is_Exception x); reflexivity.
Qed.

Lemma for_legal_moves_limit (tl : option Q) (legal : list Move)
    (tl' : option Q) (dl' : option Z) :
  forall acc self board,
    ChessAnalyzer.analysis_limit
      (fst (snd (ChessAnalyzer.for_legal_moves tl legal acc (self, board))))
      tl' dl'
    = ChessAnalyzer.analysis_limit self tl' dl'.
Proof.
  induction legal as [|m rest IH]; intros acc self board; [reflexivity|].
  rewrite for_legal_moves_step.
  pose proof (analyze_position_limit (Board.push m board) tl None self tl' dl')
    as Hl.
  destruct (ChessAnalyzer.analyze_position (Board.push m board) tl None self)
    as [[info|x] s1]; cbn [snd] in Hl; [|exact Hl].
  destruct (ChessAnalyzer.move_data_of_info m info) as [md|x]; [|exact Hl].
  now rewrite IH.
Qed.

Lemma get_board_analysis_limit (tl : option Q) (st : ChessAnalyzer.St proc)
    (tl' : option Q) (dl' : option Z) :
  ChessAnalyzer.analysis_limit
    (fst (snd (ChessAnalyzer.get_board_analysis tl st))) tl' dl'
  = ChessAnalyzer.analysis_limit (fst st) tl' dl'.
Proof.
  destruct st as [self board]. unfold ChessAnalyzer.get_board_analysis.
  destruct (legal_moves (Board.position board)) as [|m rest]; [reflexivity|].
  unfold bind, ret.
  match goal with
  | |- context [ChessAnalyzer.for_legal_moves ?t ?l ?a ?s] =>
      pose proof (for_legal_moves_limit t l tl' dl' a self board) as Hl;
      destruct (ChessAnalyzer.for_legal_moves t l a s) as [[moves|x] [s1 b1]]
  end; exact Hl.
Qed.

(** The analyzer [_get_analyzer] returns is the one the service holds
    from then on. *)
Lemma get_analyzer_held (os : OS proc) (settings : Settings.t)
    (svc svc' : ChessService.t proc) (a : ChessAnalyzer.t proc) :
  ChessService._get_analyzer os settings svc = (Ok a, svc') ->
  ChessService._analyzer svc' = Some a.
Proof.
  unfold ChessService._get_analyzer.
  destruct (ChessService._analyzer svc) as [a0|] eqn:Ea.
  - intros H. inversion H; subst. exact Ea.
  - destruct (ChessService._initialize_analyzer os settings svc)
      as [[u|x] s1]; [|discriminate].
    destruct (ChessService._analyzer s1) as [a1|] eqn:E1; [|discriminate].
    intros H. inversion H; subst. exact E1.
Qed.

End RequestFacts.

(* ================================================================== *)
(** * The claims *)

(** The normalisation of the specification is python-chess's
    [score.white()]. *)
Lemma normalized_advantage_is_white_pov (n : Z) (side : PyChess.Color) :
  option_map div100
    (white_centipawns (PyChess.mkPovScore (PyChess.Cp n) side))
  = Some (normalized_advantage n side).
Proof. destruct side; reflexivity. Qed.

(** Whatever the point of view of the score, the record of a move whose
    analysis reports [Cp(n)] carries [n/100] (nothing, when [n] is beyond
    the range of a float). *)
Lemma move_data_of_info_Cp {rules : RulesLibrary} (m : Move) (n : Z)
    (pov : PyChess.Color) (pv : option (list Move)) (depth nodes : option Z)
    (other : bool) :
  exists md,
    ChessAnalyzer.move_data_of_info m
      (Info.mk (Some (PyChess.mkPovScore (PyChess.Cp n) pov)) pv depth nodes other)
    = Ok md
    /\ MoveData.white_advantage md
       = (if fits_float n then Some (div100 n) else None)
    /\ MoveData.is_mate md = false.
Proof.
  unfold ChessAnalyzer.move_data_of_info. cbn [Info.truthy Info.score].
  change (PyChess.is_mate (PyChess.mkPovScore (PyChess.Cp n) pov)) with false.
  cbv iota. rewrite centipawn_advantage_Cp.
  destruct (fits_float n), pv as [[|first pv]|], depth, nodes;
    eexists; repeat split.
Qed.

Lemma move_json_of_info_Cp {rules : RulesLibrary} (m : Move) (n : Z)
    (pov : PyChess.Color) (pv : option (list Move)) (depth nodes : option Z)
    (other : bool) :
  exists md,
    ChessAnalyzer.move_json_of_info m
      (Info.mk (Some (PyChess.mkPovScore (PyChess.Cp n) pov)) pv depth nodes other)
    = Ok md
    /\ MoveData.white_advantage md
       = (if fits_float n then Some (div100 n) else None).
Proof.
  unfold ChessAnalyzer.move_json_of_info. cbn [Info.truthy Info.score].
  change (PyChess.is_mate (PyChess.mkPovScore (PyChess.Cp n) pov)) with false.
  cbv iota. rewrite centipawn_advantage_Cp.
  destruct (fits_float n), pv as [[|first pv]|]; eexists; repeat split.
Qed.

(** C1 (fails on the code).  The claim: for a centipawn score the recorded
    advantage is the mover-relative value over 100 when White is to move in
    the evaluated position and its negation when Black is, so a
    black-to-move position scored [+50] is recorded as [-0.50].  The code
    records the mover-relative value over 100 for either side (and nothing
    for a value beyond the range of a float), in [get_board_analysis] and
    in [get_moves_json] alike: after White's [e2e4]
    on the miniature board the engine reports [PovScore(Cp(+50), BLACK)] and
    the record carries [+0.50]. *)
Theorem C1_black_to_move_plus50_is_recorded_as_plus_half :
  (forall (rules : RulesLibrary) (m : Move) (n : Z) (pov : PyChess.Color)
          (pv : option (list Move)) (depth nodes : option Z) (other : bool),
      exists md,
        ChessAnalyzer.move_data_of_info m
          (Info.mk (Some (PyChess.mkPovScore (PyChess.Cp n) pov))
                   pv depth nodes other) = Ok md
        /\ MoveData.white_advantage md
           = (if fits_float n then Some (div100 n) else None))
  /\ (forall (rules : RulesLibrary) (m : Move) (n : Z) (pov : PyChess.Color)
             (pv : option (list Move)) (depth nodes : option Z) (other : bool),
         exists md,
           ChessAnalyzer.move_json_of_info m
             (Info.mk (Some (PyChess.mkPovScore (PyChess.Cp n) pov))
                      pv depth nodes other) = Ok md
           /\ MoveData.white_advantage md
              = (if fits_float n then Some (div100 n) else None))
  /\ Mini.script (Board.push (rules := Mini.rules) Mini.Quiet
                    (Mini.board_of (Mini.mkPosition "calm" true [])))
     = Ok (Info.mk (rules := Mini.rules)
             (Some (PyChess.mkPovScore (PyChess.Cp 50) PyChess.BLACK))
             (Some [Mini.Quiet]) (Some 12) (Some 3400) true)
  /\ (exists self' rest,
         ChessAnalyzer.get_board_analysis None
           (Mini.started, Mini.board_of (Mini.mkPosition "calm" true []))
         = (Ok (AnalysisData.mk "calm w" "white" 3
                  (MoveData.mk "e2e4" (Some (div100 50)) false None
                     (Some "e2e4") (Some 12) (Some 3400) :: rest)),
            self'))
  /\ Qeq (div100 50) (1 # 2)
  /\ Qeq (normalized_advantage 50 PyChess.BLACK) (- (1 # 2))
  /\ Qeq_bool (div100 50) (normalized_advantage 50 PyChess.BLACK) = false.
Proof.
  split; [|split; [|split; [|split; [|split; [|split]]]]].
  - intros. destruct (move_data_of_info_Cp m n pov pv depth nodes other)
      as (md & H1 & H2 & _). eauto.
  - intros. apply move_json_of_info_Cp.
  - reflexivity.
  - do 2 eexists. vm_compute. reflexivity.
  - reflexivity.
  - reflexivity.
  - reflexivity.
Qed.

(** C2 (fails on the code).  The claim: a mate score gives a record with
    [is_mate = true], no advantage, and [mate_in] in the absolute
    convention.  The code asks the [PovScore] for [mate()], which it does
    not have: the record is never built, the enumeration ends with the
    [AttributeError], and the move stays on the board. *)
Theorem C2_mate_score_aborts_the_enumeration :
  (forall (rules : RulesLibrary) (m : Move) (k : Z) (pov : PyChess.Color)
          (pv : option (list Move)) (depth nodes : option Z) (other : bool),
      ChessAnalyzer.move_data_of_info m
        (Info.mk (Some (PyChess.mkPovScore (PyChess.Mate k) pov))
                 pv depth nodes other)
      = Raise (AttributeError "'PovScore' object has no attribute 'mate'"))
  /\ (let board := Mini.board_of (Mini.mkPosition "sharp" true []) in
      exists self',
        ChessAnalyzer.get_board_analysis None (Mini.started, board)
        = (Raise (AttributeError "'PovScore' object has no attribute 'mate'"),
           (self', Board.push (rules := Mini.rules) Mini.Mating board))).
Proof.
  split.
  - intros. reflexivity.
  - eexists. vm_compute. reflexivity.
Qed.

(** What [get_board_analysis] returns is ranked by the sort key. *)
Lemma get_board_analysis_ranked {rules : RulesLibrary}
    {proc : EngineProcess rules} (tl : option Q)
    (st st' : ChessAnalyzer.St proc) (r : AnalysisData.t) :
  ChessAnalyzer.get_board_analysis tl st = (Ok r, st') ->
  ranked_by_sort_key (AnalysisData.moves r) = true.
Proof.
  destruct st as [self board]. unfold ChessAnalyzer.get_board_analysis.
  destruct (legal_moves (Board.position board)) as [|m rest].
  - intros H. inversion H. reflexivity.
  - unfold bind, ret.
    match goal with
    | |- context [ChessAnalyzer.for_legal_moves ?t ?l ?a ?s] =>
        destruct (ChessAnalyzer.for_legal_moves t l a s) as [[moves|x] s1]
    end; [|discriminate].
    intros H. inversion H. apply sort_reverse_descending.
Qed.


Section MateFacts.
Context {rules : RulesLibrary} {proc : EngineProcess rules}.







End MateFacts.


Section BoardAnalysisFacts.
Context {rules : RulesLibrary} {proc : EngineProcess rules}.

Lemma sort_reverse_length (A : Type) (key : A -> Q) (l : list A) :
  List.length (sort_reverse key l) = List.length l.
Proof. symmetry. apply Permutation_length, sort_reverse_perm. Qed.

(** What a normal return of [get_board_analysis] looks like. *)
Lemma get_board_analysis_ok (tl : option Q) (self : ChessAnalyzer.t proc)
    (board : Board.t) (r : AnalysisData.t) (self' : ChessAnalyzer.t proc)
    (board' : Board.t) :
  ChessAnalyzer.get_board_analysis tl (self, board) = (Ok r, (self', board')) ->
  board' = board
  /\ AnalysisData.fen r = Board.board_fen board
  /\ AnalysisData.total_moves r = len (legal_moves (Board.position board))
  /\ len (AnalysisData.moves r) = len (legal_moves (Board.position board)).
Proof.
  unfold ChessAnalyzer.get_board_analysis.
  destruct (legal_moves (Board.position board)) as [|m rest] eqn:El.
  - intros H. inversion H; subst. repeat split.
  - unfold bind, ret.
    set (tl' := Some match tl with
                     | Some t => t
                     | None => ChessAnalyzer.default_time self
                     end).
    destruct (ChessAnalyzer.for_legal_moves tl' (m :: rest) [] (self, board))
      as [[moves|x] [s1 b1]] eqn:E; [|discriminate].
    intros H. inversion H; subst.
    apply for_legal_moves_ok in E. destruct E as [Hb Hl].
    cbn [AnalysisData.fen AnalysisData.total_moves AnalysisData.moves].
    repeat split; try assumption.
    unfold len. now rewrite sort_reverse_length, Hl.
Qed.

(** With a started, tame engine [get_board_analysis] returns, with one
    record per legal move. *)
Lemma get_board_analysis_returns (Htame : tame_engine) (tl : option Q)
    (self : ChessAnalyzer.t proc) (board : Board.t) (e : Engine) :
  ChessAnalyzer.engine self = Some e ->
  exists r self',
    ChessAnalyzer.get_board_analysis tl (self, board) = (Ok r, (self', board))
    /\ AnalysisData.total_moves r = len (legal_moves (Board.position board))
    /\ len (AnalysisData.moves r) = len (legal_moves (Board.position board)).
Proof.
  intros He.
  destruct (ChessAnalyzer.get_board_analysis tl (self, board))
    as [[r|x] [s1 b1]] eqn:E.
  - destruct (get_board_analysis_ok _ _ _ E) as (-> & _ & Ht & Hm). eauto.
  - exfalso. revert E. unfold ChessAnalyzer.get_board_analysis.
    destruct (legal_moves (Board.position board)) as [|m rest]; [discriminate|].
    unfold bind.
    match goal with
    | |- context [ChessAnalyzer.for_legal_moves ?t ?l ?a ?s] =>
        destruct (for_legal_moves_returns Htame t l a self board He)
          as (r & s' & Hr)
    end.
    rewrite Hr. discriminate.
Qed.

(** Without legal moves [get_board_analysis] returns at once, engine or
    not. *)
Lemma get_board_analysis_no_moves (tl : option Q) (self : ChessAnalyzer.t proc)
    (board : Board.t) :
  legal_moves (Board.position board) = [] ->
  ChessAnalyzer.get_board_analysis tl (self, board)
  = (Ok (AnalysisData.mk (Board.board_fen board)
           (if Board.turn board then "white" else "black") 0 []),
     (self, board)).
Proof.
  intros H. unfold ChessAnalyzer.get_board_analysis. rewrite H. reflexivity.
Qed.

End BoardAnalysisFacts.

(** C4.  When [get_board_analysis] returns, the board it was given is the
    board it found: same position, hence same FEN, and same stacks, every
    push having been undone, also around the analyses that failed. *)
Theorem C4_board_unchanged_after_get_board_analysis
    {rules : RulesLibrary} {proc : EngineProcess rules}
    (tl : option Q) (self self' : ChessAnalyzer.t proc)
    (board board' : Board.t) (r : AnalysisData.t) :
  ChessAnalyzer.get_board_analysis tl (self, board) = (Ok r, (self', board')) ->
  board' = board
  /\ Board.board_fen board' = Board.board_fen board
  /\ AnalysisData.fen r = Board.board_fen board.
Proof.
  intros H. destruct (get_board_analysis_ok _ _ _ H) as (-> & Hf & _).
  repeat split. exact Hf.
Qed.

(** C4, witness: the board [calm w] of the miniature library, three legal
    moves, the analysis of the second one failing. *)
Lemma C4_witness_calm_board :
  let board := Mini.board_of (Mini.mkPosition "calm" true []) in
  let run := ChessAnalyzer.get_board_analysis None (Mini.started, board) in
  is_ok (fst run) = true
  /\ snd (snd run) = board
  /\ Board.board_fen (snd (snd run)) = "calm w".
Proof.
  cbv zeta. split; [reflexivity|]. split.
  - refine (proj1 (@C4_board_unchanged_after_get_board_analysis
                     _ Mini.engine None Mini.started _
                     (Mini.board_of (Mini.mkPosition "calm" true [])) _ _ _)).
    vm_compute. reflexivity.
  - reflexivity.
Defined.

(** C5 (fails on the code).  The claim: for every position the enumeration
    returns one record per legal move, failed analyses included, and an
    empty list when there is no legal move.  On the board [sharp w] of the
    miniature library, three legal moves, the engine reports a mate score
    after the second: [get_board_analysis] returns no list, it raises, and
    the service answers the request with an error.  (On [stale w], no legal
    move, it returns the empty list.) *)
Theorem C5_enumeration_raises_on_a_mate_score :
  let sharp := Mini.board_of (Mini.mkPosition "sharp" true []) in
  let stale := Mini.board_of (Mini.mkPosition "stale" true []) in
  len (legal_moves (Board.position sharp)) = 3
  /\ fst (ChessAnalyzer.get_board_analysis None (Mini.started, sharp))
     = Raise (AttributeError "'PovScore' object has no attribute 'mate'")
  /\ fst (ChessService.analyze_position Mini.os_installed Settings.defaults
            "white::sharp w::" None
            (ChessService.mk (Some Mini.started) (Some "/usr/bin/stockfish")))
     = Raise (RuntimeError
                "Analysis failed: 'PovScore' object has no attribute 'mate'")
  /\ fst (ChessAnalyzer.get_board_analysis None (Mini.started, stale))
     = Ok (AnalysisData.mk "stale w" "white" 0 []).
Proof. cbv zeta. repeat split. Qed.

Section FailureFacts.
Context {rules : RulesLibrary} {proc : EngineProcess rules}.

(** An analysis that raises an [Exception] is an empty [info]. *)
Lemma analyze_position_raise (board : Board.t) (tl : option Q) (dl : option Z)
    (self : ChessAnalyzer.t proc) (e e' : Engine) (x : exn) :
  ChessAnalyzer.engine self = Some e ->
  analyse board (ChessAnalyzer.analysis_limit self tl dl) e = (Raise x, e') ->
  is_Exception x = true ->
  ChessAnalyzer.analyze_position board tl dl self
  = (Ok Info.empty, ChessAnalyzer.set_engine (Some e') self).
Proof.
  intros He Ha Hx. unfold ChessAnalyzer.analyze_position.
  now rewrite He, Ha, Hx.
Qed.

Lemma analyze_position_answer (board : Board.t) (tl : option Q) (dl : option Z)
    (self : ChessAnalyzer.t proc) (e e' : Engine) (info : Info.t) :
  ChessAnalyzer.engine self = Some e ->
  analyse board (ChessAnalyzer.analysis_limit self tl dl) e = (Ok info, e') ->
  ChessAnalyzer.analyze_position board tl dl self
  = (Ok info, ChessAnalyzer.set_engine (Some e') self).
Proof.
  intros He Ha. unfold ChessAnalyzer.analyze_position. now rewrite He, Ha.
Qed.

(** No score, no analysis field. *)
Lemma move_data_of_info_no_score (m : Move) (info : Info.t) :
  Info.score info = None ->
  ChessAnalyzer.move_data_of_info m info = Ok (null_move_data (uci m)).
Proof.
  intros H. unfold ChessAnalyzer.move_data_of_info. rewrite H.
  destruct (Info.truthy info); reflexivity.
Qed.

(** The service's [get_best_move] on a started analyzer, up to the call of
    the analyzer's [get_best_move]. *)
Lemma service_get_best_move_with (os : OS proc) (settings : Settings.t)
    (fen_ : string) (p : Position) (limit : Q)
    (svc : ChessService.t proc) (analyzer : ChessAnalyzer.t proc) :
  set_fen fen_ = inl p ->
  ChessService._analyzer svc = Some analyzer ->
  ChessService.get_best_move_with os settings fen_ limit svc
  = match ChessAnalyzer.get_best_move (Board.mk p [] []) (Some limit) analyzer with
    | (Ok d, analyzer') =>
        (match BestMoveData.error d with
         | Some msg => Raise (RuntimeError msg)
         | None => BestMoveResponse.validate d
         end,
         ChessService.mk (Some analyzer') (ChessService._engine_path svc))
    | (Raise x, analyzer') =>
        (Raise (if is_Exception x
                then RuntimeError ("Best move analysis failed: " ++ str_exn x)
                else x),
         ChessService.mk (Some analyzer') (ChessService._engine_path svc))
    end.
Proof.
  intros Hf Ha.
  unfold ChessService.get_best_move_with, ChessService.create_board,
    Board.of_fen, ChessService._get_analyzer, ChessService.reraise,
    ChessService.on_analyzer, ChessAnalyzer.on_self, try_except, bind, lift,
    raise.
  rewrite Hf, Ha.
  destruct (ChessAnalyzer.get_best_move (Board.mk p [] []) (Some limit) analyzer)
    as [[d|x] a']; cbn.
  - destruct (BestMoveData.error d); reflexivity.
  - destruct (is_Exception x); reflexivity.
Qed.

(** The records gathered so far stay at the head of the list. *)
Lemma for_legal_moves_prefix (tl : option Q) (legal : list Move) :
  forall acc st r st',
    ChessAnalyzer.for_legal_moves tl legal acc st = (Ok r, st') ->
    exists more, r = (acc ++ more)%list.
Proof.
  induction legal as [|m rest IH]; intros acc [self board] r st' H.
  - cbn in H. inversion H; subst. exists []. now rewrite List.app_nil_r.
  - rewrite for_legal_moves_step in H.
    destruct (ChessAnalyzer.analyze_position (Board.push m board) tl None self)
      as [[info|x] s1]; [|discriminate].
    destruct (ChessAnalyzer.move_data_of_info m info) as [md|x]; [|discriminate].
    apply IH in H. destruct H as [more ->].
    exists (md :: more). now rewrite <- List.app_assoc.
Qed.

(** An analysis that gives nothing usable makes the record with every
    analysis field null. *)
Lemma unusable_null_record (tl : option Q) (m : Move)
    (self : ChessAnalyzer.t proc) (board : Board.t) (e : Engine) :
  ChessAnalyzer.engine self = Some e ->
  unusable_at (Board.push m board) ->
  exists info self',
    ChessAnalyzer.analyze_position (Board.push m board) tl None self
    = (Ok info, self')
    /\ ChessAnalyzer.move_data_of_info m info = Ok (null_move_data (uci m)).
Proof.
  intros He Hu. unfold ChessAnalyzer.analyze_position. rewrite He.
  pose proof (Hu (ChessAnalyzer.analysis_limit self tl None) e) as H.
  destruct (analyse (Board.push m board)
              (ChessAnalyzer.analysis_limit self tl None) e)
    as [[info|x] e']; cbn [fst] in H.
  - do 2 eexists. split; [reflexivity|].
    now apply move_data_of_info_no_score.
  - rewrite H. do 2 eexists. split; reflexivity.
Qed.

(** In a run of the loop that ends normally, a move whose analysis gives
    nothing usable has the null record. *)
Lemma for_legal_moves_degrades (tl : option Q) (m : Move) (legal : list Move) :
  forall acc self board e r st',
    ChessAnalyzer.engine self = Some e ->
    In m legal ->
    unusable_at (Board.push m board) ->
    ChessAnalyzer.for_legal_moves tl legal acc (self, board) = (Ok r, st') ->
    In (null_move_data (uci m)) r.
Proof.
  induction legal as [|m' rest IH];
    intros acc self board e r st' He Hin Hu H; [destruct Hin|].
  destruct Hin as [->|Hin].
  - destruct (@unusable_null_record tl m self board e He Hu)
      as (info & s1 & Ha & Hmd).
    rewrite for_legal_moves_step, Ha, Hmd in H.
    apply for_legal_moves_prefix in H. destruct H as [more ->].
    apply in_or_app. left. apply in_or_app. right. now left.
  - rewrite for_legal_moves_step in H.
    destruct (analyze_position_started (Board.push m' board) tl None self He)
      as [e1 He1].
    destruct (ChessAnalyzer.analyze_position (Board.push m' board) tl None self)
      as [[info|x] s1]; [|discriminate].
    destruct (ChessAnalyzer.move_data_of_info m' info) as [md|x];
      [|discriminate].
    exact (IH _ _ _ _ _ _ He1 Hin Hu H).
Qed.

(** With a started engine whose analyses of the successors are tame, the
    loop runs to its end and leaves the board as it was. *)
Lemma for_legal_moves_returns_at (tl : option Q) (board : Board.t)
    (legal : list Move) :
  (forall m, In m legal -> tame_at (Board.push m board)) ->
  forall acc self e,
    ChessAnalyzer.engine self = Some e ->
    exists r self',
      ChessAnalyzer.for_legal_moves tl legal acc (self, board)
      = (Ok r, (self', board)).
Proof.
  induction legal as [|m rest IH]; intros Ht acc self e He.
  - do 2 eexists. reflexivity.
  - rewrite for_legal_moves_step.
    destruct (analyze_position_started (Board.push m board) tl None self He)
      as [e' He'].
    unfold ChessAnalyzer.analyze_position in *. rewrite He in *.
    pose proof (Ht m (or_introl eq_refl)
                  (ChessAnalyzer.analysis_limit self tl None) e) as Hm.
    destruct (analyse (Board.push m board)
                (ChessAnalyzer.analysis_limit self tl None) e)
      as [[info|x] e1]; cbn [fst] in Hm.
    + destruct (move_data_of_info_ok m info Hm) as [md Hmd]. rewrite Hmd.
      eapply IH; [|exact He']. intros m' Hin. apply Ht. now right.
    + rewrite Hm in *. cbn. eapply IH; [|exact He'].
      intros m' Hin. apply Ht. now right.
Qed.

(** The same of [get_board_analysis]. *)
Lemma get_board_analysis_degrades (tl : option Q) (m : Move)
    (self : ChessAnalyzer.t proc) (board : Board.t) (e : Engine)
    (r : AnalysisData.t) (st' : ChessAnalyzer.St proc) :
  ChessAnalyzer.engine self = Some e ->
  In m (legal_moves (Board.position board)) ->
  unusable_at (Board.push m board) ->
  ChessAnalyzer.get_board_analysis tl (self, board) = (Ok r, st') ->
  In (null_move_data (uci m)) (AnalysisData.moves r).
Proof.
  intros He Hin Hu. unfold ChessAnalyzer.get_board_analysis.
  destruct (legal_moves (Board.position board)) as [|m0 rest] eqn:El;
    [destruct Hin|].
  unfold bind, ret.
  match goal with
  | |- context [ChessAnalyzer.for_legal_moves ?t ?l ?a ?s] =>
      destruct (ChessAnalyzer.for_legal_moves t l a s)
        as [[moves|x] s1] eqn:E
  end; [|discriminate].
  intros H. inversion H. cbn [AnalysisData.moves].
  eapply Permutation_in; [apply sort_reverse_perm|].
  exact (@for_legal_moves_degrades _ m _ _ _ _ _ _ _ He Hin Hu E).
Qed.

Lemma get_board_analysis_returns_at (tl : option Q)
    (self : ChessAnalyzer.t proc) (board : Board.t) (e : Engine) :
  ChessAnalyzer.engine self = Some e ->
  (forall m, In m (legal_moves (Board.position board)) ->
             tame_at (Board.push m board)) ->
  exists r self',
    ChessAnalyzer.get_board_analysis tl (self, board) = (Ok r, (self', board)).
Proof.
  intros He Ht.
  destruct (ChessAnalyzer.get_board_analysis tl (self, board))
    as [[r|x] [s1 b1]] eqn:E.
  - destruct (get_board_analysis_ok _ _ _ E) as (-> & _). eauto.
  - exfalso. revert E. unfold ChessAnalyzer.get_board_analysis.
    destruct (legal_moves (Board.position board)) as [|m rest]; [discriminate|].
    unfold bind.
    match goal with
    | |- context [ChessAnalyzer.for_legal_moves ?t ?l ?a ?s] =>
        destruct (@for_legal_moves_returns_at t board l Ht a self e He)
          as (r & s' & Hr)
    end.
    rewrite Hr. discriminate.
Qed.

End FailureFacts.

(** C6.  In [get_board_analysis], a move whose analysis raises an
    [Exception], or answers without a score, gets the record with every
    analysis field null, and the enumeration goes on with the remaining
    moves: whenever it returns, the null record of that move is in the
    list, which has one record per legal move; and it does return, with the
    board as it was, as long as no analysis reports a mate score or raises
    what is no [Exception], however many analyses fail.  Turn by turn, the
    loop continues from the restored board with the null record appended.
    In the service's [get_best_move] a failed analysis is the error
    [RuntimeError("Analysis failed")]. *)
Theorem C6_failed_move_degrades_and_best_move_raises :
  (forall (rules : RulesLibrary) (proc : EngineProcess rules) (tl : option Q)
          (self : ChessAnalyzer.t proc) (board : Board.t) (e : Engine)
          (m : Move) (r : AnalysisData.t) (st' : ChessAnalyzer.St proc),
      ChessAnalyzer.engine self = Some e ->
      In m (legal_moves (Board.position board)) ->
      unusable_at (Board.push m board) ->
      ChessAnalyzer.get_board_analysis tl (self, board) = (Ok r, st') ->
      In (MoveData.mk (uci m) None false None None None None)
         (AnalysisData.moves r)
      /\ len (AnalysisData.moves r) = len (legal_moves (Board.position board))
      /\ snd st' = board)
  /\ (forall (rules : RulesLibrary) (proc : EngineProcess rules)
             (tl : option Q) (self : ChessAnalyzer.t proc) (board : Board.t)
             (e : Engine),
         ChessAnalyzer.engine self = Some e ->
         (forall m, In m (legal_moves (Board.position board)) ->
                    tame_at (Board.push m board)) ->
         exists r self',
           ChessAnalyzer.get_board_analysis tl (self, board)
           = (Ok r, (self', board))
           /\ len (AnalysisData.moves r)
              = len (legal_moves (Board.position board))
           /\ forall m, In m (legal_moves (Board.position board)) ->
                        unusable_at (Board.push m board) ->
                        In (MoveData.mk (uci m) None false None None None None)
                           (AnalysisData.moves r))
  /\ (forall (rules : RulesLibrary) (proc : EngineProcess rules) (tl : option Q)
          (m : Move) (rest : list Move) (acc : list MoveData.t)
          (self : ChessAnalyzer.t proc) (board : Board.t) (e e' : Engine)
          (x : exn),
      ChessAnalyzer.engine self = Some e ->
      analyse (Board.push m board) (ChessAnalyzer.analysis_limit self tl None) e
      = (Raise x, e') ->
      is_Exception x = true ->
      ChessAnalyzer.for_legal_moves tl (m :: rest) acc (self, board)
      = ChessAnalyzer.for_legal_moves tl rest
          (acc ++ [MoveData.mk (uci m) None false None None None None])
          (ChessAnalyzer.set_engine (Some e') self, board))
  /\ (forall (rules : RulesLibrary) (proc : EngineProcess rules)
             (tl : option Q) (m : Move) (rest : list Move)
             (acc : list MoveData.t) (self : ChessAnalyzer.t proc)
             (board : Board.t) (e e' : Engine) (info : Info.t),
         ChessAnalyzer.engine self = Some e ->
         analyse (Board.push m board)
           (ChessAnalyzer.analysis_limit self tl None) e = (Ok info, e') ->
         Info.score info = None ->
         ChessAnalyzer.for_legal_moves tl (m :: rest) acc (self, board)
         = ChessAnalyzer.for_legal_moves tl rest
             (acc ++ [MoveData.mk (uci m) None false None None None None])
             (ChessAnalyzer.set_engine (Some e') self, board))
  /\ (forall (rules : RulesLibrary) (proc : EngineProcess rules) (os : OS proc)
             (settings : Settings.t) (s : string) (tl : option Q)
             (svc : ChessService.t proc) (analyzer : ChessAnalyzer.t proc)
             (e e' : Engine) (x : exn) (turn fen_ arrows : string)
             (p : Position),
         ChessUtils.parse_state_string s = Ok (turn, fen_, arrows) ->
         set_fen fen_ = inl p ->
         ChessService._analyzer svc = Some analyzer ->
         ChessAnalyzer.engine analyzer = Some e ->
         analyse (Board.mk p [] [])
           (ChessAnalyzer.analysis_limit analyzer
              (Some (ChessService.validate_time_limit settings tl)) None) e
         = (Raise x, e') ->
         is_Exception x = true ->
         ChessService.get_best_move os settings s tl svc
         = (Raise (RuntimeError "Analysis failed"),
            ChessService.mk
              (Some (ChessAnalyzer.set_engine (Some e') analyzer))
              (ChessService._engine_path svc))).
Proof.
  split; [|split; [|split; [|split]]].
  - intros rules proc tl self board e m r [s1 b1] He Hin Hu H.
    split; [|split].
    + exact (@get_board_analysis_degrades _ _ tl m self board e r _
               He Hin Hu H).
    + exact (proj2 (proj2 (proj2 (get_board_analysis_ok _ _ _ H)))).
    + exact (proj1 (get_board_analysis_ok _ _ _ H)).
  - intros rules proc tl self board e He Ht.
    destruct (@get_board_analysis_returns_at _ _ tl self board e He Ht)
      as (r & self' & H).
    exists r, self'. split; [exact H|]. split.
    + exact (proj2 (proj2 (proj2 (get_board_analysis_ok _ _ _ H)))).
    + intros m Hin Hu.
      exact (@get_board_analysis_degrades _ _ tl m self board e r _
               He Hin Hu H).
  - intros rules proc tl m rest acc self board e e' x He Ha Hx.
    rewrite for_legal_moves_step.
    rewrite (analyze_position_raise _ _ _ _ He Ha Hx).
    reflexivity.
  - intros rules proc tl m rest acc self board e e' info He Ha Hs.
    rewrite for_legal_moves_step.
    rewrite (analyze_position_answer _ _ _ _ He Ha).
    rewrite (move_data_of_info_no_score m info Hs). reflexivity.
  - intros rules proc os settings s tl svc analyzer e e' x turn fen_ arrows p
      Hp Hf Hsvc He Ha Hx.
    unfold ChessService.get_best_move, bind, lift. rewrite Hp.
    rewrite (service_get_best_move_with os settings fen_ _ svc Hf Hsvc).
    unfold ChessAnalyzer.get_best_move, bind.
    rewrite (analyze_position_raise _ _ _ _ He Ha Hx).
    reflexivity.
Qed.

(** C6, witness: on the miniature board [calm w] the analysis after [d2d4]
    raises and the one after [g1f3] has no score: [get_board_analysis]
    returns the scored [e2e4] and the two null records; at the root
    [fatal w] the engine dies and [get_best_move] raises. *)
Lemma C6_witness_crash_silent_fatal :
  let calm := Mini.board_of (Mini.mkPosition "calm" true []) in
  let null m := MoveData.mk m None false None None None None in
  (exists r self',
      ChessAnalyzer.get_board_analysis None (Mini.started, calm)
      = (Ok r, (self', calm))
      /\ len (AnalysisData.moves r) = 3
      /\ In (null "d2d4") (AnalysisData.moves r)
      /\ In (null "g1f3") (AnalysisData.moves r))
  /\ fst (ChessAnalyzer.get_board_analysis None (Mini.started, calm))
     = Ok (AnalysisData.mk "calm w" "white" 3
             [ MoveData.mk "e2e4" (Some (div100 50)) false None (Some "e2e4")
                 (Some 12) (Some 3400);
               null "d2d4"; null "g1f3" ])
  /\ ChessAnalyzer.for_legal_moves (proc := Mini.engine) None [Mini.Crash; Mini.Silent] []
       (Mini.started, calm)
     = ChessAnalyzer.for_legal_moves (proc := Mini.engine) None [Mini.Silent] [null "d2d4"]
         (ChessAnalyzer.set_engine (proc := Mini.engine) (Some [Limit.mk (Some (1 # 1)) None])
            Mini.started, calm)
  /\ ChessAnalyzer.for_legal_moves (proc := Mini.engine) None [Mini.Silent] [] (Mini.started, calm)
     = ChessAnalyzer.for_legal_moves (proc := Mini.engine) None [] [null "g1f3"]
         (ChessAnalyzer.set_engine (proc := Mini.engine) (Some [Limit.mk (Some (1 # 1)) None])
            Mini.started, calm)
  /\ ChessService.get_best_move Mini.os_installed Settings.defaults
       "white::fatal w" None
       (ChessService.mk (Some Mini.started) (Some "/usr/bin/stockfish"))
     = (Raise (RuntimeError "Analysis failed"),
        ChessService.mk
          (Some (ChessAnalyzer.set_engine (proc := Mini.engine) (Some [Limit.mk (Some (1 # 1)) None])
                   Mini.started))
          (Some "/usr/bin/stockfish")).
Proof.
  cbv zeta.
  destruct C6_failed_move_degrades_and_best_move_raises
    as (_ & H0 & H1 & H2 & H3).
  split; [|split; [|split; [|split]]].
  - destruct (H0 Mini.rules Mini.engine None Mini.started
                (Mini.board_of (Mini.mkPosition "calm" true [])) []
                eq_refl) as (r & self' & Hr & Hl & Hn).
    + intros m [<-|[<-|[<-|[]]]] limit e; cbn; auto.
    + exists r, self'. split; [exact Hr|]. split; [exact Hl|]. split.
      * apply (Hn Mini.Crash); [right; left; reflexivity|].
        intros limit e. reflexivity.
      * apply (Hn Mini.Silent); [right; right; left; reflexivity|].
        intros limit e. reflexivity.
  - reflexivity.
  - exact (H1 Mini.rules Mini.engine None Mini.Crash [Mini.Silent] []
             Mini.started _ [] _ _ eq_refl eq_refl eq_refl).
  - exact (H2 Mini.rules Mini.engine None Mini.Silent [] []
             Mini.started _ [] _ _ eq_refl eq_refl eq_refl).
  - exact (H3 Mini.rules Mini.engine Mini.os_installed Settings.defaults
             "white::fatal w" None
             (ChessService.mk (Some Mini.started) (Some "/usr/bin/stockfish"))
             Mini.started [] _ _
             "white" "fatal w" "" (Mini.mkPosition "fatal" true [])
             eq_refl eq_refl eq_refl eq_refl eq_refl eq_refl).
Defined.

Section LimitFacts.
Context {rules : RulesLibrary} (proc : EngineProcess rules).

Lemma repeat_app_cons (A : Type) (a : A) (n : nat) (l : list A) :
  (repeat a n ++ a :: l)%list = (a :: repeat a n ++ l)%list.
Proof.
  induction n as [|n IH]; [reflexivity|]. cbn. now rewrite IH.
Qed.

(** Whatever the end of the loop, the engine has been asked under the one
    limit: once at least when there is a move, once a move when the loop
    ends normally. *)
Lemma for_legal_moves_asked (tl : option Q) (legal : list Move) :
  forall acc (self : ChessAnalyzer.t (Recording proc)) board e log,
    ChessAnalyzer.engine self = Some (recorded proc e log) ->
    exists e' log' n,
      ChessAnalyzer.engine
        (fst (snd (ChessAnalyzer.for_legal_moves tl legal acc (self, board))))
      = Some (recorded proc e' log')
      /\ map snd log'
         = (repeat (ChessAnalyzer.analysis_limit self tl None) n
            ++ map snd log)%list
      /\ (legal <> [] -> (1 <= n)%nat)
      /\ (is_ok (fst (ChessAnalyzer.for_legal_moves tl legal acc (self, board)))
          = true -> n = List.length legal).
Proof.
  induction legal as [|m rest IH]; intros acc self board e log He.
  - exists e, log, O. cbn. repeat split; [exact He | congruence].
  - rewrite for_legal_moves_step.
    destruct (analyze_position_recorded (Board.push m board) tl self He)
      as (r1 & e1 & Ha).
    rewrite Ha.
    set (L := ChessAnalyzer.analysis_limit self tl None) in *.
    set (self1 := ChessAnalyzer.set_engine
                    (Some (recorded proc e1 ((Board.push m board, L) :: log)))
                    self) in *.
    assert (Hstop : forall (x : exn),
               exists e' log' n,
                 ChessAnalyzer.engine
                   (fst (snd (@Raise (list MoveData.t) x,
                              (self1, Board.push m board))))
                 = Some (recorded proc e' log')
                 /\ map snd log' = (repeat L n ++ map snd log)%list
                 /\ (m :: rest <> [] -> (1 <= n)%nat)
                 /\ (is_ok (fst (@Raise (list MoveData.t) x,
                                 (self1, Board.push m board))) = true ->
                     n = List.length (m :: rest))).
    { intros x. exists e1, ((Board.push m board, L) :: log), 1%nat.
      cbn. repeat split; [lia | discriminate]. }
    destruct r1 as [info|x]; [|apply Hstop].
    destruct (ChessAnalyzer.move_data_of_info m info) as [md|x];
      [|apply Hstop].
    destruct (IH (acc ++ [md])%list self1 board e1
                ((Board.push m board, L) :: log) eq_refl)
      as (e' & log' & n & He' & Hm & _ & Hok).
    exists e', log', (S n). split; [exact He'|]. split; [|split].
    + rewrite Hm. unfold self1. rewrite analysis_limit_set_engine.
      fold L. cbn [map snd repeat app]. apply repeat_app_cons.
    + intros _. lia.
    + intros H. cbn [List.length]. f_equal. exact (Hok H).
Qed.

Lemma get_board_analysis_asked (tl : option Q)
    (self : ChessAnalyzer.t (Recording proc)) (board : Board.t)
    (e : @Engine rules proc) (log : list (Board.t * Limit.t)) :
  ChessAnalyzer.engine self = Some (recorded proc e log) ->
  let time := match tl with
              | Some t => t
              | None => ChessAnalyzer.default_time self
              end in
  exists e' log' n,
    ChessAnalyzer.engine
      (fst (snd (ChessAnalyzer.get_board_analysis tl (self, board))))
    = Some (recorded proc e' log')
    /\ map snd log'
       = (repeat (ChessAnalyzer.analysis_limit self (Some time) None) n
          ++ map snd log)%list
    /\ (is_ok (fst (ChessAnalyzer.get_board_analysis tl (self, board))) = false ->
        (1 <= n)%nat)
    /\ (is_ok (fst (ChessAnalyzer.get_board_analysis tl (self, board))) = true ->
        n = List.length (legal_moves (Board.position board))).
Proof.
  intros He. cbv zeta. unfold ChessAnalyzer.get_board_analysis.
  destruct (legal_moves (Board.position board)) as [|m rest] eqn:El.
  - exists e, log, O. cbn. repeat split; [exact He | discriminate].
  - unfold bind, ret.
    match goal with
    | |- context [ChessAnalyzer.for_legal_moves ?t ?l ?a ?s] =>
        destruct (for_legal_moves_asked t l a self board He)
          as (e' & log' & n & He' & Hm & Hne & Hok);
        destruct (ChessAnalyzer.for_legal_moves t l a s)
          as [[moves|x] [s1 b1]]
    end; cbn [fst snd is_ok] in *.
    + exists e', log', n. repeat split; try assumption. discriminate.
    + exists e', log', n. repeat split; try assumption.
      intros _. apply Hne. discriminate.
Qed.

Lemma get_best_move_asked (board : Board.t) (tl : option Q)
    (self : ChessAnalyzer.t (Recording proc))
    (e : @Engine rules proc) (log : list (Board.t * Limit.t)) :
  ChessAnalyzer.engine self = Some (recorded proc e log) ->
  let time := match tl with
              | Some t => t
              | None => ChessAnalyzer.default_time self
              end in
  exists e',
    ChessAnalyzer.engine (snd (ChessAnalyzer.get_best_move board tl self))
    = Some (recorded proc e'
              ((board, ChessAnalyzer.analysis_limit self (Some time) None)
               :: log)).
Proof.
  intros He. cbv zeta. rewrite get_best_move_state.
  destruct (analyze_position_recorded board
              (Some match tl with
                    | Some t => t
                    | None => ChessAnalyzer.default_time self
                    end) self He) as (r & e' & Ha).
  rewrite Ha. exists e'. reflexivity.
Qed.

(** Timed analyses only: the analyzers of the service have no default
    depth. *)
Lemma analysis_limit_timed (self : ChessAnalyzer.t (Recording proc)) (t : Q) :
  ChessAnalyzer.default_depth self = None ->
  ChessAnalyzer.analysis_limit self (Some t) None = Limit.mk (Some t) None.
Proof.
  intros H. unfold ChessAnalyzer.analysis_limit. now rewrite H.
Qed.

Lemma service_runs_under (os : OS (Recording proc)) (settings : Settings.t)
    (s turn fen_ arrows : string) (p : Position)
    (svc : ChessService.t (Recording proc))
    (analyzer : ChessAnalyzer.t (Recording proc))
    (e : @Engine rules proc) (log : list (Board.t * Limit.t))
    (tl : option Q) :
  ChessUtils.parse_state_string s = Ok (turn, fen_, arrows) ->
  set_fen fen_ = inl p ->
  ChessService._analyzer svc = Some analyzer ->
  ChessAnalyzer.default_depth analyzer = None ->
  ChessAnalyzer.engine analyzer = Some (recorded proc e log) ->
  runs_under os settings s p svc log
    (ChessService.validate_time_limit settings tl) tl.
Proof.
  intros Hp Hf Ha Hd He. unfold runs_under.
  set (T := ChessService.validate_time_limit settings tl).
  pose proof (analysis_limit_timed analyzer T Hd) as HL.
  split.
  - unfold ChessService.analyze_position, bind, lift. rewrite Hp.
    fold T. rewrite (service_analyze_position_with os settings _ T svc Hf Ha).
    destruct (get_board_analysis_asked (Some T) analyzer (Board.mk p [] []) He)
      as (e1 & log1 & n & He1 & Hm & Hfail & Hok).
    cbv beta iota in Hm. rewrite HL in Hm.
    pose proof (get_board_analysis_limit (Some T) (analyzer, Board.mk p [] [])
                  (Some T) None) as Hl.
    destruct (ChessAnalyzer.get_board_analysis (Some T)
                (analyzer, Board.mk p [] [])) as [[data|x] [a1 b1]];
      cbn [fst snd is_ok] in *.
    + destruct (get_best_move_asked b1 (Some T) a1 He1) as (e2 & He2).
      cbv beta iota in He2. rewrite Hl, HL in He2.
      exists n.
      destruct (ChessAnalyzer.get_best_move b1 (Some T) a1) as [[best|x] a2];
        cbn [fst snd is_ok] in *; unfold limits_asked;
        cbn [ChessService._analyzer]; rewrite He2; unfold recorded;
        cbn [snd map]; rewrite Hm; (split; [reflexivity|]).
      * intros _. now apply Hok.
      * discriminate.
    + specialize (Hfail eq_refl). destruct n as [|n]; [lia|].
      exists n. unfold limits_asked. cbn [ChessService._analyzer].
      rewrite He1. unfold recorded. cbn [snd]. rewrite Hm.
      split; [reflexivity | discriminate].
  - unfold ChessService.get_best_move, bind, lift. rewrite Hp.
    fold T. rewrite (service_get_best_move_with os settings _ T svc Hf Ha).
    destruct (get_best_move_asked (Board.mk p [] []) (Some T) analyzer He)
      as (e2 & He2).
    cbv beta iota in He2. rewrite HL in He2.
    destruct (ChessAnalyzer.get_best_move (Board.mk p [] []) (Some T) analyzer)
      as [[d|x] a']; cbn [fst snd] in *; unfold limits_asked;
      cbn [ChessService._analyzer]; rewrite He2; reflexivity.
Qed.

(** The analyzer a service makes for itself has no default depth. *)
Lemma get_analyzer_timed (os : OS (Recording proc)) (settings : Settings.t)
    (svc svc' : ChessService.t (Recording proc))
    (a : ChessAnalyzer.t (Recording proc)) :
  ChessService._analyzer svc = None ->
  ChessService._get_analyzer os settings svc = (Ok a, svc') ->
  ChessAnalyzer.default_depth a = None.
Proof.
  intros Hn. unfold ChessService._get_analyzer,
    ChessService._initialize_analyzer. rewrite Hn.
  destruct (match ChessService._engine_path svc with
            | Some p => Some p
            | None => ChessUtils.find_stockfish_path (path_exists os)
                        (Settings.stockfish_paths settings)
            end) as [path|]; [|discriminate].
  unfold ChessAnalyzer.start_engine, try_except, ChessAnalyzer.init, raise.
  cbn [ChessAnalyzer.engine_path].
  destruct (path_exists os path); cbn; [|discriminate].
  destruct (popen_uci os path) as [e|x]; cbn.
  - intros H. inversion H. reflexivity.
  - destruct (is_Exception x); discriminate.
Qed.

End LimitFacts.

Section TimeLimitFacts.
Variable settings : Settings.t.

Lemma validate_time_limit_absent :
  ChessService.validate_time_limit settings None
  = Settings.default_analysis_time settings.
Proof. reflexivity. Qed.

Lemma validate_time_limit_above (t : Q) :
  Qlt (Settings.max_analysis_time settings) t ->
  ChessService.validate_time_limit settings (Some t)
  = Settings.max_analysis_time settings.
Proof.
  intros H. unfold ChessService.validate_time_limit.
  destruct (Qle_bool t (Settings.max_analysis_time settings)) eqn:E;
    [|reflexivity].
  apply Qle_bool_iff in E. exfalso. exact (Qlt_not_le _ _ H E).
Qed.

Lemma validate_time_limit_within (t : Q) :
  Qle t (Settings.max_analysis_time settings) ->
  ChessService.validate_time_limit settings (Some t) = t.
Proof.
  intros H. unfold ChessService.validate_time_limit.
  apply Qle_bool_iff in H. now rewrite H.
Qed.

End TimeLimitFacts.

(** C7.  For a record that parses, on a service whose engine is running,
    [analyze_position] and [get_best_move] run the engine under the
    ceiling [max_analysis_time] when the requested limit is strictly above
    it (the request is then indistinguishable from a request for the
    ceiling), under the requested limit itself when it is at or below the
    ceiling, however small, and under [default_analysis_time] when no limit
    is given: every analysis the engine is asked for, of the successors and
    of the position, carries that time and no depth.  The engine is read
    through its record of the limits it was given; the analyzer has no
    default depth, as every analyzer the service makes. *)
Theorem C7_time_limit_ceiling_and_default
    {rules : RulesLibrary} (proc : EngineProcess rules)
    (os : OS (Recording proc)) (settings : Settings.t)
    (s turn fen_ arrows : string) (p : Position)
    (svc : ChessService.t (Recording proc))
    (analyzer : ChessAnalyzer.t (Recording proc))
    (e : @Engine rules proc) (log : list (Board.t * Limit.t)) :
  ChessUtils.parse_state_string s = Ok (turn, fen_, arrows) ->
  set_fen fen_ = inl p ->
  ChessService._analyzer svc = Some analyzer ->
  ChessAnalyzer.default_depth analyzer = None ->
  ChessAnalyzer.engine analyzer = Some (recorded proc e log) ->
  let ceiling := Settings.max_analysis_time settings in
  let default := Settings.default_analysis_time settings in
  (forall t, Qlt ceiling t ->
     runs_under os settings s p svc log ceiling (Some t)
     /\ ChessService.analyze_position os settings s (Some t) svc
        = ChessService.analyze_position os settings s (Some ceiling) svc
     /\ ChessService.get_best_move os settings s (Some t) svc
        = ChessService.get_best_move os settings s (Some ceiling) svc)
  /\ (forall t, Qle t ceiling ->
        runs_under os settings s p svc log t (Some t))
  /\ runs_under os settings s p svc log default None
  /\ (forall svc0 svc1 a,
        ChessService._analyzer svc0 = None ->
        ChessService._get_analyzer os settings svc0 = (Ok a, svc1) ->
        ChessAnalyzer.default_depth a = None).
Proof.
  intros Hp Hf Ha Hd He. cbv zeta.
  pose proof (fun tl => @service_runs_under _ proc os settings s turn fen_
                          arrows p svc analyzer e log tl Hp Hf Ha Hd He) as H.
  split; [|split; [|split]].
  - intros t Ht. split; [|split].
    + rewrite <- (validate_time_limit_above settings Ht). apply H.
    + unfold ChessService.analyze_position, bind, lift. rewrite Hp.
      rewrite (validate_time_limit_above settings Ht).
      rewrite (validate_time_limit_within settings
                 (Qle_refl (Settings.max_analysis_time settings))).
      reflexivity.
    + unfold ChessService.get_best_move, bind, lift. rewrite Hp.
      rewrite (validate_time_limit_above settings Ht).
      rewrite (validate_time_limit_within settings
                 (Qle_refl (Settings.max_analysis_time settings))).
      reflexivity.
  - intros t Ht.
    rewrite <- (validate_time_limit_within settings Ht) at 1. apply H.
  - exact (H None).
  - intros svc0 svc1 a Hn Hg.
    exact (@get_analyzer_timed _ proc os settings svc0 svc1 a Hn Hg).
Qed.

(** C7, witness: with the default settings (ceiling 10 s, default 1 s), on
    the miniature board [calm w] (three legal moves), a request for 25 s
    reaches the engine as 10 s, a request for 0.01 s as 0.01 s, and a request
    without limit as 1 s: four analyses for [analyze_position], one for
    [get_best_move]. *)
Lemma C7_witness_requests_reaching_the_engine :
  let os := mkOS (Recording Mini.engine) (fun _ => false)
              (fun path => Raise (FileNotFoundError path)) in
  let svc := ChessService.mk
               (Some (ChessAnalyzer.mk (proc := Recording Mini.engine)
                        "/usr/bin/stockfish"
                        (Some (recorded Mini.engine [] [])) None (1 # 1)))
               None in
  let asked_by_analysis tl :=
    limits_asked (snd (ChessService.analyze_position os Settings.defaults
                         "white::calm w::" tl svc)) in
  let asked_by_best_move tl :=
    limits_asked (snd (ChessService.get_best_move os Settings.defaults
                         "white::calm w::" tl svc)) in
  let seconds q := Limit.mk (Some q) None in
  (runs_under os Settings.defaults "white::calm w::"
     (Mini.mkPosition "calm" true []) svc [] (10 # 1) (Some (25 # 1))
   /\ asked_by_analysis (Some (25 # 1)) = Some (repeat (seconds (10 # 1)) 4)
   /\ asked_by_best_move (Some (25 # 1)) = Some [seconds (10 # 1)])
  /\ (runs_under os Settings.defaults "white::calm w::"
        (Mini.mkPosition "calm" true []) svc [] (1 # 100) (Some (1 # 100))
      /\ asked_by_analysis (Some (1 # 100))
         = Some (repeat (seconds (1 # 100)) 4)
      /\ asked_by_best_move (Some (1 # 100)) = Some [seconds (1 # 100)])
  /\ (runs_under os Settings.defaults "white::calm w::"
        (Mini.mkPosition "calm" true []) svc [] (1 # 1) None
      /\ asked_by_analysis None = Some (repeat (seconds (1 # 1)) 4)
      /\ asked_by_best_move None = Some [seconds (1 # 1)]).
Proof.
  cbv zeta.
  destruct (@C7_time_limit_ceiling_and_default Mini.rules Mini.engine
              (mkOS (Recording Mini.engine) (fun _ => false)
                 (fun path => Raise (FileNotFoundError path)))
              Settings.defaults
              "white::calm w::" "white" "calm w" ""
              (Mini.mkPosition "calm" true [])
              (ChessService.mk
                 (Some (ChessAnalyzer.mk (proc := Recording Mini.engine)
                          "/usr/bin/stockfish"
                          (Some (recorded Mini.engine [] [])) None (1 # 1)))
                 None)
              _ [] [] eq_refl eq_refl eq_refl eq_refl eq_refl)
    as (Habove & Hwithin & Habsent & _).
  split; [|split].
  - split; [exact (proj1 (Habove (25 # 1) eq_refl))|]. split; reflexivity.
  - split; [|split; reflexivity].
    apply Hwithin. intro Hc. discriminate Hc.
  - split; [exact Habsent|]. split; reflexivity.
Defined.

Section ParseFacts.
Context {rules : RulesLibrary}.

Lemma split_dcolon_no_colon (a b : string) :
  no_colon a = true ->
  PyStr.split_dcolon (a ++ "::" ++ b) = a :: PyStr.split_dcolon b.
Proof.
  induction a as [|c a IH]; intros H; [reflexivity|].
  cbn [no_colon] in H. apply andb_prop in H. destruct H as [Hc Ha].
  specialize (IH Ha).
  change (String c a ++ "::" ++ b) with (String c (a ++ "::" ++ b)).
  cbn [PyStr.split_dcolon].
  destruct (Ascii.eqb c ":") eqn:Ec; [discriminate|]. cbn [andb].
  destruct (a ++ "::" ++ b) as [|c' r] eqn:Er.
  - destruct a; discriminate.
  - rewrite IH. reflexivity.
Qed.

Lemma parse_state_string_outcome (s : string) :
  let parts := PyStr.split_dcolon s in
  let turn := PyStr.strip (nth 0 parts "") in
  let fen_ := PyStr.strip (nth 1 parts "") in
  let arrows := PyStr.strip (nth 2 parts "") in
  if fails_on_stripped_segments s
  then exists msg, ChessUtils.parse_state_string s = Raise (ValueError msg)
  else ChessUtils.parse_state_string s = Ok (turn, fen_, arrows).
Proof.
  cbv zeta.
  unfold fails_on_stripped_segments, ChessUtils.parse_state_string, parseable,
    Board.of_fen.
  destruct (PyStr.split_dcolon s) as [|p0 [|p1 rest]];
    [cbn; eauto | cbn; eauto |].
  cbn [List.length Nat.ltb Nat.leb nth orb].
  destruct (PyStr.mem (PyStr.strip p0) ["white"; "black"]);
    cbn [negb orb]; [|eauto].
  destruct (set_fen (PyStr.strip p1)); cbn [negb]; [|eauto].
  destruct rest; reflexivity.
Qed.

Lemma split_dcolon_plain (f : string) :
  no_colon f = true -> PyStr.split_dcolon f = [f].
Proof.
  induction f as [|c f IH]; intros H; [reflexivity|].
  cbn [no_colon] in H. apply andb_prop in H. destruct H as [Hc Hf].
  cbn [PyStr.split_dcolon]. destruct f as [|c' f']; [reflexivity|].
  destruct (Ascii.eqb c ":"); [discriminate|]. cbn [andb].
  rewrite (IH Hf). reflexivity.
Qed.

Lemma parse_white_record (f : string) (p : Position) :
  set_fen f = inl p -> PyStr.strip f = f -> no_colon f = true ->
  ChessUtils.parse_state_string ("white::" ++ f ++ "::") = Ok ("white", f, "")
  /\ ChessUtils.parse_state_string ("white::" ++ f) = Ok ("white", f, "").
Proof.
  intros Hf Hs Hc. split.
  - pose proof (parse_state_string_outcome ("white::" ++ f ++ "::")) as H1.
    cbv zeta in H1. unfold fails_on_stripped_segments in H1.
    change ("white::" ++ f ++ "::")
      with ("white" ++ "::" ++ f ++ "::" ++ "") in *.
    rewrite (split_dcolon_no_colon "white" _ eq_refl) in H1.
    rewrite (split_dcolon_no_colon f _ Hc) in H1.
    cbn [List.length Nat.ltb Nat.leb nth orb] in H1. rewrite Hs in H1.
    unfold parseable in H1. rewrite Hf in H1. exact H1.
  - pose proof (parse_state_string_outcome ("white::" ++ f)) as H1.
    cbv zeta in H1. unfold fails_on_stripped_segments in H1.
    change ("white::" ++ f) with ("white" ++ "::" ++ f) in *.
    rewrite (split_dcolon_no_colon "white" _ eq_refl) in H1.
    rewrite (split_dcolon_plain _ Hc) in H1.
    cbn [List.length Nat.ltb Nat.leb nth orb] in H1. rewrite Hs in H1.
    unfold parseable in H1. rewrite Hf in H1. exact H1.
Qed.

End ParseFacts.

(** C8, counterexample.  The record [" white::calm w"] has a turn segment
    that is neither ["white"] nor ["black"], and it parses; so does the
    record whose turn is padded with a no-break space and an em space, the
    whitespace of [str.strip] being that of Unicode. *)
Lemma C8_padded_turn_segment_parses :
  nth 0 (PyStr.split_dcolon " white::calm w") "" = " white"
  /\ fails_on_segments (rules := Mini.rules) " white::calm w" = true
  /\ ChessUtils.parse_state_string (rules := Mini.rules) " white::calm w"
     = Ok ("white", "calm w", "")
  /\ ChessUtils.parse_state_string (rules := Mini.rules)
       (PyStr.NBSP ++ "white" ++ PyStr.EMSP ++ "::calm w")
     = Ok ("white", "calm w", "").
Proof. repeat split. Qed.

(** C8, amended.  Parsing fails, with a [ValueError], exactly when the
    record has fewer than two segments, or its turn segment stripped of
    surrounding whitespace (as [str.strip] understands it: the Unicode
    whitespace) is neither ["white"] nor ["black"], or its stripped
    position segment does not parse; otherwise it gives the
    stripped segments, the arrows being empty when the third segment is
    missing or blank.  So ["white::<valid FEN>::"] gives
    [("white", <FEN>, "")]. *)
Theorem C8_parse_fails_exactly_on_stripped_segments
    {rules : RulesLibrary} (s : string) :
  let parts := PyStr.split_dcolon s in
  (is_ok (ChessUtils.parse_state_string s) = negb (fails_on_stripped_segments s))
  /\ (forall e, ChessUtils.parse_state_string s = Raise e ->
                exists msg, e = ValueError msg)
  /\ (forall r, ChessUtils.parse_state_string s = Ok r ->
                r = (PyStr.strip (nth 0 parts ""), PyStr.strip (nth 1 parts ""),
                     PyStr.strip (nth 2 parts "")))
  /\ (forall f p, set_fen f = inl p -> PyStr.strip f = f -> no_colon f = true ->
                  ChessUtils.parse_state_string ("white::" ++ f ++ "::")
                  = Ok ("white", f, "")
                  /\ ChessUtils.parse_state_string ("white::" ++ f)
                     = Ok ("white", f, "")).
Proof.
  cbv zeta. pose proof (parse_state_string_outcome s) as H. cbv zeta in H.
  split; [|split; [|split]].
  - destruct (fails_on_stripped_segments s).
    + destruct H as [msg H]. now rewrite H.
    + now rewrite H.
  - intros e He. destruct (fails_on_stripped_segments s).
    + destruct H as [msg H]. rewrite H in He. inversion He. eauto.
    + rewrite H in He. discriminate.
  - intros r Hr. destruct (fails_on_stripped_segments s).
    + destruct H as [msg H]. rewrite H in Hr. discriminate.
    + rewrite H in Hr. now inversion Hr.
  - intros f p. apply parse_white_record.
Qed.

(** C8, witness: the records ["white::calm w::"] and ["white::calm w"] of
    the miniature library. *)
Lemma C8_witness_calm_record :
  ChessUtils.parse_state_string (rules := Mini.rules) "white::calm w::"
  = Ok ("white", "calm w", "")
  /\ ChessUtils.parse_state_string (rules := Mini.rules) "white::calm w"
     = Ok ("white", "calm w", "").
Proof.
  exact (proj2 (proj2 (proj2
           (@C8_parse_fails_exactly_on_stripped_segments Mini.rules "")))
           "calm w" (Mini.mkPosition "calm" true []) eq_refl eq_refl eq_refl).
Defined.

Section StartFacts.
Context {rules : RulesLibrary} {proc : EngineProcess rules}.

(** [start_engine] of the analyzer: the executable is missing. *)
Lemma start_engine_missing (os : OS proc) (self : ChessAnalyzer.t proc) :
  path_exists os (ChessAnalyzer.engine_path self) = false ->
  ChessAnalyzer.start_engine os self = (Raise (SystemExit 1), self).
Proof.
  intros H. unfold ChessAnalyzer.start_engine, try_except, raise.
  now rewrite H.
Qed.


End StartFacts.



Section TurnTokenFacts.
Context {rules : RulesLibrary}.

(** The two records parse alike, up to the turn they give back. *)
Lemma parse_state_string_turn_token (rest : string) :
  match ChessUtils.parse_state_string ("white::" ++ rest),
        ChessUtils.parse_state_string ("black::" ++ rest) with
  | Ok (t1, f1, a1), Ok (t2, f2, a2) =>
      t1 = "white" /\ t2 = "black" /\ f1 = f2 /\ a1 = a2
  | Raise e1, Raise e2 => e1 = e2
  | _, _ => False
  end.
Proof.
  unfold ChessUtils.parse_state_string.
  change ("white::" ++ rest) with ("white" ++ "::" ++ rest).
  change ("black::" ++ rest) with ("black" ++ "::" ++ rest).
  rewrite (@split_dcolon_no_colon "white" rest eq_refl).
  rewrite (@split_dcolon_no_colon "black" rest eq_refl).
  destruct (PyStr.split_dcolon rest) as [|p1 r]; [reflexivity|].
  change (PyStr.strip "white") with "white".
  change (PyStr.strip "black") with "black".
  change (PyStr.mem "white" ["white"; "black"]) with true.
  change (PyStr.mem "black" ["white"; "black"]) with true.
  cbn [negb].
  destruct (Board.of_fen (PyStr.strip p1)) as [b|[]]; try reflexivity.
  repeat split.
Qed.

End TurnTokenFacts.

(** C10.  Two records that differ only in the turn token, ["white"] in one
    and ["black"] in the other, get the same outcome from [analyze_position]
    and from [get_best_move], response or error, and leave the service in
    the same state: the token is checked and then dropped, the side to move
    being that of the FEN. *)
Theorem C10_turn_token_does_not_reach_the_analysis
    {rules : RulesLibrary} {proc : EngineProcess rules}
    (os : OS proc) (settings : Settings.t) (rest : string)
    (time_limit : option Q) (svc : ChessService.t proc) :
  ChessService.analyze_position os settings ("white::" ++ rest) time_limit svc
  = ChessService.analyze_position os settings ("black::" ++ rest) time_limit svc
  /\ ChessService.get_best_move os settings ("white::" ++ rest) time_limit svc
     = ChessService.get_best_move os settings ("black::" ++ rest) time_limit svc.
Proof.
  pose proof (parse_state_string_turn_token rest) as H.
  unfold ChessService.analyze_position, ChessService.get_best_move, bind, lift.
  destruct (ChessUtils.parse_state_string ("white::" ++ rest))
    as [[[t1 f1] a1]|e1];
  destruct (ChessUtils.parse_state_string ("black::" ++ rest))
    as [[[t2 f2] a2]|e2]; try contradiction.
  - destruct H as (_ & _ & -> & _). split; reflexivity.
  - subst e2. split; reflexivity.
Qed.

(* ================================================================== *)
(** * Further properties: the two enumerations *)

Section EnumerationFacts.
Context {rules : RulesLibrary} {proc : EngineProcess rules}.

Lemma move_data_of_info_move (m : Move) (info : Info.t) (md : MoveData.t) :
  ChessAnalyzer.move_data_of_info m info = Ok md -> MoveData.move md = uci m.
Proof.
  unfold ChessAnalyzer.move_data_of_info.
  destruct (Info.truthy info), (Info.score info) as [s|];
    try (intros H; inversion H; reflexivity).
  destruct (PyChess.is_mate s).
  - destruct (PyChess.mate s); [|discriminate].
    destruct (Info.pv info) as [[|? ?]|], (Info.depth info), (Info.nodes info);
      intros H; inversion H; reflexivity.
  - destruct (ChessAnalyzer.centipawn_advantage s),
      (Info.pv info) as [[|? ?]|], (Info.depth info), (Info.nodes info);
      intros H; inversion H; reflexivity.
Qed.

Lemma move_json_of_info_move (m : Move) (info : Info.t) (md : MoveData.t) :
  ChessAnalyzer.move_json_of_info m info = Ok md -> MoveData.move md = uci m.
Proof.
  unfold ChessAnalyzer.move_json_of_info.
  destruct (Info.truthy info), (Info.score info) as [s|];
    try (intros H; inversion H; reflexivity).
  destruct (PyChess.is_mate s).
  - destruct (PyChess.mate s); [|discriminate].
    destruct (Info.pv info) as [[|? ?]|]; intros H; inversion H; reflexivity.
  - destruct (ChessAnalyzer.centipawn_advantage s),
      (Info.pv info) as [[|? ?]|]; intros H; inversion H; reflexivity.
Qed.

(** The records of a finished loop carry the moves in their order. *)
Lemma for_legal_moves_names (tl : option Q) (legal : list Move) :
  forall acc st r st',
    ChessAnalyzer.for_legal_moves tl legal acc st = (Ok r, st') ->
    map MoveData.move r = (map MoveData.move acc ++ map uci legal)%list.
Proof.
  induction legal as [|m rest IH]; intros acc [self board] r st' H.
  - cbn in H. inversion H; subst. cbn. now rewrite List.app_nil_r.
  - rewrite for_legal_moves_step in H.
    destruct (ChessAnalyzer.analyze_position (Board.push m board) tl None self)
      as [[info|x] s1]; [|discriminate].
    destruct (ChessAnalyzer.move_data_of_info m info) as [md|x] eqn:Emd;
      [|discriminate].
    apply IH in H. rewrite H, List.map_app. cbn [map].
    rewrite (move_data_of_info_move _ _ Emd), <- List.app_assoc. reflexivity.
Qed.

Lemma for_legal_moves_json_ok (tl : option Q) (legal : list Move) :
  forall acc self board r self' board',
    ChessAnalyzer.for_legal_moves_json tl legal acc (self, board)
    = (Ok r, (self', board')) ->
    board' = board
    /\ map MoveData.move r = (map MoveData.move acc ++ map uci legal)%list.
Proof.
  induction legal as [|m rest IH]; intros acc self board r self' board' H.
  - cbn in H. inversion H; subst. cbn. now rewrite List.app_nil_r.
  - rewrite for_legal_moves_json_step in H.
    destruct (ChessAnalyzer.analyze_position (Board.push m board) tl None self)
      as [[info|x] s1]; [|discriminate].
    destruct (ChessAnalyzer.move_json_of_info m info) as [md|x] eqn:Emd;
      [|discriminate].
    apply IH in H. destruct H as [Hb H]. split; [exact Hb|].
    rewrite H, List.map_app. cbn [map].
    rewrite (move_json_of_info_move _ _ Emd), <- List.app_assoc. reflexivity.
Qed.

Lemma len_map (A B : Type) (f : A -> B) (l : list A) : len (map f l) = len l.
Proof. unfold len. now rewrite List.length_map. Qed.

Lemma len_perm (A : Type) (l l' : list A) : Permutation l l' -> len l = len l'.
Proof. intros H. unfold len. now rewrite (Permutation_length H). Qed.

End EnumerationFacts.

(** A normal return of [get_moves_json] leaves the board as it was and
    lists every legal move exactly once, under its UCI name, [total_moves]
    being their number. *)
Theorem get_moves_json_restores_board_and_lists_every_move
    {rules : RulesLibrary} {proc : EngineProcess rules}
    (tl : option Q) (self self' : ChessAnalyzer.t proc)
    (board board' : Board.t) (r : MovesData.t) :
  ChessAnalyzer.get_moves_json tl (self, board) = (Ok r, (self', board')) ->
  let legal := legal_moves (Board.position board) in
  board' = board
  /\ MovesData.fen r = Board.board_fen board
  /\ MovesData.total_moves r = len legal
  /\ len (MovesData.moves r) = len legal
  /\ Permutation (map uci legal) (map MoveData.move (MovesData.moves r)).
Proof.
  cbv zeta. unfold ChessAnalyzer.get_moves_json.
  destruct (legal_moves (Board.position board)) as [|m rest] eqn:El.
  - intros H. inversion H; subst. cbn. repeat split. constructor.
  - unfold bind, ret.
    match goal with
    | |- context [ChessAnalyzer.for_legal_moves_json ?t ?l ?a ?s] =>
        destruct (ChessAnalyzer.for_legal_moves_json t l a s)
          as [[moves|x] [s1 b1]] eqn:E
    end; [|discriminate].
    intros H. inversion H; subst.
    apply for_legal_moves_json_ok in E. destruct E as [Hb Hn].
    cbn [MovesData.fen MovesData.total_moves MovesData.moves app map] in *.
    assert (Permutation (uci m :: map uci rest)
              (map MoveData.move
                 (sort_reverse ChessAnalyzer.sort_key moves))) as Hp.
    { rewrite <- Hn. apply Permutation_map, sort_reverse_perm. }
    repeat split; try assumption.
    rewrite <- (len_map MoveData.move), <- (len_perm Hp).
    change (uci m :: map uci rest) with (map uci (m :: rest)).
    now rewrite len_map.
Qed.

(** Witness: [get_moves_json] on the miniature board [calm w]. *)
Lemma get_moves_json_on_calm_board :
  let board := Mini.board_of (Mini.mkPosition "calm" true []) in
  let run := ChessAnalyzer.get_moves_json None (Mini.started, board) in
  snd (snd run) = board
  /\ option_map MovesData.total_moves
       (match fst run with Ok r => Some r | Raise _ => None end) = Some 3.
Proof.
  cbv zeta. split.
  - refine (proj1 (@get_moves_json_restores_board_and_lists_every_move
                     _ Mini.engine None Mini.started _
                     (Mini.board_of (Mini.mkPosition "calm" true [])) _ _ _)).
    vm_compute. reflexivity.
  - reflexivity.
Defined.

Lemma get_board_analysis_names
    {rules : RulesLibrary} {proc : EngineProcess rules}
    (tl : option Q) (st st' : ChessAnalyzer.St proc) (r : AnalysisData.t) :
  ChessAnalyzer.get_board_analysis tl st = (Ok r, st') ->
  let board := snd st in
  Permutation (map uci (legal_moves (Board.position board)))
    (map MoveData.move (AnalysisData.moves r))
  /\ AnalysisData.turn r = (if Board.turn board then "white" else "black").
Proof.
  destruct st as [self board]. cbv zeta. cbn [snd].
  unfold ChessAnalyzer.get_board_analysis.
  destruct (legal_moves (Board.position board)) as [|m rest] eqn:El.
  - intros H. inversion H; subst. cbn. split; [constructor | reflexivity].
  - unfold bind, ret.
    match goal with
    | |- context [ChessAnalyzer.for_legal_moves ?t ?l ?a ?s] =>
        destruct (ChessAnalyzer.for_legal_moves t l a s)
          as [[moves|x] s1] eqn:E
    end; [|discriminate].
    intros H. inversion H; subst.
    apply for_legal_moves_names in E. cbn [map app] in E.
    cbn [AnalysisData.turn AnalysisData.moves]. split; [|reflexivity].
    change (uci m :: map uci rest) with (map uci (m :: rest)) in E.
    rewrite <- E. apply Permutation_map, sort_reverse_perm.
Qed.

(** A normal return of [get_board_analysis] lists every legal move exactly
    once, under its UCI name, and reports the side to move of the board. *)
Theorem get_board_analysis_lists_every_legal_move_once
    {rules : RulesLibrary} {proc : EngineProcess rules}
    (tl : option Q) (st st' : ChessAnalyzer.St proc) (r : AnalysisData.t) :
  ChessAnalyzer.get_board_analysis tl st = (Ok r, st') ->
  let board := snd st in
  Permutation (map uci (legal_moves (Board.position board)))
    (map MoveData.move (AnalysisData.moves r))
  /\ AnalysisData.turn r = (if Board.turn board then "white" else "black").
Proof. apply get_board_analysis_names. Qed.

(** Witness: [get_board_analysis] on the miniature board [calm w]. *)
Lemma get_board_analysis_names_on_calm_board :
  let board := Mini.board_of (Mini.mkPosition "calm" true []) in
  let run := ChessAnalyzer.get_board_analysis None (Mini.started, board) in
  match fst run with
  | Ok r =>
      Permutation ["e2e4"; "d2d4"; "g1f3"]
        (map MoveData.move (AnalysisData.moves r))
      /\ AnalysisData.turn r = "white"
  | Raise _ => False
  end.
Proof.
  cbv zeta.
  exact (@get_board_analysis_lists_every_legal_move_once
           _ Mini.engine None
           (Mini.started, Mini.board_of (Mini.mkPosition "calm" true []))
           _ _ eq_refl).
Defined.

Section TameFacts.
Context {rules : RulesLibrary}.

Lemma softened_is_tame (proc : EngineProcess rules) :
  @tame_engine rules (Softened proc).
Proof.
  intros board limit e. cbn.
  destruct (@analyse rules proc board limit e) as [[info|x] e']; cbn.
  - destruct (Info.score info) as [s|] eqn:Es.
    + destruct (PyChess.is_mate s) eqn:Em; cbn; [exact I | now rewrite Es].
    + cbn. now rewrite Es.
  - destruct (is_Exception x) eqn:Ex; cbn; [exact Ex | reflexivity].
Qed.

End TameFacts.

(** With a started engine that reports no mate score and raises nothing
    but [Exception]s, [get_board_analysis] returns for every board,
    whatever analyses fail: the board is as before and there is one record
    per legal move. *)
Theorem get_board_analysis_returns_with_a_tame_engine
    {rules : RulesLibrary} {proc : EngineProcess rules}
    (tl : option Q) (self : ChessAnalyzer.t proc) (board : Board.t)
    (e : Engine) :
  tame_engine ->
  ChessAnalyzer.engine self = Some e ->
  exists r self',
    ChessAnalyzer.get_board_analysis tl (self, board) = (Ok r, (self', board))
    /\ AnalysisData.total_moves r = len (legal_moves (Board.position board))
    /\ len (AnalysisData.moves r) = len (legal_moves (Board.position board)).
Proof.
  intros Htame He. exact (get_board_analysis_returns Htame tl self board He).
Qed.

(** Witness: the miniature engine with its mate scores withheld, on the
    board [sharp w]. *)
Lemma get_board_analysis_returns_on_sharp_board_softened :
  exists r self',
    ChessAnalyzer.get_board_analysis (proc := Softened Mini.engine) None
      (ChessAnalyzer.mk (proc := Softened Mini.engine)
         "/usr/bin/stockfish" (Some []) None (1 # 1),
       Mini.board_of (Mini.mkPosition "sharp" true []))
    = (Ok r, (self', Mini.board_of (Mini.mkPosition "sharp" true [])))
    /\ AnalysisData.total_moves r = 3
    /\ len (AnalysisData.moves r) = 3.
Proof.
  exact (@get_board_analysis_returns_with_a_tame_engine
           Mini.rules (Softened Mini.engine) None
           (ChessAnalyzer.mk (proc := Softened Mini.engine)
              "/usr/bin/stockfish" (Some []) None (1 # 1))
           (Mini.board_of (Mini.mkPosition "sharp" true [])) []
           (softened_is_tame Mini.engine) eq_refl).
Defined.

(** Without a started engine, and with a legal move to try, both
    enumerations raise ["Engine not started"] after the first push: the
    caller's board is left with the first legal move played. *)
Theorem enumeration_without_engine_leaves_first_move_on_board
    {rules : RulesLibrary} {proc : EngineProcess rules}
    (tl : option Q) (self : ChessAnalyzer.t proc) (board : Board.t)
    (m : Move) (rest : list Move) :
  ChessAnalyzer.engine self = None ->
  legal_moves (Board.position board) = m :: rest ->
  ChessAnalyzer.get_board_analysis tl (self, board)
  = (Raise (RuntimeError "Engine not started. Use start_engine() first."),
     (self, Board.push m board))
  /\ ChessAnalyzer.get_moves_json tl (self, board)
     = (Raise (RuntimeError "Engine not started. Use start_engine() first."),
        (self, Board.push m board)).
Proof.
  intros He Hl.
  unfold ChessAnalyzer.get_board_analysis, ChessAnalyzer.get_moves_json.
  rewrite Hl. unfold bind.
  rewrite for_legal_moves_step, for_legal_moves_json_step.
  unfold ChessAnalyzer.analyze_position. rewrite He.
  split; reflexivity.
Qed.

(** Witness: the analyzer that was never started, on the board [calm w]. *)
Lemma enumeration_without_engine_on_calm_board :
  let board := Mini.board_of (Mini.mkPosition "calm" true []) in
  Board.board_fen
    (snd (snd (ChessAnalyzer.get_board_analysis None (Mini.fresh, board))))
  = "calm b e2e4".
Proof.
  cbv zeta.
  rewrite (proj1 (@enumeration_without_engine_leaves_first_move_on_board
                    Mini.rules Mini.engine None Mini.fresh
                    (Mini.board_of (Mini.mkPosition "calm" true []))
                    Mini.Quiet [Mini.Crash; Mini.Silent] eq_refl eq_refl)).
  reflexivity.
Defined.

(** What [get_board_analysis] asks of the engine: when it returns, the
    engine has been given, in the order of the legal moves and once each,
    the board after each legal move, every time under the limit made of the
    requested time (or the analyzer's default time, or its default depth),
    and nothing else. *)
Theorem get_board_analysis_analyses_each_successor_once_in_order
    {rules : RulesLibrary} (proc : EngineProcess rules)
    (tl : option Q) (self self' : ChessAnalyzer.t (Recording proc))
    (board board' : Board.t) (r : AnalysisData.t)
    (e : @Engine rules proc) (log : list (Board.t * Limit.t)) :
  ChessAnalyzer.engine self = Some (recorded proc e log) ->
  ChessAnalyzer.get_board_analysis tl (self, board) = (Ok r, (self', board')) ->
  let time := match tl with
              | Some t => t
              | None => ChessAnalyzer.default_time self
              end in
  let limit := ChessAnalyzer.analysis_limit self (Some time) None in
  exists e',
    ChessAnalyzer.engine self'
    = Some (recorded proc e'
              (rev (map (fun m => (Board.push m board, limit))
                        (legal_moves (Board.position board))) ++ log)%list).
Proof.
  intros He H. exact (@get_board_analysis_recorded _ proc _ _ _ _ _ _ _ _ He H).
Qed.

(** Witness: the miniature engine recorded, on the board [calm w] with a
    requested time of two seconds. *)
Lemma get_board_analysis_record_on_calm_board :
  let board := Mini.board_of (Mini.mkPosition "calm" true []) in
  let self := ChessAnalyzer.mk (proc := Recording Mini.engine)
                "/usr/bin/stockfish" (Some (recorded Mini.engine [] [])) None (1 # 1) in
  let limit := Limit.mk (Some (2 # 1)) None in
  exists e',
    ChessAnalyzer.engine
      (fst (snd (ChessAnalyzer.get_board_analysis (Some (2 # 1)) (self, board))))
    = Some (recorded Mini.engine e'
              [ (Board.push (rules := Mini.rules) Mini.Silent board, limit);
                (Board.push (rules := Mini.rules) Mini.Crash board, limit);
                (Board.push (rules := Mini.rules) Mini.Quiet board, limit) ]).
Proof.
  cbv zeta.
  refine (@get_board_analysis_analyses_each_successor_once_in_order
            Mini.rules Mini.engine (Some (2 # 1))
            (ChessAnalyzer.mk (proc := Recording Mini.engine)
               "/usr/bin/stockfish" (Some (recorded Mini.engine [] [])) None (1 # 1))
            _ (Mini.board_of (Mini.mkPosition "calm" true [])) _ _ [] []
            eq_refl _).
  vm_compute. reflexivity.
Defined.

(** Best first: in what [get_board_analysis] returns, no move has a greater
    sort key (its advantage, or -999 without one) than the first move of
    the list. *)
Theorem get_board_analysis_first_move_has_greatest_key
    {rules : RulesLibrary} {proc : EngineProcess rules}
    (tl : option Q) (st st' : ChessAnalyzer.St proc) (r : AnalysisData.t)
    (first : MoveData.t) (others : list MoveData.t) :
  ChessAnalyzer.get_board_analysis tl st = (Ok r, st') ->
  AnalysisData.moves r = first :: others ->
  forall x, In x (AnalysisData.moves r) ->
            Qle (ChessAnalyzer.sort_key x) (ChessAnalyzer.sort_key first).
Proof.
  intros H Hm x Hx. pose proof (get_board_analysis_ranked _ _ H) as Hr.
  rewrite Hm in *. destruct Hx as [<-|Hx]; [apply Qle_refl|].
  exact (@descending_head _ ChessAnalyzer.sort_key first others Hr x Hx).
Qed.

(** Witness: on the miniature board [calm w] the failed analysis of [d2d4]
    ranks no higher than the first move of the list. *)
Lemma get_board_analysis_best_first_on_calm_board :
  let null := MoveData.mk "d2d4" None false None None None None in
  Qle (ChessAnalyzer.sort_key null)
      (ChessAnalyzer.sort_key
         (MoveData.mk "e2e4" (Some (div100 50)) false None (Some "e2e4")
            (Some 12) (Some 3400))).
Proof.
  cbv zeta.
  refine (@get_board_analysis_first_move_has_greatest_key
            Mini.rules Mini.engine None
            (Mini.started, Mini.board_of (Mini.mkPosition "calm" true []))
            _ _ _ _ _ _ _ _).
  - vm_compute. reflexivity.
  - reflexivity.
  - right. left. reflexivity.
Defined.

(* ================================================================== *)
(** * Further properties: the best move and the service *)

(** The analyzer's [get_best_move], when it returns: the principal
    variation has at most five moves and the best move is its first one
    (none when it is empty); the error dictionary, the answer to a failed
    analysis, carries no move, no advantage and no variation. *)
Theorem analyzer_get_best_move_heads_a_variation_of_at_most_five
    {rules : RulesLibrary} {proc : EngineProcess rules}
    (board : Board.t) (tl : option Q) (self self' : ChessAnalyzer.t proc)
    (d : BestMoveData.t) :
  ChessAnalyzer.get_best_move board tl self = (Ok d, self') ->
  (List.length (BestMoveData.principal_variation d) <= 5)%nat
  /\ BestMoveData.best_move d = hd_error (BestMoveData.principal_variation d)
  /\ (BestMoveData.error d = None
      \/ d = BestMoveData.mk (Some "Analysis failed") None None false None
               None None []).
Proof.
  unfold ChessAnalyzer.get_best_move, bind, ret, lift.
  destruct (ChessAnalyzer.analyze_position board _ None self)
    as [[info|x] s1]; [|discriminate].
  destruct (Info.truthy info); cbn [negb].
  - assert (forall pv : list Move,
               (List.length (map uci (firstn 5 pv)) <= 5)%nat
               /\ match pv with first :: _ => Some (uci first) | [] => None end
                  = hd_error (map uci (firstn 5 pv))) as Hpv.
    { intros pv. rewrite List.length_map. split; [apply firstn_le_length|].
      destruct pv; reflexivity. }
    assert (forall (d0 : BestMoveData.t) (pv : list Move),
               BestMoveData.error d0 = None ->
               BestMoveData.principal_variation d0 = map uci (firstn 5 pv) ->
               BestMoveData.best_move d0
               = match pv with first :: _ => Some (uci first) | [] => None end ->
               (List.length (BestMoveData.principal_variation d0) <= 5)%nat
               /\ BestMoveData.best_move d0
                  = hd_error (BestMoveData.principal_variation d0)
               /\ (BestMoveData.error d0 = None
                   \/ d0 = BestMoveData.mk (Some "Analysis failed") None None
                             false None None None [])) as Hd.
    { intros d0 pv He Hv Hb. destruct (Hpv pv) as [Hlen Hhd].
      rewrite Hv, Hb. auto. }
    destruct (Info.score info) as [s|].
    + destruct (PyChess.is_mate s).
      * destruct (PyChess.mate s); [|discriminate].
        intros H. inversion H; subst. eapply Hd; reflexivity.
      * intros H. inversion H; subst. eapply Hd; reflexivity.
    + intros H. inversion H; subst. eapply Hd; reflexivity.
  - intros H. inversion H; subst. cbn. split; [lia|]. split; [reflexivity|].
    right. reflexivity.
Qed.

(** Witness: the best move of the miniature board [calm w]. *)
Lemma analyzer_get_best_move_on_calm_board :
  let run := ChessAnalyzer.get_best_move
               (Mini.board_of (Mini.mkPosition "calm" true [])) None
               Mini.started in
  match fst run with
  | Ok d =>
      BestMoveData.best_move d = Some "e2e4"
      /\ BestMoveData.principal_variation d = ["e2e4"; "e2e4"]
  | Raise _ => False
  end.
Proof.
  cbv zeta.
  pose proof (@analyzer_get_best_move_heads_a_variation_of_at_most_five
                Mini.rules Mini.engine
                (Mini.board_of (Mini.mkPosition "calm" true [])) None
                Mini.started _ _ eq_refl) as H.
  split; [exact (proj1 (proj2 H)) | reflexivity].
Defined.

(** Every response of the service's [analyze_position] describes the
    position of the record's FEN: its FEN as the rules library prints it,
    its side to move (whatever the turn token of the record says), and each
    of its legal moves exactly once, [total_moves] being their number. *)
Theorem service_analyze_position_response_describes_the_fen
    {rules : RulesLibrary} {proc : EngineProcess rules}
    (os : OS proc) (settings : Settings.t) (s turn fen_ arrows : string)
    (p : Position) (tl : option Q) (svc svc' : ChessService.t proc)
    (resp : AnalysisResponse.t) :
  ChessUtils.parse_state_string s = Ok (turn, fen_, arrows) ->
  set_fen fen_ = inl p ->
  ChessService.analyze_position os settings s tl svc = (Ok resp, svc') ->
  AnalysisResponse.fen resp = fen p
  /\ AnalysisResponse.turn resp = (if side_to_move p then "white" else "black")
  /\ AnalysisResponse.total_moves resp = len (legal_moves p)
  /\ len (AnalysisResponse.moves resp) = len (legal_moves p)
  /\ Permutation (map uci (legal_moves p))
       (map MoveData.move (AnalysisResponse.moves resp)).
Proof.
  intros Hp Hf.
  unfold ChessService.analyze_position, bind, lift. rewrite Hp.
  unfold ChessService.analyze_position_with, ChessService.create_board,
    Board.of_fen, ChessService.reraise, ChessService.on_analyzer,
    ChessAnalyzer.on_self, try_except, bind, lift, raise, ret.
  rewrite Hf.
  destruct (ChessService._get_analyzer os settings svc) as [[a|x] svc1];
    [|discriminate].
  destruct (ChessAnalyzer.get_board_analysis _ (a, Board.mk p [] []))
    as [[data|x] [a1 b1]] eqn:E; cbn;
    [|destruct (is_Exception x); discriminate].
  destruct (ChessAnalyzer.get_best_move b1 _ a1) as [[best|x] a2]; cbn;
    [|destruct (is_Exception x); discriminate].
  intros H. inversion H; subst. cbn.
  destruct (get_board_analysis_ok _ _ _ E) as (_ & Hfen & Ht & Hm).
  destruct (get_board_analysis_names _ _ E) as [Hperm Hturn].
  repeat split; assumption.
Qed.

(** Witness: the record says Black, the FEN says White. *)
Lemma service_analyze_position_on_mislabelled_record :
  let run := ChessService.analyze_position Mini.os_installed Settings.defaults
               "black::calm w" None ChessService.init in
  match fst run with
  | Ok resp =>
      AnalysisResponse.turn resp = "white"
      /\ AnalysisResponse.total_moves resp = 3
  | Raise _ => False
  end.
Proof.
  cbv zeta.
  pose proof (@service_analyze_position_response_describes_the_fen
                Mini.rules Mini.engine Mini.os_installed Settings.defaults
                "black::calm w" "black" "calm w" ""
                (Mini.mkPosition "calm" true []) None ChessService.init
                _ _ eq_refl eq_refl eq_refl) as H.
  split; [exact (proj1 (proj2 H)) | exact (proj1 (proj2 (proj2 H)))].
Defined.

(** In the service's [analyze_position] a failed best-move analysis does
    not fail the request: after an enumeration that returned, an engine
    that raises on the position itself gives the response of the
    enumeration with no best move, no advantage and an empty variation. *)
Theorem service_analyze_position_survives_a_failed_best_move
    {rules : RulesLibrary} {proc : EngineProcess rules}
    (os : OS proc) (settings : Settings.t) (s turn fen_ arrows : string)
    (p : Position) (tl : option Q) (svc : ChessService.t proc)
    (analyzer a1 : ChessAnalyzer.t proc) (b1 : Board.t)
    (data : AnalysisData.t) (e e' : Engine) (x : exn) :
  ChessUtils.parse_state_string s = Ok (turn, fen_, arrows) ->
  set_fen fen_ = inl p ->
  ChessService._analyzer svc = Some analyzer ->
  let limit := ChessService.validate_time_limit settings tl in
  ChessAnalyzer.get_board_analysis (Some limit) (analyzer, Board.mk p [] [])
  = (Ok data, (a1, b1)) ->
  ChessAnalyzer.engine a1 = Some e ->
  analyse b1 (ChessAnalyzer.analysis_limit a1 (Some limit) None) e
  = (Raise x, e') ->
  is_Exception x = true ->
  ChessService.analyze_position os settings s tl svc
  = (Ok (AnalysisResponse.mk
           (AnalysisData.fen data) (AnalysisData.turn data)
           (AnalysisData.total_moves data) (AnalysisData.moves data)
           None None false None []),
     ChessService.mk (Some (ChessAnalyzer.set_engine (Some e') a1))
       (ChessService._engine_path svc)).
Proof.
  intros Hp Hf Ha limit Hg He Hx Hexc.
  unfold ChessService.analyze_position, bind, lift. rewrite Hp.
  rewrite (service_analyze_position_with os settings fen_ _ svc Hf Ha).
  fold limit. rewrite Hg.
  unfold ChessAnalyzer.get_best_move, bind, ret.
  rewrite (analyze_position_raise _ _ _ _ He Hx Hexc).
  reflexivity.
Qed.

(** Witness: the miniature position [fatal w], without legal moves, on
    which the engine dies. *)
Lemma service_analyze_position_on_fatal_board :
  fst (ChessService.analyze_position Mini.os_installed Settings.defaults
         "white::fatal w" None
         (ChessService.mk (Some Mini.started) (Some "/usr/bin/stockfish")))
  = Ok (AnalysisResponse.mk "fatal w" "white" 0 [] None None false None []).
Proof.
  rewrite (@service_analyze_position_survives_a_failed_best_move
             Mini.rules Mini.engine Mini.os_installed Settings.defaults
             "white::fatal w" "white" "fatal w" ""
             (Mini.mkPosition "fatal" true []) None
             (ChessService.mk (Some Mini.started) (Some "/usr/bin/stockfish"))
             Mini.started Mini.started
             (Mini.board_of (Mini.mkPosition "fatal" true []))
             (AnalysisData.mk "fatal w" "white" 0 []) [] _ _
             eq_refl eq_refl eq_refl eq_refl eq_refl eq_refl eq_refl).
  reflexivity.
Defined.

(** The service's [get_best_move] has no answer without a principal
    variation: when the engine's answer holds something but no move (and no
    mate score), building the response fails, outside the [try] block, with
    pydantic's [ValidationError] for the required [best_move]. *)
Theorem service_get_best_move_needs_a_principal_variation
    {rules : RulesLibrary} {proc : EngineProcess rules}
    (os : OS proc) (settings : Settings.t) (s turn fen_ arrows : string)
    (p : Position) (tl : option Q) (svc : ChessService.t proc)
    (analyzer : ChessAnalyzer.t proc) (e e' : Engine) (info : Info.t) :
  ChessUtils.parse_state_string s = Ok (turn, fen_, arrows) ->
  set_fen fen_ = inl p ->
  ChessService._analyzer svc = Some analyzer ->
  ChessAnalyzer.engine analyzer = Some e ->
  analyse (Board.mk p [] [])
    (ChessAnalyzer.analysis_limit analyzer
       (Some (ChessService.validate_time_limit settings tl)) None) e
  = (Ok info, e') ->
  Info.truthy info = true ->
  (Info.pv info = None \/ Info.pv info = Some []) ->
  match Info.score info with
  | Some score => PyChess.is_mate score = false
  | None => True
  end ->
  ChessService.get_best_move os settings s tl svc
  = (Raise (ValidationError "best_move: Input should be a valid string"),
     ChessService.mk (Some (ChessAnalyzer.set_engine (Some e') analyzer))
       (ChessService._engine_path svc)).
Proof.
  intros Hp Hf Ha He Hx Ht Hpv Hs.
  unfold ChessService.get_best_move, bind, lift. rewrite Hp.
  rewrite (service_get_best_move_with os settings fen_ _ svc Hf Ha).
  unfold ChessAnalyzer.get_best_move, bind, ret, lift.
  rewrite (analyze_position_answer _ _ _ _ He Hx). rewrite Ht. cbn [negb].
  destruct (Info.score info) as [score|].
  - rewrite Hs. destruct Hpv as [-> | ->]; reflexivity.
  - destruct Hpv as [-> | ->]; reflexivity.
Qed.

(** Witness: an engine that reports a score and a depth and no move. *)
Lemma service_get_best_move_without_variation :
  fst (ChessService.get_best_move
         (mkOS Moveless (fun _ => true) (fun _ => Ok tt))
         Settings.defaults "white::calm w" None
         (constant_service Moveless tt))
  = Raise (ValidationError "best_move: Input should be a valid string").
Proof.
  rewrite (@service_get_best_move_needs_a_principal_variation
             Mini.rules Moveless
             (mkOS Moveless (fun _ => true) (fun _ => Ok tt))
             Settings.defaults "white::calm w" "white" "calm w" ""
             (Mini.mkPosition "calm" true []) None
             (constant_service Moveless tt) _ tt tt _
             eq_refl eq_refl eq_refl eq_refl eq_refl eq_refl
             (or_introl eq_refl) eq_refl).
  reflexivity.
Defined.

(** A mate score fails the best move too: the analyzer's [get_best_move]
    asks the [PovScore] for [mate()], and the service reports
    [RuntimeError("Best move analysis failed: ...")]. *)
Theorem service_get_best_move_fails_on_a_mate_score
    {rules : RulesLibrary} {proc : EngineProcess rules}
    (os : OS proc) (settings : Settings.t) (s turn fen_ arrows : string)
    (p : Position) (tl : option Q) (svc : ChessService.t proc)
    (analyzer : ChessAnalyzer.t proc) (e e' : Engine) (info : Info.t)
    (score : PyChess.PovScore) :
  ChessUtils.parse_state_string s = Ok (turn, fen_, arrows) ->
  set_fen fen_ = inl p ->
  ChessService._analyzer svc = Some analyzer ->
  ChessAnalyzer.engine analyzer = Some e ->
  analyse (Board.mk p [] [])
    (ChessAnalyzer.analysis_limit analyzer
       (Some (ChessService.validate_time_limit settings tl)) None) e
  = (Ok info, e') ->
  Info.score info = Some score ->
  PyChess.is_mate score = true ->
  ChessService.get_best_move os settings s tl svc
  = (Raise (RuntimeError
              "Best move analysis failed: 'PovScore' object has no attribute 'mate'"),
     ChessService.mk (Some (ChessAnalyzer.set_engine (Some e') analyzer))
       (ChessService._engine_path svc)).
Proof.
  intros Hp Hf Ha He Hx Hs Hm.
  unfold ChessService.get_best_move, bind, lift. rewrite Hp.
  rewrite (service_get_best_move_with os settings fen_ _ svc Hf Ha).
  unfold ChessAnalyzer.get_best_move, bind, ret, lift.
  rewrite (analyze_position_answer _ _ _ _ He Hx).
  assert (Info.truthy info = true) as Ht
      by (unfold Info.truthy; now rewrite Hs).
  rewrite Ht, Hs, Hm. reflexivity.
Qed.

(** Witness: an engine that announces mate in two. *)
Lemma service_get_best_move_on_mate_in_two :
  fst (ChessService.get_best_move
         (mkOS Announcing (fun _ => true) (fun _ => Ok tt))
         Settings.defaults "white::calm w" None
         (constant_service Announcing tt))
  = Raise (RuntimeError
             "Best move analysis failed: 'PovScore' object has no attribute 'mate'").
Proof.
  rewrite (@service_get_best_move_fails_on_a_mate_score
             Mini.rules Announcing
             (mkOS Announcing (fun _ => true) (fun _ => Ok tt))
             Settings.defaults "white::calm w" "white" "calm w" ""
             (Mini.mkPosition "calm" true []) None
             (constant_service Announcing tt) _ tt tt _ _
             eq_refl eq_refl eq_refl eq_refl eq_refl eq_refl eq_refl).
  reflexivity.
Defined.

(* ================================================================== *)
(** * Further properties: starting and stopping the service *)

Section FindFacts.

Lemma find_stockfish_path_spec (exists_ : string -> bool) (paths : list string) :
  match ChessUtils.find_stockfish_path exists_ paths with
  | Some p =>
      exists before after,
        paths = (before ++ p :: after)%list
        /\ (exists_ p = true \/ p = "stockfish")
        /\ forall q, In q before -> exists_ q = false /\ q <> "stockfish"
  | None => forall q, In q paths -> exists_ q = false /\ q <> "stockfish"
  end.
Proof.
  induction paths as [|a paths IH]; cbn [ChessUtils.find_stockfish_path].
  - intros q [].
  - destruct (exists_ a) eqn:Ea; cbn [orb].
    + exists [], paths. split; [reflexivity|]. split; [now left|].
      intros q [].
    + destruct (String.eqb a "stockfish") eqn:Es.
      * apply String.eqb_eq in Es. exists [], paths.
        split; [reflexivity|]. split; [now right|]. intros q [].
      * apply String.eqb_neq in Es.
        destruct (ChessUtils.find_stockfish_path exists_ paths) as [p|].
        -- destruct IH as (before & after & -> & Hp & Hb).
           exists (a :: before), after.
           split; [reflexivity|]. split; [exact Hp|].
           intros q [<-|Hq]; [now split | now apply Hb].
        -- intros q [<-|Hq]; [now split | now apply IH].
Qed.

End FindFacts.

(** [find_stockfish_path] gives the first listed path that exists or is the
    bare name ["stockfish"], which needs not exist; it gives nothing only
    when no listed path exists and none is that name. *)
Theorem find_stockfish_path_gives_first_candidate
    (exists_ : string -> bool) (paths : list string) :
  match ChessUtils.find_stockfish_path exists_ paths with
  | Some p =>
      exists before after,
        paths = (before ++ p :: after)%list
        /\ (exists_ p = true \/ p = "stockfish")
        /\ forall q, In q before -> exists_ q = false /\ q <> "stockfish"
  | None => forall q, In q paths -> exists_ q = false /\ q <> "stockfish"
  end.
Proof. apply find_stockfish_path_spec. Qed.

(** When ["stockfish"] is among the configured paths and none of them
    exists on disk, starting the service does not report "Stockfish engine
    not found": the search settles on the bare name, the analyzer's own
    existence check refuses it, and the start ends in [SystemExit(1)] with
    the service holding an analyzer without engine. *)
Theorem service_start_with_bare_name_exits
    {rules : RulesLibrary} {proc : EngineProcess rules}
    (os : OS proc) (settings : Settings.t) :
  In "stockfish" (Settings.stockfish_paths settings) ->
  (forall q, In q (Settings.stockfish_paths settings) ->
             path_exists os q = false) ->
  ChessService.start_engine os settings ChessService.init
  = (Raise (SystemExit 1),
     ChessService.mk
       (Some (ChessAnalyzer.init "stockfish" None
                (Settings.default_analysis_time settings)))
       (Some "stockfish")).
Proof.
  intros Hin Hno.
  pose proof (find_stockfish_path_spec (path_exists os)
                (Settings.stockfish_paths settings)) as Hf.
  unfold ChessService.start_engine, try_except, bind, ret, raise,
    ChessService._get_analyzer, ChessService._initialize_analyzer,
    ChessService.init.
  cbn [ChessService._analyzer ChessService._engine_path].
  destruct (ChessUtils.find_stockfish_path (path_exists os)
              (Settings.stockfish_paths settings)) as [p|].
  - destruct Hf as (before & after & Hp & [He|He] & _).
    + rewrite Hno in He; [discriminate|].
      rewrite Hp. apply in_or_app. right. now left.
    + subst p.
      rewrite (@start_engine_missing rules proc os
                 (ChessAnalyzer.init "stockfish" None
                    (Settings.default_analysis_time settings))
                 (Hno _ Hin)).
      reflexivity.
  - exfalso. destruct (Hf _ Hin) as [_ Hne]. now apply Hne.
Qed.

(** Witness: the default settings on a machine without Stockfish. *)
Lemma service_start_on_bare_machine :
  fst (ChessService.start_engine Mini.os_bare Settings.defaults
         ChessService.init)
  = Raise (SystemExit 1).
Proof.
  rewrite (@service_start_with_bare_name_exits Mini.rules Mini.engine
             Mini.os_bare Settings.defaults
             (or_intror (or_intror (or_intror (or_introl eq_refl))))
             (fun q _ => eq_refl)).
  reflexivity.
Defined.

(** Starting a service that holds no analyzer, on a path that exists and an
    engine that answers the handshake: the service is ready and healthy on
    that path (the remembered one, when there is one, else the one the
    search gives), and a second start changes nothing. *)
Theorem service_start_engine_makes_ready_and_is_idempotent
    {rules : RulesLibrary} {proc : EngineProcess rules}
    (os : OS proc) (settings : Settings.t) (svc : ChessService.t proc)
    (p : string) (e : Engine) :
  ChessService._analyzer svc = None ->
  match ChessService._engine_path svc with
  | Some q => Some q
  | None => ChessUtils.find_stockfish_path (path_exists os)
              (Settings.stockfish_paths settings)
  end = Some p ->
  path_exists os p = true ->
  popen_uci os p = Ok e ->
  let started :=
    ChessService.mk
      (Some (ChessAnalyzer.mk p (Some e) None
               (Settings.default_analysis_time settings)))
      (Some p) in
  ChessService.start_engine os settings svc = (Ok tt, started)
  /\ ChessService.is_engine_ready started = true
  /\ ChessService.health_check started
     = HealthData.mk "healthy" (Some "stockfish") (Some (Some p)) None
  /\ ChessService.start_engine os settings started = (Ok tt, started).
Proof.
  intros Ha Hp He Ho. cbv zeta. repeat split.
  unfold ChessService.start_engine, try_except, bind, ret, raise,
    ChessService._get_analyzer, ChessService._initialize_analyzer.
  rewrite Ha, Hp.
  unfold ChessAnalyzer.start_engine, try_except, ChessAnalyzer.init.
  cbn [ChessAnalyzer.engine_path]. rewrite He, Ho. reflexivity.
Qed.

(** Witness: the first start on the machine with Stockfish installed. *)
Lemma service_start_on_installed_machine :
  ChessService.is_engine_ready
    (snd (ChessService.start_engine Mini.os_installed Settings.defaults
            ChessService.init)) = true.
Proof.
  rewrite (proj1 (@service_start_engine_makes_ready_and_is_idempotent
                    Mini.rules Mini.engine Mini.os_installed Settings.defaults
                    ChessService.init "/usr/bin/stockfish" []
                    eq_refl eq_refl eq_refl eq_refl)).
  reflexivity.
Defined.

(** [stop_engine] always leaves the service without analyzer, hence not
    ready and unhealthy, keeps the engine path it had found, lets no
    [Exception] out, and changes nothing when repeated. *)
Theorem service_stop_engine_always_leaves_not_ready
    {rules : RulesLibrary} {proc : EngineProcess rules}
    (svc : ChessService.t proc) :
  let run := ChessService.stop_engine svc in
  ChessService._analyzer (snd run) = None
  /\ ChessService.is_engine_ready (snd run) = false
  /\ ChessService._engine_path (snd run) = ChessService._engine_path svc
  /\ ChessService.health_check (snd run)
     = HealthData.mk "unhealthy" None None (Some "Chess engine not ready")
  /\ match fst run with
     | Ok _ => True
     | Raise x => is_Exception x = false
     end
  /\ ChessService.stop_engine (snd run) = (Ok tt, snd run).
Proof.
  cbv zeta. unfold ChessService.stop_engine.
  destruct svc as [[a|] path]; cbn [ChessService._analyzer].
  - destruct (ChessAnalyzer.quit_engine a) as [[u|x] a']; cbn.
    + repeat split.
    + destruct (is_Exception x) eqn:Ex; cbn; repeat split. exact Ex.
  - cbn. repeat split.
Qed.

(* ================================================================== *)
(** * Further properties: requests and routes *)

(** A request reaches a handler validated, so all the parser can still
    refuse is its position: both POST routes then answer with status 400
    and the detail ["Invalid FEN: ..."] with the message of the rules
    library, and the service is left exactly as it was: no engine is
    looked for, started or asked.  A record refused for its segments or its
    turn makes no request at all. *)
Theorem routes_answer_400_to_refused_positions_without_engine
    {rules : RulesLibrary} {proc : EngineProcess rules}
    (os : OS proc) (settings : Settings.t)
    (request : StateStringRequest.t) (svc : ChessService.t proc) :
  is_ok (ChessUtils.parse_state_string (StateStringRequest.state_string request))
  = false ->
  (exists e,
      set_fen (PyStr.strip
                 (nth 1 (PyStr.split_dcolon
                           (StateStringRequest.state_string request)) ""))
      = inr e
      /\ ChessRoutes.analyze_position os settings request svc
         = (ChessRoutes.HTTPException 400 ("Invalid FEN: " ++ e), svc)
      /\ ChessRoutes.get_best_move os settings request svc
         = (ChessRoutes.HTTPException 400 ("Invalid FEN: " ++ e), svc))
  /\ (forall (v : string) (tl : option (option Q)),
         is_ok (StateStringRequest.validate_state_string v) = false ->
         StateStringRequest.validate v tl = None).
Proof.
  intros H. split.
  - pose proof (StateStringRequest.state_string_validated request) as Hv.
    unfold StateStringRequest.state_string_passes,
      StateStringRequest.validate_state_string in Hv.
    unfold ChessRoutes.analyze_position, ChessRoutes.get_best_move,
      ChessService.analyze_position, ChessService.get_best_move, bind, lift.
    revert H. unfold ChessUtils.parse_state_string, Board.of_fen.
    destruct (String.eqb (StateStringRequest.state_string request) "");
      [discriminate Hv|].
    destruct (PyStr.split_dcolon (StateStringRequest.state_string request))
      as [|p0 [|p1 rest]]; try discriminate Hv.
    destruct (negb (PyStr.mem (PyStr.strip p0) ["white"; "black"]));
      [discriminate Hv|].
    cbn [nth].
    destruct (set_fen (PyStr.strip p1)) as [p|e]; [discriminate|].
    intros _. exists e. repeat split.
  - intros v tl Hv. unfold StateStringRequest.validate.
    destruct (StateStringRequest.validate_time_limit tl); [|reflexivity].
    destruct (Bool.bool_dec (StateStringRequest.state_string_passes v) true)
      as [Hs|Hs]; [|reflexivity].
    exfalso. unfold StateStringRequest.state_string_passes in Hs.
    rewrite Hv in Hs. discriminate Hs.
Qed.

(** Witness: a request with an unknown position, on a service that was
    never started. *)
Lemma routes_on_unknown_position :
  exists e,
    Mini.mini_set_fen "no such position" = inr e
    /\ ChessRoutes.analyze_position Mini.os_installed Settings.defaults
         (StateStringRequest.mk "white::no such position" (Some (1 # 1))
            eq_refl eq_refl)
         ChessService.init
       = (ChessRoutes.HTTPException 400 ("Invalid FEN: " ++ e),
          ChessService.init)
    /\ ChessRoutes.get_best_move Mini.os_installed Settings.defaults
         (StateStringRequest.mk "white::no such position" (Some (1 # 1))
            eq_refl eq_refl)
         ChessService.init
       = (ChessRoutes.HTTPException 400 ("Invalid FEN: " ++ e),
          ChessService.init).
Proof.
  exact (proj1 (@routes_answer_400_to_refused_positions_without_engine
                  Mini.rules Mini.engine Mini.os_installed Settings.defaults
                  (StateStringRequest.mk "white::no such position"
                     (Some (1 # 1)) eq_refl eq_refl)
                  ChessService.init eq_refl)).
Defined.

(** The validator of the request model checks everything the parser checks
    but the position: a record the parser accepts passes it, a record it
    refuses is refused by the parser, and a record it accepts is parsed
    exactly when its stripped second segment is a position [validate_fen]
    accepts. *)
Theorem request_validator_leaves_only_the_fen_to_the_parser
    {rules : RulesLibrary} (v : string) :
  (forall r, ChessUtils.parse_state_string v = Ok r ->
             StateStringRequest.validate_state_string v = Ok v)
  /\ (forall e, StateStringRequest.validate_state_string v = Raise e ->
                is_ok (ChessUtils.parse_state_string v) = false)
  /\ (forall v', StateStringRequest.validate_state_string v = Ok v' ->
        v' = v
        /\ is_ok (ChessUtils.parse_state_string v)
           = ChessUtils.validate_fen
               (PyStr.strip (nth 1 (PyStr.split_dcolon v) ""))).
Proof.
  unfold StateStringRequest.validate_state_string,
    ChessUtils.parse_state_string, ChessUtils.validate_fen.
  destruct (String.eqb v "") eqn:Ev.
  - apply String.eqb_eq in Ev. subst v. cbn.
    split; [discriminate|]. split; [reflexivity | discriminate].
  - destruct (PyStr.split_dcolon v) as [|p0 [|p1 rest]];
      try (split; [discriminate|]; split; [reflexivity | discriminate]).
    cbn [nth].
    destruct (PyStr.mem (PyStr.strip p0) ["white"; "black"]); cbn [negb].
    + split; [reflexivity|]. split; [discriminate|].
      intros v' H. inversion H; subst. split; [reflexivity|].
      destruct (Board.of_fen (PyStr.strip p1)) as [b|[]]; reflexivity.
    + split; [discriminate|]. split; [reflexivity | discriminate].
Qed.

(** A time limit the request model lets through is never changed by the
    service when the ceiling is at least the model's own bound of ten
    seconds, as with the default settings: it lies between 0.1 and 10 and
    is used as given, and an explicit null becomes the default. *)
Theorem validated_time_limit_is_used_as_given
    (settings : Settings.t) (v : option (option Q)) (tl : option Q) :
  StateStringRequest.validate_time_limit v = Some tl ->
  Qle (10 # 1) (Settings.max_analysis_time settings) ->
  match tl with
  | Some t =>
      Qle (1 # 10) t /\ Qle t (10 # 1)
      /\ ChessService.validate_time_limit settings tl = t
  | None =>
      ChessService.validate_time_limit settings tl
      = Settings.default_analysis_time settings
  end.
Proof.
  intros Hv Hmax. destruct v as [[t|]|]; cbn in Hv.
  - destruct (Qle_bool (1 # 10) t) eqn:E1; [|discriminate].
    destruct (Qle_bool t (10 # 1)) eqn:E2; [|discriminate].
    inversion Hv; subst.
    apply Qle_bool_iff in E1, E2. repeat split; try assumption.
    apply validate_time_limit_within. eapply Qle_trans; eassumption.
  - inversion Hv; subst. reflexivity.
  - inversion Hv; subst. repeat split; try (intro Hc; discriminate Hc).
    apply validate_time_limit_within.
    eapply Qle_trans; [|exact Hmax]. intro Hc; discriminate Hc.
Qed.

(** Witness: ten seconds, the largest limit the request model accepts,
    under the default settings. *)
Lemma validated_time_limit_of_ten_seconds :
  ChessService.validate_time_limit Settings.defaults (Some (10 # 1)) = 10 # 1.
Proof.
  refine (proj2 (proj2
            (@validated_time_limit_is_used_as_given Settings.defaults
               (Some (Some (10 # 1))) (Some (10 # 1)) eq_refl _))).
  intro Hc. discriminate Hc.
Defined.

(* ================================================================== *)
(** * Further properties: the analyzer's limits, scores and texts *)

(** What [analyze_position] asks of a started engine, whatever the answer:
    one analysis, of the board it was given, under a limit that bounds
    exactly one of depth and time: the depth (the one given, else the
    default one) when it is not zero, the time (the one given, else the
    default one) otherwise, so a depth of zero counts as no depth, even
    against a default depth. *)
Theorem analyze_position_asks_once_under_depth_or_else_time
    {rules : RulesLibrary} (proc : EngineProcess rules)
    (board : Board.t) (tl : option Q) (dl : option Z)
    (self : ChessAnalyzer.t (Recording proc))
    (e : @Engine rules proc) (log : list (Board.t * Limit.t)) :
  ChessAnalyzer.engine self = Some (recorded proc e log) ->
  let depth := match dl with
               | Some d => Some d
               | None => ChessAnalyzer.default_depth self
               end in
  let time := match tl with
              | Some t => t
              | None => ChessAnalyzer.default_time self
              end in
  let limit := match depth with
               | Some d =>
                   if d =? 0 then Limit.mk (Some time) None
                   else Limit.mk None (Some d)
               | None => Limit.mk (Some time) None
               end in
  exists e',
    ChessAnalyzer.engine
      (snd (ChessAnalyzer.analyze_position board tl dl self))
    = Some (recorded proc e' ((board, limit) :: log)).
Proof.
  intros He. cbv zeta. unfold ChessAnalyzer.analyze_position. rewrite He.
  unfold recorded. cbn [analyse Recording fst snd].
  assert (Hl : ChessAnalyzer.analysis_limit self tl dl
               = match match dl with
                       | Some d => Some d
                       | None => ChessAnalyzer.default_depth self
                       end with
                 | Some d =>
                     if d =? 0
                     then Limit.mk
                            (Some match tl with
                                  | Some t => t
                                  | None => ChessAnalyzer.default_time self
                                  end) None
                     else Limit.mk None (Some d)
                 | None =>
                     Limit.mk
                       (Some match tl with
                             | Some t => t
                             | None => ChessAnalyzer.default_time self
                             end) None
                 end).
  { unfold ChessAnalyzer.analysis_limit, ChessAnalyzer.depth_truthy.
    destruct dl as [d|]; [|destruct (ChessAnalyzer.default_depth self) as [d|]];
      try destruct (d =? 0); reflexivity. }
  rewrite <- Hl.
  destruct (@analyse rules proc board
              (ChessAnalyzer.analysis_limit self tl dl) e) as [[info|x] e'].
  - eexists. reflexivity.
  - destruct (is_Exception x); eexists; reflexivity.
Qed.

(** Witness: an analyzer of default depth 12 and default time 3 s, asked
    with depth 0 and no time, asks the engine for 3 s and no depth. *)
Lemma analyze_position_with_depth_zero :
  let board := Mini.board_of (Mini.mkPosition "calm" true []) in
  let self := ChessAnalyzer.mk (proc := Recording Mini.engine)
                "/usr/bin/stockfish" (Some (recorded Mini.engine [] []))
                (Some 12) (3 # 1) in
  exists e',
    ChessAnalyzer.engine
      (snd (ChessAnalyzer.analyze_position board None (Some 0) self))
    = Some (recorded Mini.engine e' [(board, Limit.mk (Some (3 # 1)) None)]).
Proof.
  cbv zeta.
  exact (@analyze_position_asks_once_under_depth_or_else_time
           Mini.rules Mini.engine
           (Mini.board_of (Mini.mkPosition "calm" true [])) None (Some 0)
           (ChessAnalyzer.mk (proc := Recording Mini.engine)
              "/usr/bin/stockfish" (Some (recorded Mini.engine [] []))
              (Some 12) (3 # 1))
           [] [] eq_refl).
Defined.

(** The analyzer's [get_best_move] on a centipawn score: the advantage is
    the engine's mover-relative score over 100 whichever side is to move
    (null for a score beyond the range of a float, whose division raises
    and is swallowed), without mate, with the engine's depth and node
    count. *)
Theorem analyzer_get_best_move_reports_relative_centipawns
    {rules : RulesLibrary} {proc : EngineProcess rules}
    (board : Board.t) (tl : option Q) (self : ChessAnalyzer.t proc)
    (e e' : Engine) (info : Info.t) (n : Z) (side : PyChess.Color) :
  ChessAnalyzer.engine self = Some e ->
  let time := match tl with
              | Some t => t
              | None => ChessAnalyzer.default_time self
              end in
  analyse board (ChessAnalyzer.analysis_limit self (Some time) None) e
  = (Ok info, e') ->
  Info.score info = Some (PyChess.mkPovScore (PyChess.Cp n) side) ->
  exists d,
    ChessAnalyzer.get_best_move board tl self
    = (Ok d, ChessAnalyzer.set_engine (Some e') self)
    /\ BestMoveData.advantage d
       = (if fits_float n then Some (div100 n) else None)
    /\ BestMoveData.is_mate d = false
    /\ BestMoveData.mate_in d = None
    /\ BestMoveData.error d = None
    /\ BestMoveData.depth_reached d = Info.depth info
    /\ BestMoveData.nodes_searched d = Info.nodes info.
Proof.
  intros He time Ha Hs.
  unfold ChessAnalyzer.get_best_move, bind, ret, lift. fold time.
  rewrite (analyze_position_answer _ _ _ _ He Ha).
  assert (Info.truthy info = true) as Ht
      by (unfold Info.truthy; now rewrite Hs).
  rewrite Ht, Hs. cbn [negb].
  change (PyChess.is_mate (PyChess.mkPovScore (PyChess.Cp n) side)) with false.
  cbv iota. rewrite centipawn_advantage_Cp.
  eexists. split; [reflexivity|]. repeat split.
Qed.

(** Witness: the position [calm b], Black to move, scored [+20] for the
    mover: the reported advantage is [+0.20]. *)
Lemma analyzer_get_best_move_on_black_to_move :
  exists d,
    fst (ChessAnalyzer.get_best_move
           (Mini.board_of (Mini.mkPosition "calm" false [])) None Mini.started)
    = Ok d
    /\ BestMoveData.advantage d = Some (div100 20).
Proof.
  destruct (@analyzer_get_best_move_reports_relative_centipawns
              Mini.rules Mini.engine
              (Mini.board_of (Mini.mkPosition "calm" false [])) None
              Mini.started [] _ _ 20 PyChess.BLACK eq_refl eq_refl eq_refl)
    as (d & Hd & Hadv & _).
  exists d. rewrite Hd. split; [reflexivity | exact Hadv].
Defined.

(** [quit_engine] lets no [Exception] out and keeps the analyzer's engine
    handle: an analyzer that was started still counts as started after it,
    so that a later [analyze_position] goes to the engine instead of raising
    "Engine not started". *)
Theorem quit_engine_keeps_the_engine_handle
    {rules : RulesLibrary} {proc : EngineProcess rules}
    (self : ChessAnalyzer.t proc) (board : Board.t) (tl : option Q)
    (dl : option Z) :
  let run := ChessAnalyzer.quit_engine self in
  match fst run with
  | Ok _ => True
  | Raise x => is_Exception x = false
  end
  /\ match ChessAnalyzer.engine self with
     | None => run = (Ok tt, self)
     | Some _ =>
         exists e',
           ChessAnalyzer.engine (snd run) = Some e'
           /\ ChessAnalyzer.analyze_position board tl dl (snd run)
              = (let (r, e'') :=
                   analyse board (ChessAnalyzer.analysis_limit self tl dl) e' in
                 (match r with
                  | Ok info => Ok info
                  | Raise x => if is_Exception x then Ok Info.empty else Raise x
                  end,
                  ChessAnalyzer.set_engine (Some e'') self))
     end.
Proof.
  cbv zeta. unfold ChessAnalyzer.quit_engine.
  destruct (ChessAnalyzer.engine self) as [e|] eqn:He; [|now split].
  destruct (quit e) as [[u|x] e'].
  - split; [exact I|]. exists e'. split; [reflexivity|].
    unfold ChessAnalyzer.analyze_position. cbn.
    destruct (analyse board _ e') as [[info|y] e'']; [reflexivity|].
    destruct (is_Exception y); reflexivity.
  - destruct (is_Exception x) eqn:Ex.
    + split; [exact I|]. exists e'. split; [reflexivity|].
      unfold ChessAnalyzer.analyze_position. cbn.
      destruct (analyse board _ e') as [[info|y] e'']; [reflexivity|].
      destruct (is_Exception y); reflexivity.
    + split; [exact Ex|]. exists e'. split; [reflexivity|].
      unfold ChessAnalyzer.analyze_position. cbn.
      destruct (analyse board _ e') as [[info|y] e'']; [reflexivity|].
      destruct (is_Exception y); reflexivity.
Qed.

Section DecimalFacts.

(** Reading back a printed natural number. *)
Lemma int_plus_of_int (n : Z) :
  0 <= n -> PyStr.int (String "+" (PyStr.of_int n)) = Some n.
Proof.
  intros Hn. destruct n as [|p|p]; [reflexivity| |lia].
  exact (int_Score_str_Cp (Z.pos p)).
Qed.

Lemma of_int_inj (a b : Z) :
  0 <= a -> 0 <= b -> PyStr.of_int a = PyStr.of_int b -> a = b.
Proof.
  intros Ha Hb H.
  pose proof (int_plus_of_int Ha) as Ea. pose proof (int_plus_of_int Hb) as Eb.
  rewrite H in Ea. congruence.
Qed.

End DecimalFacts.

(** The text of [format_mate_info] tells whether there is a mate and, when
    there is, which distance it was given: no two distances (or a distance
    and none) print alike, and none prints as ["No mate"]. *)
Theorem format_mate_info_tells_mates_apart :
  (forall a b : option Z,
      ChessUtils.format_mate_info true a = ChessUtils.format_mate_info true b ->
      a = b)
  /\ (forall a b : option Z,
         String.eqb (ChessUtils.format_mate_info true a)
           (ChessUtils.format_mate_info false b) = false).
Proof.
  split.
  - intros [m|] [n|]; unfold ChessUtils.format_mate_info; cbn [negb];
      try reflexivity.
    + destruct (0 <? m) eqn:Em, (0 <? n) eqn:En; cbn [append]; intros H.
      * apply Z.ltb_lt in Em, En. injection H as H.
        f_equal. apply of_int_inj; [lia | lia | exact H].
      * discriminate H.
      * discriminate H.
      * apply Z.ltb_ge in Em, En. injection H as H.
        apply of_int_inj in H; [|lia|lia]. f_equal. lia.
    + destruct (0 <? m); cbn [append]; intros H; discriminate H.
    + destruct (0 <? n); cbn [append]; intros H; discriminate H.
  - intros [m|] b; unfold ChessUtils.format_mate_info; cbn [negb].
    + destruct (0 <? m); reflexivity.
    + reflexivity.
Qed.

Section StripFacts.

Lemma string_length_ind (P : string -> Prop) :
  (forall s, (forall t, (String.length t < String.length s)%nat -> P t) -> P s) ->
  forall s, P s.
Proof.
  intros H s. apply H.
  induction s as [|c r IH]; intros t Ht; cbn in Ht; [lia|].
  apply H. intros u Hu. apply IH. lia.
Qed.

Lemma lstrip_unfold (s : string) :
  PyStr.lstrip s
  = match PyStr.space_prefix s with
    | Some r => PyStr.lstrip r
    | None => s
    end.
Proof.
  destruct s as [|a [|b [|c r]]]; unfold PyStr.space_prefix;
    cbn [PyStr.lstrip]; try reflexivity.
  - destruct (PyStr.is_space a); reflexivity.
  - destruct (PyStr.is_space a); [reflexivity|].
    destruct (PyStr.is_space2 a b); reflexivity.
  - destruct (PyStr.is_space a); [reflexivity|].
    destruct (PyStr.is_space2 a b); [reflexivity|].
    destruct (PyStr.is_space3 a b c); reflexivity.
Qed.

Lemma rstrip_unfold (c : ascii) (r : string) :
  PyStr.rstrip (String c r)
  = match PyStr.lstrip (String c r) with
    | EmptyString => EmptyString
    | String _ _ => String c (PyStr.rstrip r)
    end.
Proof. reflexivity. Qed.

Lemma space_prefix_length (s r : string) :
  PyStr.space_prefix s = Some r -> (String.length r < String.length s)%nat.
Proof.
  destruct s as [|a [|b [|c u]]]; unfold PyStr.space_prefix;
    try discriminate.
  - destruct (PyStr.is_space a); intros H; inversion H; cbn; lia.
  - destruct (PyStr.is_space a); [intros H; inversion H; cbn; lia|].
    destruct (PyStr.is_space2 a b); intros H; inversion H; cbn; lia.
  - destruct (PyStr.is_space a); [intros H; inversion H; cbn; lia|].
    destruct (PyStr.is_space2 a b); [intros H; inversion H; cbn; lia|].
    destruct (PyStr.is_space3 a b c); intros H; inversion H; cbn; lia.
Qed.

(** A whitespace character at the head of [u] is one at the head of
    [u ++ v]. *)
Lemma space_prefix_app (u u' v : string) :
  PyStr.space_prefix u = Some u' ->
  PyStr.space_prefix (u ++ v) = Some (u' ++ v).
Proof.
  destruct u as [|a [|b [|c r]]]; unfold PyStr.space_prefix;
    cbn [append]; try discriminate.
  - destruct (PyStr.is_space a); intros H; inversion H; reflexivity.
  - destruct (PyStr.is_space a); [intros H; inversion H; reflexivity|].
    destruct (PyStr.is_space2 a b); intros H; inversion H; reflexivity.
  - destruct (PyStr.is_space a); [intros H; inversion H; reflexivity|].
    destruct (PyStr.is_space2 a b); [intros H; inversion H; reflexivity|].
    destruct (PyStr.is_space3 a b c); intros H; inversion H; reflexivity.
Qed.

(** Whitespace throughout, then [v]: [lstrip] leaves what it leaves of
    [v]. *)
Lemma lstrip_app (u v : string) :
  PyStr.lstrip u = "" -> PyStr.lstrip (u ++ v) = PyStr.lstrip v.
Proof.
  revert v. induction u as [u IH] using string_length_ind. intros v H.
  rewrite lstrip_unfold in H.
  destruct (PyStr.space_prefix u) as [u'|] eqn:E.
  - rewrite (lstrip_unfold (u ++ v)), (space_prefix_app _ v E).
    apply IH; [now apply space_prefix_length | exact H].
  - subst u. reflexivity.
Qed.

(** What [lstrip] leaves does not begin with whitespace. *)
Lemma lstrip_fixed (s : string) :
  PyStr.space_prefix (PyStr.lstrip s) = None.
Proof.
  induction s as [s IH] using string_length_ind.
  rewrite lstrip_unfold.
  destruct (PyStr.space_prefix s) as [r|] eqn:E; [|exact E].
  apply IH. now apply space_prefix_length.
Qed.

(** What [rstrip] removes is whitespace throughout. *)
Lemma rstrip_decompose (s : string) :
  exists z, s = PyStr.rstrip s ++ z /\ PyStr.lstrip z = "".
Proof.
  induction s as [|c r (z & Hz & Hl)]; [exists ""; now split|].
  rewrite rstrip_unfold.
  destruct (PyStr.lstrip (String c r)) as [|c' u] eqn:E.
  - exists (String c r). now split.
  - exists z. split; [|exact Hl]. cbn [append]. now rewrite <- Hz.
Qed.

Lemma rstrip_idempotent (s : string) :
  PyStr.rstrip (PyStr.rstrip s) = PyStr.rstrip s.
Proof.
  induction s as [|c r IH]; [reflexivity|].
  rewrite rstrip_unfold.
  destruct (PyStr.lstrip (String c r)) as [|c' u] eqn:E; [reflexivity|].
  rewrite rstrip_unfold.
  destruct (PyStr.lstrip (String c (PyStr.rstrip r))) as [|c2 u2] eqn:E2.
  - exfalso. destruct (rstrip_decompose r) as (z & Hz & Hl).
    pose proof (lstrip_app _ z E2) as H.
    cbn [append] in H. rewrite <- Hz, Hl, E in H. discriminate H.
  - now rewrite IH.
Qed.

Lemma strip_idempotent (s : string) :
  PyStr.strip (PyStr.strip s) = PyStr.strip s.
Proof.
  unfold PyStr.strip.
  assert (H : PyStr.lstrip (PyStr.rstrip (PyStr.lstrip s))
              = PyStr.rstrip (PyStr.lstrip s)).
  { rewrite lstrip_unfold.
    destruct (PyStr.space_prefix (PyStr.rstrip (PyStr.lstrip s)))
      as [u|] eqn:E; [|reflexivity].
    exfalso. destruct (rstrip_decompose (PyStr.lstrip s)) as (z & Hz & _).
    apply (fun H => space_prefix_app _ z H) in E.
    rewrite <- Hz, lstrip_fixed in E. discriminate E. }
  rewrite H. apply rstrip_idempotent.
Qed.

End StripFacts.

(** Parsing is a projection: what [parse_state_string] returns is clean
    (the turn is ["white"] or ["black"], the position is stripped and
    accepted by the rules library), and when position and arrows hold no
    colon, the record written back from the three parts parses to the same
    three parts. *)
Theorem parse_state_string_round_trip
    {rules : RulesLibrary} (s t f a : string) :
  ChessUtils.parse_state_string s = Ok (t, f, a) ->
  (t = "white" \/ t = "black")
  /\ PyStr.strip f = f
  /\ ChessUtils.validate_fen f = true
  /\ (no_colon f = true -> no_colon a = true ->
      ChessUtils.parse_state_string (t ++ "::" ++ f ++ "::" ++ a)
      = Ok (t, f, a)).
Proof.
  intros H. unfold ChessUtils.parse_state_string in H.
  destruct (PyStr.split_dcolon s) as [|p0 [|p1 rest]]; try discriminate.
  destruct (PyStr.mem (PyStr.strip p0) ["white"; "black"]) eqn:Em;
    cbn [negb] in H; [|discriminate].
  destruct (Board.of_fen (PyStr.strip p1)) as [b|x] eqn:Eb;
    [|destruct x; discriminate].
  inversion H; subst t f a. clear H.
  assert (PyStr.strip p0 = "white" \/ PyStr.strip p0 = "black") as Ht.
  { unfold PyStr.mem in Em. cbn [existsb] in Em.
    destruct (String.eqb (PyStr.strip p0) "white") eqn:E1.
    - left. now apply String.eqb_eq.
    - destruct (String.eqb (PyStr.strip p0) "black") eqn:E2; [|discriminate].
      right. now apply String.eqb_eq. }
  set (t := PyStr.strip p0) in *. set (f := PyStr.strip p1) in *.
  set (a := match rest with p2 :: _ => PyStr.strip p2 | [] => "" end).
  assert (PyStr.strip f = f) as Hf by apply strip_idempotent.
  assert (PyStr.strip a = a) as Hsa.
  { unfold a. destruct rest; [reflexivity | apply strip_idempotent]. }
  split; [exact Ht|]. split; [exact Hf|]. split.
  - unfold ChessUtils.validate_fen. now rewrite Eb.
  - intros Hcf Hca.
    assert (no_colon t = true /\ PyStr.strip t = t
            /\ PyStr.mem t ["white"; "black"] = true) as (Hct & Hst & Hmt).
    { destruct Ht as [-> | ->]; repeat split. }
    pose proof (parse_state_string_outcome (t ++ "::" ++ f ++ "::" ++ a)) as Ho.
    cbv zeta in Ho. unfold fails_on_stripped_segments in Ho.
    rewrite (split_dcolon_no_colon t _ Hct) in Ho.
    rewrite (split_dcolon_no_colon f _ Hcf) in Ho.
    rewrite (split_dcolon_plain _ Hca) in Ho.
    cbn [List.length Nat.ltb Nat.leb nth orb] in Ho.
    rewrite Hst, Hf, Hsa, Hmt in Ho. unfold parseable in Ho.
    unfold Board.of_fen in Eb. destruct (set_fen f); [|discriminate].
    exact Ho.
Qed.

(** Witness: a padded record of the miniature library. *)
Lemma parse_state_string_round_trip_on_padded_record :
  ChessUtils.parse_state_string (rules := Mini.rules)
    ("white" ++ "::" ++ "calm w" ++ "::" ++ "e2e4")
  = Ok ("white", "calm w", "e2e4").
Proof.
  exact (proj2 (proj2 (proj2
           (@parse_state_string_round_trip Mini.rules
              "  white ::calm w  :: e2e4 " "white" "calm w" "e2e4" eq_refl)))
           eq_refl eq_refl).
Defined.

(* ================================================================== *)
(** * The two enumerations side by side *)

Section SideBySide.
Context {rules : RulesLibrary} {proc : EngineProcess rules}.

Lemma move_json_of_info_forgets (m : Move) (info : Info.t) :
  ChessAnalyzer.move_json_of_info m info
  = match ChessAnalyzer.move_data_of_info m info with
    | Ok d => Ok (without_search_figures d)
    | Raise x => Raise x
    end.
Proof.
  unfold ChessAnalyzer.move_json_of_info, ChessAnalyzer.move_data_of_info.
  destruct (Info.truthy info), (Info.score info) as [s|]; try reflexivity.
  destruct (PyChess.is_mate s).
  - destruct (PyChess.mate s); [|reflexivity].
    destruct (Info.pv info) as [[|? ?]|], (Info.depth info), (Info.nodes info);
      reflexivity.
  - destruct (ChessAnalyzer.centipawn_advantage s),
      (Info.pv info) as [[|? ?]|], (Info.depth info), (Info.nodes info);
      reflexivity.
Qed.

Lemma for_legal_moves_json_forgets (tl : option Q) (legal : list Move) :
  forall acc st,
    ChessAnalyzer.for_legal_moves_json tl legal
      (map without_search_figures acc) st
    = (match fst (ChessAnalyzer.for_legal_moves tl legal acc st) with
       | Ok l => Ok (map without_search_figures l)
       | Raise x => Raise x
       end,
       snd (ChessAnalyzer.for_legal_moves tl legal acc st)).
Proof.
  induction legal as [|m rest IH]; intros acc [self board].
  - reflexivity.
  - rewrite for_legal_moves_json_step, for_legal_moves_step.
    destruct (ChessAnalyzer.analyze_position (Board.push m board) tl None self)
      as [[info|x] s1]; [|reflexivity].
    rewrite move_json_of_info_forgets.
    destruct (ChessAnalyzer.move_data_of_info m info) as [md|x];
      [|reflexivity].
    rewrite <- IH, List.map_app. reflexivity.
Qed.

Lemma insert_reverse_map (A : Type) (key : A -> Q) (f : A -> A)
    (Hkey : forall x, key (f x) = key x) (x : A) (l : list A) :
  insert_reverse key (f x) (map f l) = map f (insert_reverse key x l).
Proof.
  induction l as [|y l IH]; [reflexivity|].
  cbn. rewrite !Hkey. destruct (Qle_bool (key y) (key x)); [reflexivity|].
  cbn. now rewrite IH.
Qed.

Lemma sort_reverse_map (A : Type) (key : A -> Q) (f : A -> A)
    (Hkey : forall x, key (f x) = key x) (l : list A) :
  sort_reverse key (map f l) = map f (sort_reverse key l).
Proof.
  induction l as [|x l IH]; [reflexivity|].
  cbn. rewrite IH. now apply insert_reverse_map.
Qed.

End SideBySide.

(** [get_moves_json] is [get_board_analysis] without the search figures:
    on the same analyzer and board it ends the same way (same exception,
    same state of engine and board) and, when both return, gives the same
    FEN and count and the same records in the same order, less
    [depth_reached] and [nodes_searched]. *)
Theorem get_moves_json_is_get_board_analysis_without_search_figures
    {rules : RulesLibrary} {proc : EngineProcess rules}
    (tl : option Q) (st : ChessAnalyzer.St proc) :
  ChessAnalyzer.get_moves_json tl st
  = (moves_json_of_analysis (fst (ChessAnalyzer.get_board_analysis tl st)),
     snd (ChessAnalyzer.get_board_analysis tl st)).
Proof.
  destruct st as [self board].
  unfold ChessAnalyzer.get_moves_json, ChessAnalyzer.get_board_analysis.
  destruct (legal_moves (Board.position board)) as [|m rest] eqn:El;
    [reflexivity|].
  unfold bind, ret.
  rewrite (for_legal_moves_json_forgets _ (m :: rest) [] (self, board)).
  destruct (ChessAnalyzer.for_legal_moves
              (Some match tl with
                    | Some t => t
                    | None => ChessAnalyzer.default_time self
                    end) (m :: rest) [] (self, board)) as [[l|x] st'];
    [|reflexivity].
  cbn. rewrite sort_reverse_map; [reflexivity|].
  intros [? ? ? ? ? ? ?]. reflexivity.
Qed.

(* ================================================================== *)
(** * What the services raise *)

Section ForeseenFacts.
Context {rules : RulesLibrary} {proc : EngineProcess rules}.
Variable os : OS proc.
Variable settings : Settings.t.

Lemma foreseen_bind (S A B : Type) (m : M S A) (k : A -> M S B) (s : S) :
  foreseen (fst (m s)) = true ->
  (forall a s', foreseen (fst (k a s')) = true) ->
  foreseen (fst (bind m k s)) = true.
Proof.
  intros Hm Hk. unfold bind. destruct (m s) as [[a|x] s'].
  - apply Hk.
  - exact Hm.
Qed.

Lemma foreseen_reraise (A : Type) (prefix : string)
    (m : M (ChessService.t proc) A) (s : ChessService.t proc) :
  foreseen (fst (ChessService.reraise prefix m s)) = true.
Proof.
  unfold ChessService.reraise, try_except.
  destruct (m s) as [[a|x] s']; [reflexivity|].
  destruct (is_Exception x) eqn:Ex; [reflexivity|].
  cbn. rewrite Ex. now rewrite Bool.orb_true_r.
Qed.

Lemma foreseen_parse_state_string (s : string) :
  foreseen (ChessUtils.parse_state_string s) = true.
Proof.
  unfold ChessUtils.parse_state_string, Board.of_fen.
  destruct (PyStr.split_dcolon s) as [|p0 [|p1 rest]]; try reflexivity.
  destruct (negb (PyStr.mem (PyStr.strip p0) ["white"; "black"]));
    [reflexivity|].
  destruct (set_fen (PyStr.strip p1)); reflexivity.
Qed.

Lemma foreseen_create_board (f : string) :
  foreseen (ChessService.create_board f) = true.
Proof.
  unfold ChessService.create_board, Board.of_fen.
  destruct (set_fen f); reflexivity.
Qed.

Lemma foreseen_get_analyzer (svc : ChessService.t proc) :
  foreseen (fst (ChessService._get_analyzer os settings svc)) = true.
Proof.
  unfold ChessService._get_analyzer, ChessService._initialize_analyzer.
  destruct (ChessService._analyzer svc); [reflexivity|].
  destruct (match ChessService._engine_path svc with
            | Some p => Some p
            | None => ChessUtils.find_stockfish_path (path_exists os)
                        (Settings.stockfish_paths settings)
            end) as [path|]; [|reflexivity].
  unfold ChessAnalyzer.start_engine, try_except, ChessAnalyzer.init, raise.
  cbn [ChessAnalyzer.engine_path].
  destruct (path_exists os path); cbn; [|reflexivity].
  destruct (popen_uci os path) as [e|x]; [reflexivity|].
  destruct (is_Exception x) eqn:Ex; [reflexivity|].
  cbn. rewrite Ex. now rewrite Bool.orb_true_r.
Qed.

End ForeseenFacts.

(** The two operations of the service raise nothing the route handlers
    have no name for: whatever the record, the limit, the machine, the
    engine and the state of the service, each returns, or raises a
    [ValueError] (pydantic's [ValidationError] included) or a
    [RuntimeError], or lets through what is no [Exception] at all.  The
    handlers' last clause, "Unexpected error", answers neither. *)
Theorem service_raises_only_what_the_routes_name
    {rules : RulesLibrary} {proc : EngineProcess rules}
    (os : OS proc) (settings : Settings.t) (s : string) (tl : option Q)
    (svc : ChessService.t proc) :
  foreseen (fst (ChessService.analyze_position os settings s tl svc)) = true
  /\ foreseen (fst (ChessService.get_best_move os settings s tl svc)) = true.
Proof.
  split.
  - unfold ChessService.analyze_position, ChessService.analyze_position_with.
    apply foreseen_bind; [apply foreseen_parse_state_string|].
    intros [[turn f] arrows] s1.
    apply foreseen_bind; [apply foreseen_create_board|]. intros board s2.
    apply foreseen_bind; [apply foreseen_get_analyzer|]. intros analyzer s3.
    apply foreseen_bind; [apply foreseen_reraise|].
    intros [data [a1 b1]] s4.
    apply foreseen_bind; [apply foreseen_reraise|].
    intros [best st] s5. reflexivity.
  - unfold ChessService.get_best_move, ChessService.get_best_move_with.
    apply foreseen_bind; [apply foreseen_parse_state_string|].
    intros [[turn f] arrows] s1.
    apply foreseen_bind; [apply foreseen_create_board|]. intros board s2.
    apply foreseen_bind; [apply foreseen_get_analyzer|]. intros analyzer s3.
    apply foreseen_bind; [apply foreseen_reraise|].
    intros [best st] s4.
    destruct (BestMoveData.error best); [reflexivity|].
    unfold lift, BestMoveResponse.validate.
    destruct (BestMoveData.best_move best); reflexivity.
Qed.

(* ================================================================== *)
(** * A request from end to end *)

(** What a whole [analyze_position] request asks of the engine: when the
    service answers, the engine has been given the board after each legal
    move, once each and in their order, and then the position itself, all
    under the one limit made of the validated time: one analysis more than
    there are legal moves, and nothing else. *)
Theorem service_analyze_position_asks_each_successor_then_the_position
    {rules : RulesLibrary} (proc : EngineProcess rules)
    (os : OS (Recording proc)) (settings : Settings.t)
    (s turn fen_ arrows : string) (p : Position) (tl : option Q)
    (svc svc' : ChessService.t (Recording proc))
    (analyzer : ChessAnalyzer.t (Recording proc))
    (e : @Engine rules proc) (log : list (Board.t * Limit.t))
    (resp : AnalysisResponse.t) :
  ChessUtils.parse_state_string s = Ok (turn, fen_, arrows) ->
  set_fen fen_ = inl p ->
  ChessService._analyzer svc = Some analyzer ->
  ChessAnalyzer.engine analyzer = Some (recorded proc e log) ->
  ChessService.analyze_position os settings s tl svc = (Ok resp, svc') ->
  let board := Board.mk p [] [] in
  let limit :=
    ChessAnalyzer.analysis_limit analyzer
      (Some (ChessService.validate_time_limit settings tl)) None in
  exists analyzer' e',
    ChessService._analyzer svc' = Some analyzer'
    /\ ChessAnalyzer.engine analyzer'
       = Some (recorded proc e'
                 ((board, limit)
                  :: rev (map (fun m => (Board.push m board, limit))
                            (legal_moves p)) ++ log)%list).
Proof.
  intros Hp Hf Ha He. cbv zeta.
  unfold ChessService.analyze_position, bind, lift. rewrite Hp.
  rewrite (service_analyze_position_with os settings _
             (ChessService.validate_time_limit settings tl) svc Hf Ha).
  set (L := ChessService.validate_time_limit settings tl).
  pose proof (get_board_analysis_limit (Some L) (analyzer, Board.mk p [] [])
                (Some L) None) as Hl.
  destruct (ChessAnalyzer.get_board_analysis (Some L)
              (analyzer, Board.mk p [] [])) as [[data|x] [a1 b1]] eqn:Eg;
    [|discriminate].
  cbn [fst snd] in Hl.
  destruct (get_board_analysis_ok _ _ _ Eg) as [Hb _]. subst b1.
  destruct (@get_board_analysis_recorded _ proc _ _ _ _ _ _ _ _ He Eg)
    as [e1 He1].
  cbn [Board.position] in He1.
  pose proof (get_best_move_state (Board.mk p [] []) (Some L) a1) as Hs.
  cbv beta iota in Hs.
  destruct (analyze_position_recorded (Board.mk p [] []) (Some L) a1 He1)
    as (r2 & e2 & Ha2).
  rewrite Ha2 in Hs. cbn [snd] in Hs.
  destruct (ChessAnalyzer.get_best_move (Board.mk p [] []) (Some L) a1)
    as [[best|x] a2]; [|discriminate].
  cbn [snd] in Hs. subst a2.
  intros H. inversion H; subst.
  do 2 eexists. split; [reflexivity|].
  cbn [ChessAnalyzer.engine ChessAnalyzer.set_engine].
  rewrite Hl. reflexivity.
Qed.

(** Witness: the miniature service on the recording engine answers the
    record ["white::calm w::"] after four analyses, of the three successors
    and of the position, each under two seconds. *)
Lemma service_analyze_position_record_on_calm_board :
  let board := Mini.board_of (Mini.mkPosition "calm" true []) in
  let limit := Limit.mk (Some (2 # 1)) None in
  let analyzer := ChessAnalyzer.mk (proc := Recording Mini.engine)
                    "/usr/bin/stockfish" (Some (recorded Mini.engine [] []))
                    None (1 # 1) in
  let os := mkOS (Recording Mini.engine) (fun _ => false)
              (fun path => Raise (FileNotFoundError path)) in
  exists analyzer' e',
    ChessService._analyzer
      (snd (ChessService.analyze_position os Settings.defaults
              "white::calm w::" (Some (2 # 1))
              (ChessService.mk (Some analyzer) None)))
    = Some analyzer'
    /\ ChessAnalyzer.engine analyzer'
       = Some (recorded Mini.engine e'
                 [ (board, limit);
                   (Board.push (rules := Mini.rules) Mini.Silent board, limit);
                   (Board.push (rules := Mini.rules) Mini.Crash board, limit);
                   (Board.push (rules := Mini.rules) Mini.Quiet board, limit) ]).
Proof.
  cbv zeta.
  refine (@service_analyze_position_asks_each_successor_then_the_position
            Mini.rules Mini.engine
            (mkOS (Recording Mini.engine) (fun _ => false)
               (fun path => Raise (FileNotFoundError path)))
            Settings.defaults "white::calm w::" "white" "calm w" ""
            (Mini.mkPosition "calm" true []) (Some (2 # 1))
            (ChessService.mk
               (Some (ChessAnalyzer.mk (proc := Recording Mini.engine)
                        "/usr/bin/stockfish"
                        (Some (recorded Mini.engine [] [])) None (1 # 1)))
               None)
            _ _ [] [] _ eq_refl eq_refl eq_refl eq_refl _).
  vm_compute. reflexivity.
Defined.

(** The first request starts the engine: whenever [start_engine] would
    succeed, a request whose record parses gives, on the service as it is,
    the outcome and the final state it gives on the started service, for
    both operations. *)
Theorem request_on_unstarted_service_is_start_then_request
    {rules : RulesLibrary} {proc : EngineProcess rules}
    (os : OS proc) (settings : Settings.t) (s : string) (tl : option Q)
    (svc started : ChessService.t proc) (r : string * string * string) :
  ChessUtils.parse_state_string s = Ok r ->
  ChessService.start_engine os settings svc = (Ok tt, started) ->
  ChessService.analyze_position os settings s tl svc
  = ChessService.analyze_position os settings s tl started
  /\ ChessService.get_best_move os settings s tl svc
     = ChessService.get_best_move os settings s tl started.
Proof.
  intros Hp Hs.
  unfold ChessService.start_engine, try_except, bind, ret, raise in Hs.
  destruct (ChessService._get_analyzer os settings svc) as [[a|x] s1] eqn:Eg.
  2:{ destruct (is_Exception x); discriminate. }
  inversion Hs; subst s1.
  pose proof (get_analyzer_held _ _ _ Eg) as Hh.
  assert (Eg' : ChessService._get_analyzer os settings started
                = (Ok a, started)).
  { unfold ChessService._get_analyzer. now rewrite Hh. }
  destruct r as [[t f] ar].
  assert (Hc : exists b, ChessService.create_board f = Ok b).
  { unfold ChessUtils.parse_state_string in Hp.
    unfold ChessService.create_board.
    destruct (PyStr.split_dcolon s) as [|p0 [|p1 rest]]; try discriminate.
    destruct (negb (PyStr.mem (PyStr.strip p0) ["white"; "black"]));
      [discriminate|].
    destruct (Board.of_fen (PyStr.strip p1)) as [b|x] eqn:Eb.
    - inversion Hp; subst. rewrite Eb. eauto.
    - destruct x; discriminate. }
  destruct Hc as [b Hc].
  split.
  - unfold ChessService.analyze_position, ChessService.analyze_position_with,
      bind, lift.
    rewrite Hp, Hc, Eg, Eg'. reflexivity.
  - unfold ChessService.get_best_move, ChessService.get_best_move_with,
      bind, lift.
    rewrite Hp, Hc, Eg, Eg'. reflexivity.
Qed.

(** Witness: on the machine with Stockfish installed, the first request to
    a new service and the same request to the started service. *)
Lemma first_request_on_installed_machine :
  ChessService.analyze_position Mini.os_installed Settings.defaults
    "white::calm w::" None ChessService.init
  = ChessService.analyze_position Mini.os_installed Settings.defaults
      "white::calm w::" None
      (ChessService.mk (Some Mini.started) (Some "/usr/bin/stockfish")).
Proof.
  exact (proj1 (@request_on_unstarted_service_is_start_then_request
                  Mini.rules Mini.engine Mini.os_installed Settings.defaults
                  "white::calm w::" None ChessService.init
                  (ChessService.mk (Some Mini.started)
                     (Some "/usr/bin/stockfish"))
                  ("white", "calm w", "") eq_refl eq_refl)).
Defined.
